(** * Legal statute analysis backend: document pipeline and analysis pipeline

    A shallow embedding of the Python services under [src/main/python]
    ([utils/file_storage.py], [utils/ocr.py], [services/document_service.py],
    [services/llm_service.py], [services/analysis_service.py], the classes
    of [models] they store, and the handlers of [api/documents.py] and
    [api/analysis.py] that guard them), followed by the properties of the
    specification that concern them.

    Python objects shared through the SQLAlchemy session are modelled by an
    explicit store; exceptions by an outcome type; the file system, the
    clock, [uuid.uuid4] and the remote services by components of one world
    record that every operation threads through. *)

From stdpp Require Import base gmap strings list pretty.
From Stdlib Require Import Ascii QArith Lia Sorted.

Set Warnings "-register-all".
Close Scope Q_scope.
Open Scope string_scope.

(** ** Python strings

    A [str] is kept as its UTF-8 bytes.  Substring tests and slices at
    indices returned by [find]/[rfind] agree on bytes and on code points,
    because UTF-8 is self-synchronising; [len] counts code points. *)

Module Py.

Definition is_upper (c : ascii) : bool :=
  let n := nat_of_ascii c in (65 <=? n)%nat && (n <=? 90)%nat.

Definition lower_char (c : ascii) : ascii :=
  if is_upper c then ascii_of_nat (nat_of_ascii c + 32) else c.

(** [str.lower()] on the ASCII letters; bytes of other code points are
    left as they are. *)
Fixpoint lower (s : string) : string :=
  match s with
  | EmptyString => EmptyString
  | String c s' => String (lower_char c) (lower s')
  end.

(** A byte [10xxxxxx] continues a code point. *)
Definition is_continuation (c : ascii) : bool :=
  let n := nat_of_ascii c in (128 <=? n)%nat && (n <? 192)%nat.

(** [len(s)]: the number of code points. *)
Fixpoint len (s : string) : nat :=
  match s with
  | EmptyString => 0
  | String c s' => if is_continuation c then len s' else S (len s')
  end.

(** [needle in hay]. *)
Fixpoint contains (needle hay : string) : bool :=
  String.prefix needle hay ||
  match hay with
  | EmptyString => false
  | String _ hay' => contains needle hay'
  end.

(** [any(k in text for k in keywords)]. *)
Definition any_in (keywords : list string) (text : string) : bool :=
  existsb (fun k => contains k text) keywords.

(** [s.find(c)] for a one-character [c]: first index, or [-1]. *)
Fixpoint find_from (c : ascii) (s : string) (i : Z) : Z :=
  match s with
  | EmptyString => (-1)%Z
  | String a s' => if Ascii.eqb a c then i else find_from c s' (i + 1)%Z
  end.
Definition find (c : ascii) (s : string) : Z := find_from c s 0%Z.

(** [s.rfind(c)]: last index, or [-1]. *)
Fixpoint rfind_from (c : ascii) (s : string) (i : Z) : Z :=
  match s with
  | EmptyString => (-1)%Z
  | String a s' =>
      let r := rfind_from c s' (i + 1)%Z in
      if (0 <=? r)%Z then r else if Ascii.eqb a c then i else (-1)%Z
  end.
Definition rfind (c : ascii) (s : string) : Z := rfind_from c s 0%Z.

(** [s[a:b]] for indices that are not negative. *)
Definition slice (a b : Z) (s : string) : string :=
  String.substring (Z.to_nat a) (Z.to_nat (b - a)) s.

(** [s[a:]] for an index that is not negative. *)
Definition slice_from (a : Z) (s : string) : string :=
  String.substring (Z.to_nat a) (String.length s - Z.to_nat a) s.

(** [s[:n]]. *)
Definition take (n : nat) (s : string) : string := String.substring 0 n s.

(** The code points of a string, each as its bytes. *)
Fixpoint chars (s : string) : list string :=
  match s with
  | EmptyString => []
  | String c s' =>
      match chars s' with
      | String c' x :: xs =>
          if is_continuation c' then String c (String c' x) :: xs
          else String c EmptyString :: String c' x :: xs
      | r => String c EmptyString :: r
      end
  end.

(** [ch.isspace()] for one code point: U+0009 to U+000D, U+001C to U+0020,
    U+0085, U+00A0, U+1680, U+2000 to U+200A, U+2028, U+2029, U+202F,
    U+205F and U+3000. *)
Definition is_space (ch : string) : bool :=
  match List.map nat_of_ascii (String.list_ascii_of_string ch) with
  | [a] => ((9 <=? a)%nat && (a <=? 13)%nat)
           || ((28 <=? a)%nat && (a <=? 32)%nat)
  | [a; b] => (a =? 194)%nat && ((b =? 133)%nat || (b =? 160)%nat)
  | [a; b; c] =>
      ((a =? 225)%nat && (b =? 154)%nat && (c =? 128)%nat)
      || ((a =? 226)%nat && (b =? 128)%nat
          && (((128 <=? c)%nat && (c <=? 138)%nat)
              || (c =? 168)%nat || (c =? 169)%nat || (c =? 175)%nat))
      || ((a =? 226)%nat && (b =? 129)%nat && (c =? 159)%nat)
      || ((a =? 227)%nat && (b =? 128)%nat && (c =? 128)%nat)
  | _ => false
  end.

Fixpoint drop_spaces (l : list string) : list string :=
  match l with
  | [] => []
  | ch :: l' => if is_space ch then drop_spaces l' else l
  end.

(** [s.strip()]. *)
Definition strip (s : string) : string :=
  String.concat ""
    (List.rev (drop_spaces (List.rev (drop_spaces (chars s))))).

(** [len(s.split())]: the number of maximal runs without white space. *)
Fixpoint count_runs (in_word : bool) (l : list string) : nat :=
  match l with
  | [] => 0
  | ch :: l' =>
      if is_space ch then count_runs false l'
      else (if in_word then 0 else 1) + count_runs true l'
  end.
Definition count_words (s : string) : nat := count_runs false (chars s).

(** [s[:n]] in code points. *)
Fixpoint take_chars (n : nat) (s : string) : string :=
  match s with
  | EmptyString => EmptyString
  | String c s' =>
      if is_continuation c then String c (take_chars n s')
      else match n with
           | O => EmptyString
           | S n' => String c (take_chars n' s')
           end
  end.

(** [sep.join(l)]. *)
Fixpoint join (sep : string) (l : list string) : string :=
  match l with
  | [] => ""
  | [x] => x
  | x :: l' => x +:+ sep +:+ join sep l'
  end.

(** Truthiness of a [str]. *)
Definition truthy (s : string) : bool := negb (bool_decide (s = "")).

(** ** [pathlib.PurePosixPath] *)

Fixpoint split_on (sep : ascii) (s : string) : list string :=
  match s with
  | EmptyString => [EmptyString]
  | String c s' =>
      if Ascii.eqb c sep then EmptyString :: split_on sep s'
      else match split_on sep s' with
           | [] => [String c EmptyString]
           | x :: xs => String c x :: xs
           end
  end.

(** The components of a path: empty and ["."] components are dropped. *)
Definition parts (p : string) : list string :=
  filter (fun c => c ≠ "" ∧ c ≠ ".") (split_on "/" p).

(** [Path(p).name]: the last component. *)
Definition name (p : string) : string := List.last (parts p) "".

(** [Path(p).suffix]: from the last dot of the name, when that dot is
    neither its first nor its last character. *)
Definition suffix (p : string) : string :=
  let n := name p in
  let i := rfind "." n in
  if ((0 <? i)%Z && (i <? Z.of_nat (String.length n) - 1)%Z)%bool
  then slice_from i n else "".

(** [Path(p).stem]: the name without its suffix. *)
Definition stem (p : string) : string :=
  let n := name p in
  take (String.length n - String.length (suffix p)) n.

(** [Path(p).parent], for a relative path; the parent of a bare name is
    the empty path. *)
Definition parent (p : string) : string :=
  let cs := parts p in
  join "/" (List.firstn (length cs - 1) cs).

(** [dir / name], for a relative [name]. *)
Definition joinpath (dir file : string) : string :=
  if bool_decide (dir = "") then file else dir +:+ "/" +:+ file.

End Py.

(** ** Exceptions and JSON values *)

Inductive Exn :=
| ValueError (msg : string)
| RuntimeError (msg : string)
| FileNotFoundError (msg : string)
| ImportError (msg : string)
| SQLAlchemyError (msg : string)
| ServiceError (msg : string)
| TypeError (msg : string)
| AttributeError (msg : string)
| HTTPException (status : nat) (detail : string).

(** [str(e)]. *)
Definition str (e : Exn) : string :=
  match e with
  | ValueError m | RuntimeError m | FileNotFoundError m | ImportError m
  | SQLAlchemyError m | ServiceError m | TypeError m | AttributeError m => m
  | HTTPException _ d => d
  end.

Definition is_ValueError (e : Exn) : bool :=
  match e with ValueError _ => true | _ => false end.

(** What a call into an external library gives back. *)
Inductive Reply (A : Type) :=
| Got (a : A)
| Threw (e : Exn).
Arguments Got {A} a.
Arguments Threw {A} e.

(** The values of the JSON columns and of the dictionaries handed around. *)
Inductive Json :=
| JNull
| JBool (b : bool)
| JNum (q : Q)
| JStr (s : string)
| JList (l : list Json)
| JDict (kv : list (string * Json)).

(** [d.get(k)] on the items of a dictionary. *)
Fixpoint dict_get {V : Type} (k : string) (kv : list (string * V)) : option V :=
  match kv with
  | [] => None
  | (k', v) :: kv' => if bool_decide (k' = k) then Some v else dict_get k kv'
  end.

(** ** core/config.py *)

Module Settings.
Record t := {
  openai_api_key : string;
  openai_model : string;
  openai_max_tokens : nat;
  upload_dir : string;
  max_file_size : nat;
  allowed_extensions : string;
  ocr_engine : string;
  ocr_language : string
}.

(** The defaults of the class, around a key, which has none. *)
Definition defaults (api_key : string) : t :=
  {| openai_api_key := api_key;
     openai_model := "gpt-4";
     openai_max_tokens := 4000;
     upload_dir := "data/uploads";
     max_file_size := 10 * 1024 * 1024;
     allowed_extensions := ".pdf";
     ocr_engine := "paddleocr";
     ocr_language := "ch_tra" |}.
End Settings.

(** ** Files

    A file is what its readers see in it: [stat] its size, the OCR engines a
    recognition result, PyMuPDF the pages of a document, each of which
    renders to an image file or fails to. *)

Inductive File :=
| mkFile (size : nat)
         (paddle : Reply (option (list (option string))))
         (tesseract : Reply string)
         (fitz : Reply (list (Reply File))).

Definition st_size (f : File) : nat :=
  match f with mkFile n _ _ _ => n end.
Definition paddle_read (f : File) : Reply (option (list (option string))) :=
  match f with mkFile _ p _ _ => p end.
Definition tesseract_read (f : File) : Reply string :=
  match f with mkFile _ _ t _ => t end.
Definition fitz_read (f : File) : Reply (list (Reply File)) :=
  match f with mkFile _ _ _ d => d end.

(** ** What the text extractor returns *)

Record OcrMetadata := {
  total_pages : nat;
  engine_used : string;
  language_used : string;
  success : bool;
  error : option string
}.

Record OcrResult := {
  text : string;
  pages : list (nat * string);
  metadata : OcrMetadata
}.

(** ** models/document.py

    A row has the columns the class declares.  A name that is no attribute
    of the class is refused by the constructor, and reading it from an
    object raises [AttributeError]. *)

Module Document.

Record t := {
  id : string;
  user_id : string;
  filename : string;
  file_type : string;
  file_size : nat;
  storage_path : string;
  processing_status : string;
  ocr_text : option string;
  ocr_confidence : option string;
  processing_started_at : option nat;
  processing_completed_at : option nat;
  error_message : option string;
  created_at : nat;
  updated_at : nat
}.

(** The names the class body gives: its columns, relationships,
    properties and methods. *)
Definition attributes : list string :=
  [ "id"; "user_id"; "filename"; "file_type"; "file_size"; "storage_path";
    "processing_status"; "ocr_text"; "ocr_confidence";
    "processing_started_at"; "processing_completed_at"; "error_message";
    "created_at"; "updated_at"; "user"; "analyses"; "to_dict";
    "is_processing_complete"; "has_ocr_text" ].

Definition set_processing_status (v : string) (d : t) : t :=
  {| id := id d; user_id := user_id d; filename := filename d;
     file_type := file_type d; file_size := file_size d;
     storage_path := storage_path d; processing_status := v;
     ocr_text := ocr_text d; ocr_confidence := ocr_confidence d;
     processing_started_at := processing_started_at d;
     processing_completed_at := processing_completed_at d;
     error_message := error_message d; created_at := created_at d;
     updated_at := updated_at d |}.

Definition set_processing_started_at (v : nat) (d : t) : t :=
  {| id := id d; user_id := user_id d; filename := filename d;
     file_type := file_type d; file_size := file_size d;
     storage_path := storage_path d;
     processing_status := processing_status d;
     ocr_text := ocr_text d; ocr_confidence := ocr_confidence d;
     processing_started_at := Some v;
     processing_completed_at := processing_completed_at d;
     error_message := error_message d; created_at := created_at d;
     updated_at := updated_at d |}.

Definition set_processing_completed_at (v : nat) (d : t) : t :=
  {| id := id d; user_id := user_id d; filename := filename d;
     file_type := file_type d; file_size := file_size d;
     storage_path := storage_path d;
     processing_status := processing_status d;
     ocr_text := ocr_text d; ocr_confidence := ocr_confidence d;
     processing_started_at := processing_started_at d;
     processing_completed_at := Some v;
     error_message := error_message d; created_at := created_at d;
     updated_at := updated_at d |}.

Definition set_error_message (v : string) (d : t) : t :=
  {| id := id d; user_id := user_id d; filename := filename d;
     file_type := file_type d; file_size := file_size d;
     storage_path := storage_path d;
     processing_status := processing_status d;
     ocr_text := ocr_text d; ocr_confidence := ocr_confidence d;
     processing_started_at := processing_started_at d;
     processing_completed_at := processing_completed_at d;
     error_message := Some v; created_at := created_at d;
     updated_at := updated_at d |}.

(** The value of a keyword argument. *)
Inductive Value :=
| VStr (s : string)
| VInt (n : nat).

(** An object on which nothing has been set. *)
Definition blank : t :=
  {| id := ""; user_id := ""; filename := ""; file_type := "";
     file_size := 0; storage_path := ""; processing_status := "";
     ocr_text := None; ocr_confidence := None;
     processing_started_at := None; processing_completed_at := None;
     error_message := None; created_at := 0; updated_at := 0 |}.

(** [setattr(self, k, v)] for the columns a keyword of the service can
    name. *)
Definition setattr (k : string) (v : Value) (d : t) : t :=
  match v with
  | VStr s =>
      if String.eqb k "user_id" then
        {| id := id d; user_id := s; filename := filename d;
           file_type := file_type d; file_size := file_size d;
           storage_path := storage_path d;
           processing_status := processing_status d;
           ocr_text := ocr_text d; ocr_confidence := ocr_confidence d;
           processing_started_at := processing_started_at d;
           processing_completed_at := processing_completed_at d;
           error_message := error_message d; created_at := created_at d;
           updated_at := updated_at d |}
      else if String.eqb k "processing_status" then
        set_processing_status s d
      else d
  | VInt n =>
      if String.eqb k "file_size" then
        {| id := id d; user_id := user_id d; filename := filename d;
           file_type := file_type d; file_size := n;
           storage_path := storage_path d;
           processing_status := processing_status d;
           ocr_text := ocr_text d; ocr_confidence := ocr_confidence d;
           processing_started_at := processing_started_at d;
           processing_completed_at := processing_completed_at d;
           error_message := error_message d; created_at := created_at d;
           updated_at := updated_at d |}
      else d
  end.

(** The constructor a declarative class gets from SQLAlchemy: it takes
    the keywords in their order, sets those that name an attribute of the
    class and raises [TypeError] at the first that does not. *)
Fixpoint init (kwargs : list (string * Value)) (d : t) : Reply t :=
  match kwargs with
  | [] => Got d
  | (k, v) :: rest =>
      if existsb (String.eqb k) attributes then init rest (setattr k v d)
      else Threw (TypeError ("'" +:+ k
                             +:+ "' is an invalid keyword argument for "
                             +:+ "Document"))
  end.

Definition new (kwargs : list (string * Value)) : Reply t :=
  init kwargs blank.

(** The defaults of [id] and [created_at], which the insertion of the row
    fills in. *)
Definition inserted (new_id : string) (created : nat) (d : t) : t :=
  {| id := new_id; user_id := user_id d; filename := filename d;
     file_type := file_type d; file_size := file_size d;
     storage_path := storage_path d;
     processing_status := processing_status d;
     ocr_text := ocr_text d; ocr_confidence := ocr_confidence d;
     processing_started_at := processing_started_at d;
     processing_completed_at := processing_completed_at d;
     error_message := error_message d; created_at := created;
     updated_at := created |}.

(** [document.name] for a name that is no attribute of the class and has
    not been set on the object. *)
Definition no_attribute (name : string) : Exn :=
  AttributeError ("'Document' object has no attribute '" +:+ name +:+ "'").

End Document.

(** ** models/legal_article.py *)

Module LegalArticle.
Record t := {
  id : string;
  law_name : string;
  article_number : string;
  article_title : option string;
  article_content : string;
  article_summary : option string;
  law_category : string;
  subject_tags : option Json;
  chapter : option string;
  section : option string;
  subsection : option string;
  effective_date : option nat;
  amendment_date : option nat;
  legal_source : option string;
  keywords : option Json;
  related_articles : option Json;
  created_at : nat;
  updated_at : nat
}.

(** [LegalArticle.name] and [article.name] for a name the class does not
    have. *)
Definition no_class_attribute (name : string) : Exn :=
  AttributeError ("type object 'LegalArticle' has no attribute '" +:+ name
                  +:+ "'").
Definition no_attribute (name : string) : Exn :=
  AttributeError ("'LegalArticle' object has no attribute '" +:+ name
                  +:+ "'").
End LegalArticle.

(** ** models/question_analysis.py *)

Module QuestionAnalysis.
Record t := {
  id : string;
  user_id : string;
  document_id : option string;
  question_text : string;
  question_type : string;
  question_difficulty : string;
  analysis_result : option Json;
  confidence_score : Q;
  relevant_laws : option (list Json);
  legal_concepts : option (list Json);
  key_points : option (list string);
  study_suggestions : string;
  similar_questions : option (list Json);
  practice_materials : option (list Json);
  ai_model_used : option string;
  processing_time_ms : option Q;
  user_rating : option Q;
  user_feedback : option string;
  created_at : nat;
  updated_at : nat
}.

Definition set_similar_questions (v : list Json) (a : t) : t :=
  {| id := id a; user_id := user_id a; document_id := document_id a;
     question_text := question_text a; question_type := question_type a;
     question_difficulty := question_difficulty a;
     analysis_result := analysis_result a;
     confidence_score := confidence_score a;
     relevant_laws := relevant_laws a; legal_concepts := legal_concepts a;
     key_points := key_points a; study_suggestions := study_suggestions a;
     similar_questions := Some v;
     practice_materials := practice_materials a;
     ai_model_used := ai_model_used a;
     processing_time_ms := processing_time_ms a;
     user_rating := user_rating a; user_feedback := user_feedback a;
     created_at := created_at a; updated_at := updated_at a |}.

Definition set_practice_materials (v : list Json) (a : t) : t :=
  {| id := id a; user_id := user_id a; document_id := document_id a;
     question_text := question_text a; question_type := question_type a;
     question_difficulty := question_difficulty a;
     analysis_result := analysis_result a;
     confidence_score := confidence_score a;
     relevant_laws := relevant_laws a; legal_concepts := legal_concepts a;
     key_points := key_points a; study_suggestions := study_suggestions a;
     similar_questions := similar_questions a;
     practice_materials := Some v;
     ai_model_used := ai_model_used a;
     processing_time_ms := processing_time_ms a;
     user_rating := user_rating a; user_feedback := user_feedback a;
     created_at := created_at a; updated_at := updated_at a |}.

(** The three assignments of [rate_analysis]. *)
Definition set_rating (rating : Q) (feedback : option string) (now : nat)
    (a : t) : t :=
  {| id := id a; user_id := user_id a; document_id := document_id a;
     question_text := question_text a; question_type := question_type a;
     question_difficulty := question_difficulty a;
     analysis_result := analysis_result a;
     confidence_score := confidence_score a;
     relevant_laws := relevant_laws a; legal_concepts := legal_concepts a;
     key_points := key_points a; study_suggestions := study_suggestions a;
     similar_questions := similar_questions a;
     practice_materials := practice_materials a;
     ai_model_used := ai_model_used a;
     processing_time_ms := processing_time_ms a;
     user_rating := Some rating; user_feedback := feedback;
     created_at := created_at a; updated_at := now |}.
End QuestionAnalysis.

(** ** The world the services run in *)

Record Tables := {
  documents : list Document.t;
  question_analyses : list QuestionAnalysis.t;
  legal_articles : list LegalArticle.t
}.

(** A SQLAlchemy session: the rows the database holds, the rows as the
    session sees them (with its changes that are not committed yet), and
    for each coming [commit] whether the database refuses it. *)
Record Session := {
  persisted : Tables;
  working : Tables;
  faults : list bool
}.

(** What the ghost trace records. *)
Inductive Event :=
| EvExtract (path : string)
| EvGenerate
| EvCommit
| EvRollback.

Record World := {
  fs : gmap string File;
  session : Session;
  clock : nat;
  entropy : nat -> string;
  draws : nat;
  modules : list string;
  trace : list Event
}.

Definition with_fs (f : gmap string File) (w : World) : World :=
  {| fs := f; session := session w; clock := clock w; entropy := entropy w;
     draws := draws w; modules := modules w; trace := trace w |}.

Definition with_session (s : Session) (w : World) : World :=
  {| fs := fs w; session := s; clock := clock w; entropy := entropy w;
     draws := draws w; modules := modules w; trace := trace w |}.

Definition with_working (t : Tables) (w : World) : World :=
  with_session {| persisted := persisted (session w); working := t;
                  faults := faults (session w) |} w.

Definition log (e : Event) (w : World) : World :=
  {| fs := fs w; session := session w; clock := clock w;
     entropy := entropy w; draws := draws w; modules := modules w;
     trace := List.app (trace w) [e] |}.

(** ** Computations that read and change the world and may raise *)

Inductive Outcome (A : Type) :=
| Return (a : A)
| Raise (e : Exn).
Arguments Return {A} a.
Arguments Raise {A} e.

Definition M (A : Type) : Type := World -> Outcome A * World.

Definition ret {A} (a : A) : M A := fun w => (Return a, w).

Definition raise {A} (e : Exn) : M A := fun w => (Raise e, w).

Definition bind {A B} (m : M A) (k : A -> M B) : M B :=
  fun w => match m w with
           | (Return a, w') => k a w'
           | (Raise e, w') => (Raise e, w')
           end.

(** [try: m except Exception as e: h e].  What [m] did to the world before
    it raised stays done. *)
Definition try_except {A} (m : M A) (h : Exn -> M A) : M A :=
  fun w => match m w with
           | (Return a, w') => (Return a, w')
           | (Raise e, w') => h e w'
           end.

Definition gets {A} (f : World -> A) : M A := fun w => (Return (f w), w).

Definition modify (f : World -> World) : M unit := fun w => (Return tt, f w).

(** What a library gave back, as a computation. *)
Definition call {A} (r : Reply A) : M A :=
  match r with
  | Got a => ret a
  | Threw e => raise e
  end.

Notation "'let!' x ':=' m 'in' k" := (bind m (fun x => k))
  (at level 10, x name, m at level 100, k at level 200, only parsing).
Notation "'do!' m 'in' k" := (bind m (fun _ => k))
  (at level 10, m at level 100, k at level 200, only parsing).

(** [for x in l: body x], with what the turns of the loop gave. *)
Fixpoint for_each {A B} (body : A -> M B) (l : list A) : M (list B) :=
  match l with
  | [] => ret []
  | x :: l' =>
      let! y := body x in
      let! ys := for_each body l' in
      ret (y :: ys)
  end.

(** [time.time()] and [datetime.utcnow()]: the clock, which every reading
    moves on. *)
Definition now : M nat :=
  fun w => (Return (clock w),
            {| fs := fs w; session := session w; clock := S (clock w);
               entropy := entropy w; draws := draws w;
               modules := modules w; trace := trace w |}).

(** [str(uuid.uuid4())]: the next draw. *)
Definition uuid4 : M string :=
  fun w => (Return (entropy w (draws w)),
            {| fs := fs w; session := session w; clock := clock w;
               entropy := entropy w; draws := S (draws w);
               modules := modules w; trace := trace w |}).

(** [import m]. *)
Definition import (m : string) : M unit :=
  fun w => if bool_decide (m ∈ modules w) then (Return tt, w)
           else (Raise (ImportError ("No module named " +:+ m)), w).

(** *** The file system *)

Definition exists_ (path : string) : M bool :=
  gets (fun w => bool_decide (is_Some (fs w !! path))).

(** [open(path, "wb")] and [shutil.copyfileobj]. *)
Definition write_file (path : string) (f : File) : M unit :=
  modify (fun w => with_fs (<[path := f]> (fs w)) w).

Definition stat (path : string) : M File :=
  fun w => match fs w !! path with
           | Some f => (Return f, w)
           | None => (Raise (FileNotFoundError path), w)
           end.

Definition unlink (path : string) : M unit :=
  fun w => match fs w !! path with
           | Some _ => (Return tt, with_fs (delete path (fs w)) w)
           | None => (Raise (FileNotFoundError path), w)
           end.

(** *** The session *)

(** [db.commit()]. *)
Definition commit : M unit :=
  fun w =>
    let s := session w in
    match faults s with
    | true :: fl =>
        (Raise (SQLAlchemyError "commit failed"),
         with_session {| persisted := persisted s; working := working s;
                         faults := fl |} w)
    | _ =>
        (Return tt,
         log EvCommit
           (with_session {| persisted := working s; working := working s;
                            faults := List.tl (faults s) |} w))
    end.

(** [db.rollback()]. *)
Definition rollback : M unit :=
  fun w =>
    let s := session w in
    (Return tt,
     log EvRollback
       (with_session {| persisted := persisted s; working := persisted s;
                        faults := faults s |} w)).

(** The end of a request: [get_db] closes the session, and what was not
    committed is gone. *)
Definition close (w : World) : World :=
  let s := session w in
  with_session {| persisted := persisted s; working := persisted s;
                  faults := faults s |} w.

(** Assignment to the attributes of a loaded row: the first row of that
    identifier is the object. *)
Fixpoint replace_first {R : Type} (same : R -> bool) (r' : R) (l : list R)
    : list R :=
  match l with
  | [] => []
  | r :: l' => if same r then r' :: l' else r :: replace_first same r' l'
  end.

Fixpoint remove_first {R : Type} (same : R -> bool) (l : list R) : list R :=
  match l with
  | [] => []
  | r :: l' => if same r then l' else r :: remove_first same l'
  end.

Definition query_documents : M (list Document.t) :=
  gets (fun w => documents (working (session w))).

Definition query_analyses : M (list QuestionAnalysis.t) :=
  gets (fun w => question_analyses (working (session w))).

Definition query_articles : M (list LegalArticle.t) :=
  gets (fun w => legal_articles (working (session w))).

Definition put_documents (l : list Document.t) : M unit :=
  modify (fun w =>
    let t := working (session w) in
    with_working {| documents := l;
                    question_analyses := question_analyses t;
                    legal_articles := legal_articles t |} w).

Definition put_analyses (l : list QuestionAnalysis.t) : M unit :=
  modify (fun w =>
    let t := working (session w) in
    with_working {| documents := documents t;
                    question_analyses := l;
                    legal_articles := legal_articles t |} w).

Definition same_document (i : string) (d : Document.t) : bool :=
  bool_decide (Document.id d = i).

Definition same_analysis (i : string) (a : QuestionAnalysis.t) : bool :=
  bool_decide (QuestionAnalysis.id a = i).

(** [db.add(document)] *)
Definition add_document (d : Document.t) : M unit :=
  let! l := query_documents in put_documents (List.app l [d]).

(** The attribute assignments to a loaded document. *)
Definition store_document (d : Document.t) : M unit :=
  let! l := query_documents in
  put_documents (replace_first (same_document (Document.id d)) d l).

(** [db.delete(document)] *)
Definition delete_document_row (d : Document.t) : M unit :=
  let! l := query_documents in
  put_documents (remove_first (same_document (Document.id d)) l).

Definition add_analysis (a : QuestionAnalysis.t) : M unit :=
  let! l := query_analyses in put_analyses (List.app l [a]).

Definition store_analysis (a : QuestionAnalysis.t) : M unit :=
  let! l := query_analyses in
  put_analyses (replace_first (same_analysis (QuestionAnalysis.id a)) a l).

(** [query.first()]. *)
Definition first {R : Type} (l : list R) : option R := List.head l.

(** [query.order_by(created_at.desc())]: a stable insertion sort. *)
Fixpoint insert_desc {R : Type} (key : R -> nat) (r : R) (l : list R)
    : list R :=
  match l with
  | [] => [r]
  | x :: l' => if (key x <? key r)%nat then r :: l
               else x :: insert_desc key r l'
  end.

Definition order_by_desc {R : Type} (key : R -> nat) (l : list R) : list R :=
  List.fold_right (insert_desc key) [] l.

(** [query.offset(o).limit(n)]. *)
Definition offset_limit {R : Type} (o n : nat) (l : list R) : list R :=
  List.firstn n (List.skipn o l).

(** ** utils/file_storage.py *)

Module FileStorage.

Record t := {
  upload_dir : string;
  max_file_size : nat;
  allowed_extensions : list string
}.

Definition __init__ (settings : Settings.t) : t :=
  {| upload_dir := Settings.upload_dir settings;
     max_file_size := Settings.max_file_size settings;
     allowed_extensions :=
       Py.split_on "," (Settings.allowed_extensions settings) |}.

Record FileInfo := {
  filename : string;
  size : nat;
  extension : string;
  path : string
}.

Definition is_allowed_file (self : t) (filename : string) : bool :=
  if negb (Py.truthy filename) then false
  else
    let file_ext := Py.lower (Py.suffix filename) in
    bool_decide (file_ext ∈ allowed_extensions self).

Definition check_file_size (self : t) (file_size : nat) : bool :=
  (file_size <=? max_file_size self)%nat.

Definition generate_unique_filename (original_filename : string)
    : M string :=
  let file_ext := Py.suffix original_filename in
  let! unique_id := uuid4 in
  ret (unique_id +:+ file_ext).

Definition save_file (self : t) (file : File) (original_filename : string)
    : M (string * string) :=
  if negb (is_allowed_file self original_filename) then
    raise (ValueError ("File type not allowed: "
                       +:+ Py.suffix original_filename))
  else
    let! unique_filename := generate_unique_filename original_filename in
    let file_path := Py.joinpath (upload_dir self) unique_filename in
    try_except
      (do! write_file file_path file in
       let! st := stat file_path in
       let file_size := st_size st in
       if negb (check_file_size self file_size) then
         do! unlink file_path in
         raise (ValueError ("File size exceeds limit: "
                            +:+ pretty file_size +:+ " bytes"))
       else ret (unique_filename, file_path))
      (fun e =>
         let! there := exists_ file_path in
         do! (if there then unlink file_path else ret tt) in
         raise e).

Definition get_file_path (self : t) (filename : string)
    : M (option string) :=
  let file_path := Py.joinpath (upload_dir self) filename in
  let! there := exists_ file_path in
  ret (if there then Some file_path else None).

Definition delete_file (self : t) (filename : string) : M bool :=
  let file_path := Py.joinpath (upload_dir self) filename in
  try_except
    (let! there := exists_ file_path in
     if there then do! unlink file_path in ret true else ret false)
    (fun _ => ret false).

(** The times of the [stat] record are not kept. *)
Definition get_file_info (self : t) (filename : string)
    : M (option FileInfo) :=
  let! file_path := get_file_path self filename in
  match file_path with
  | None => ret None
  | Some p =>
      try_except
        (let! st := stat p in
         ret (Some {| filename := filename; size := st_size st;
                      extension := Py.suffix p; path := p |}))
        (fun _ => ret None)
  end.

End FileStorage.

(** ** utils/ocr.py *)

Definition newline : string := String (ascii_of_nat 10) "".

Module OCRProcessor.

Record t := {
  engine : string;
  language : string;
  _ocr_available : bool
}.

Definition _extract_text_paddleocr (image_path : string) : M string :=
  try_except
    (let! f := stat image_path in
     match paddle_read f with
     | Threw e => raise e
     | Got None => ret ""
     | Got (Some []) => ret ""
     | Got (Some lines) =>
         ret (Py.join newline (omap (fun line => line) lines))
     end)
    (fun _ => ret "").

Definition _extract_text_tesseract (image_path : string) : M string :=
  try_except
    (let! f := stat image_path in
     match tesseract_read f with
     | Threw e => raise e
     | Got text => ret (Py.strip text)
     end)
    (fun _ => ret "").

Definition _fallback_text_extraction (image_path : string) : string :=
  if Py.contains "pdf" (Py.lower image_path)
  then "[OCR不可用] 圖片文件: " +:+ Py.name image_path
  else "[OCR不可用] 無法提取文字內容，檔案: " +:+ Py.name image_path.

Definition extract_text_from_image (self : t) (image_path : string)
    : M string :=
  if negb (_ocr_available self) then
    ret (_fallback_text_extraction image_path)
  else
    try_except
      (if bool_decide (engine self = "paddleocr") then
         _extract_text_paddleocr image_path
       else if bool_decide (engine self = "tesseract") then
         _extract_text_tesseract image_path
       else ret (_fallback_text_extraction image_path))
      (fun _ => ret (_fallback_text_extraction image_path)).

(** The body of the loop over the pages of the opened document: render
    the page, save it as a PNG next to the PDF, remember its path. *)
Fixpoint render_pages (pdf_path : string) (doc : list (Reply File))
    (page_num : nat) : M (list string) :=
  match doc with
  | [] => ret []
  | page :: doc' =>
      match page with
      | Threw e => raise e
      | Got pix =>
          let image_path :=
            Py.joinpath (Py.parent pdf_path)
              (Py.stem pdf_path +:+ "_page_" +:+ pretty (page_num + 1)
               +:+ ".png") in
          do! write_file image_path pix in
          let! image_paths := render_pages pdf_path doc' (S page_num) in
          ret (image_path :: image_paths)
      end
  end.

Definition _convert_pdf_to_images (pdf_path : string) : M (list string) :=
  try_except
    (do! import "fitz" in
     let! f := stat pdf_path in
     match fitz_read f with
     | Threw e => raise e
     | Got doc => render_pages pdf_path doc 0
     end)
    (fun _ => ret []).

Definition page_header (i : nat) (page_text : string) : string :=
  "=== 第 " +:+ pretty (i + 1) +:+ " 頁 ===" +:+ newline +:+ page_text.

(** The loop over the page images: recognise, record, delete. *)
Fixpoint extract_pages (self : t) (image_paths : list string) (i : nat)
    : M (list string * list (nat * string)) :=
  match image_paths with
  | [] => ret ([], [])
  | image_path :: rest =>
      let! page_text := extract_text_from_image self image_path in
      do! try_except (unlink image_path) (fun _ => ret tt) in
      let! r := extract_pages self rest (S i) in
      ret (List.app
             (if Py.truthy page_text then [page_header i page_text] else [])
             r.1,
           (i + 1, page_text) :: r.2)
  end.

Definition initial_metadata (self : t) : OcrMetadata :=
  {| total_pages := 0; engine_used := engine self;
     language_used := language self; success := false; error := None |}.

Definition extract_text_from_pdf (self : t) (pdf_path : string)
    : M OcrResult :=
  let! there := exists_ pdf_path in
  if negb there then
    raise (FileNotFoundError ("PDF file not found: " +:+ pdf_path))
  else
    let result := {| text := ""; pages := [];
                     metadata := initial_metadata self |} in
    try_except
      (let! image_paths := _convert_pdf_to_images pdf_path in
       match image_paths with
       | [] => ret result
       | _ =>
           let counted (ok : bool) (err : option string) :=
             {| total_pages := length image_paths;
                engine_used := engine self;
                language_used := language self;
                success := ok; error := err |} in
           try_except
             (let! r := extract_pages self image_paths 0 in
              ret {| text := Py.join (newline +:+ newline) r.1;
                     pages := r.2;
                     metadata := counted true None |})
             (fun e =>
                ret {| text := ""; pages := [];
                       metadata := counted false (Some (str e)) |})
       end)
      (fun e =>
         ret {| text := ""; pages := [];
                metadata :=
                  {| total_pages := 0; engine_used := engine self;
                     language_used := language self; success := false;
                     error := Some (str e) |} |}).

Definition extract_text_async (self : t) (file_path : string)
    : M OcrResult :=
  do! modify (log (EvExtract file_path)) in
  if bool_decide (Py.lower (Py.suffix file_path) = ".pdf") then
    extract_text_from_pdf self file_path
  else
    let! t := extract_text_from_image self file_path in
    ret {| text := t; pages := [(1, t)];
           metadata :=
             {| total_pages := 1; engine_used := engine self;
                language_used := language self;
                success := Py.truthy t; error := None |} |}.

End OCRProcessor.

(** ** services/document_service.py *)

Module ProcessingResult.
Record t := {
  document_id : string;
  processing_status : string;
  extracted_text : option string;
  page_count : option nat;
  processing_metadata : option OcrMetadata
}.
End ProcessingResult.

Module UploadResult.
Record t := {
  document_id : string;
  original_filename : string;
  stored_filename : string;
  file_size : nat;
  upload_status : string;
  processing_status : string;
  processed : option ProcessingResult.t
}.

(** [result.update(processing_result)]. *)
Definition update (p : ProcessingResult.t) (r : t) : t :=
  {| document_id := ProcessingResult.document_id p;
     original_filename := original_filename r;
     stored_filename := stored_filename r;
     file_size := file_size r;
     upload_status := upload_status r;
     processing_status := ProcessingResult.processing_status p;
     processed := Some p |}.
End UploadResult.

Module DocumentService.

Record t := {
  file_storage : FileStorage.t;
  ocr_processor : OCRProcessor.t
}.

Definition mime_types : list (string * string) :=
  [ (".pdf", "application/pdf");
    (".doc", "application/msword");
    (".docx",
     "application/vnd.openxmlformats-officedocument.wordprocessingml.document");
    (".txt", "text/plain");
    (".png", "image/png");
    (".jpg", "image/jpeg");
    (".jpeg", "image/jpeg") ].

Definition _get_mime_type (filename : string) : string :=
  let ext := Py.lower (Py.suffix filename) in
  default "application/octet-stream" (dict_get ext mime_types).

(** [db.query(Document).filter(Document.id == document_id).first()]. *)
Definition find_document (document_id : string) : M (option Document.t) :=
  let! rows := query_documents in
  ret (first (List.filter (same_document document_id) rows)).

(** [document.file_path] is no attribute of a [Document]: the read raises
    and what follows it in the [try] block is never run.  There,
    [extracted_text], [page_count] and [ocr_metadata] are no columns
    either: an assignment to them stays on the Python object. *)
Definition process_document (self : t) (document_id : string)
    : M ProcessingResult.t :=
  try_except
    (let! found := find_document document_id in
     match found with
     | None => raise (ValueError ("Document not found: " +:+ document_id))
     | Some document =>
         let! started := now in
         let document :=
           Document.set_processing_started_at started
             (Document.set_processing_status "processing" document) in
         do! store_document document in
         do! commit in
         let! file_path :=
           (raise (Document.no_attribute "file_path") : M string) in
         let! there := exists_ file_path in
         if negb there then
           raise (FileNotFoundError
                    ("Document file not found: " +:+ file_path))
         else
           let! ocr_result :=
             OCRProcessor.extract_text_async (ocr_processor self)
               file_path in
           let extracted_text := text ocr_result in
           let page_count := total_pages (metadata ocr_result) in
           let ocr_metadata := metadata ocr_result in
           let document :=
             if success (metadata ocr_result)
             then Document.set_processing_status "completed" document
             else Document.set_processing_status "failed" document in
           let! completed := now in
           let document :=
             Document.set_processing_completed_at completed document in
           do! store_document document in
           do! commit in
           ret {| ProcessingResult.document_id := document_id;
                  ProcessingResult.processing_status :=
                    Document.processing_status document;
                  ProcessingResult.extracted_text := Some extracted_text;
                  ProcessingResult.page_count := Some page_count;
                  ProcessingResult.processing_metadata :=
                    Some ocr_metadata |}
     end)
    (fun e =>
       do! try_except
             (let! found := find_document document_id in
              match found with
              | Some document =>
                  let document :=
                    Document.set_processing_status "failed" document in
                  let! completed := now in
                  let document :=
                    Document.set_error_message (str e)
                      (Document.set_processing_completed_at completed
                         document) in
                  do! store_document document in
                  commit
              | None => ret tt
              end)
             (fun _ => ret tt) in
       raise (RuntimeError ("Failed to process document: " +:+ str e))).

(** The two [except] clauses of [upload_document]; [saved] is the name
    [unique_filename], when it is bound. *)
Definition upload_failed {A} (self : t) (saved : option string) (e : Exn)
    : M A :=
  if is_ValueError e then raise e
  else
    do! try_except
          (match saved with
           | Some unique_filename =>
               do! FileStorage.delete_file (file_storage self)
                     unique_filename in
               ret tt
           | None => ret tt
           end)
          (fun _ => ret tt) in
    raise (RuntimeError ("Failed to upload document: " +:+ str e)).

(** The keywords the service gives the constructor are not all attributes
    of [Document]: the constructor raises [TypeError], and the handler
    deletes the stored file. *)
Definition upload_document (self : t) (file : File) (filename : string)
    (user_id : string) (process_immediately : bool) : M UploadResult.t :=
  let! saved :=
    try_except
      (if negb (FileStorage.is_allowed_file (file_storage self) filename)
       then raise (ValueError ("File type not allowed: "
                               +:+ Py.suffix filename))
       else FileStorage.save_file (file_storage self) file filename)
      (upload_failed self None) in
  let unique_filename := saved.1 in
  let file_path := saved.2 in
  try_except
    (let! file_info :=
       FileStorage.get_file_info (file_storage self) unique_filename in
     match file_info with
     | None => raise (RuntimeError "Failed to get file information")
     | Some file_info =>
         let! document :=
           call (Document.new
                   [ ("user_id", Document.VStr user_id);
                     ("original_filename", Document.VStr filename);
                     ("stored_filename", Document.VStr unique_filename);
                     ("file_path", Document.VStr file_path);
                     ("file_size",
                      Document.VInt (FileStorage.size file_info));
                     ("mime_type", Document.VStr (_get_mime_type filename));
                     ("upload_status", Document.VStr "uploaded");
                     ("processing_status", Document.VStr "pending") ]) in
         let! new_id := uuid4 in
         let! created := now in
         let document := Document.inserted new_id created document in
         do! add_document document in
         do! commit in
         let result :=
           {| UploadResult.document_id := Document.id document;
              UploadResult.original_filename := filename;
              UploadResult.stored_filename := unique_filename;
              UploadResult.file_size := FileStorage.size file_info;
              UploadResult.upload_status := "success";
              UploadResult.processing_status := "pending";
              UploadResult.processed := None |} in
         if process_immediately then
           let! processing_result :=
             process_document self (Document.id document) in
           ret (UploadResult.update processing_result result)
         else ret result
     end)
    (upload_failed self (Some unique_filename)).

(** A [user_id] that is [None] or empty adds no filter. *)
Definition get_document (document_id : string) (user_id : option string)
    : M (option Document.t) :=
  try_except
    (let! rows := query_documents in
     let query := List.filter (same_document document_id) rows in
     let query :=
       match user_id with
       | Some u =>
           if Py.truthy u
           then List.filter
                  (fun d => bool_decide (Document.user_id d = u)) query
           else query
       | None => query
       end in
     ret (first query))
    (fun _ => ret None).

Definition get_user_documents (user_id : string) (limit offset : nat)
    (status_filter : option string) : M (list Document.t) :=
  try_except
    (let! rows := query_documents in
     let query :=
       List.filter (fun d => bool_decide (Document.user_id d = user_id))
         rows in
     let query :=
       match status_filter with
       | Some s =>
           if Py.truthy s
           then List.filter
                  (fun d => bool_decide (Document.processing_status d = s))
                  query
           else query
       | None => query
       end in
     ret (offset_limit offset limit
            (order_by_desc Document.created_at query)))
    (fun _ => ret []).

(** [document.stored_filename] is no attribute of a [Document]. *)
Definition delete_document (self : t) (document_id : string)
    (user_id : option string) : M bool :=
  try_except
    (let! document := get_document document_id user_id in
     match document with
     | None => ret false
     | Some document =>
         let! stored_filename :=
           (raise (Document.no_attribute "stored_filename") : M string) in
         let! file_deleted :=
           FileStorage.delete_file (file_storage self) stored_filename in
         do! delete_document_row document in
         do! commit in
         ret true
     end)
    (fun _ => do! rollback in ret false).

Record DocumentStats := {
  total_documents : nat;
  total_file_size : nat;
  status_breakdown : list (string * nat)
}.

(** One more row in the group of its key: [GROUP BY] with [count]. *)
Fixpoint count_into (k : string) (groups : list (string * nat))
    : list (string * nat) :=
  match groups with
  | [] => [(k, 1)]
  | (k', n) :: rest =>
      if bool_decide (k' = k) then (k', S n) :: rest
      else (k', n) :: count_into k rest
  end.

Definition group_count (keys : list string) : list (string * nat) :=
  List.fold_left (fun groups k => count_into k groups) keys [].

(** [stats["status_breakdown"][status] = count]. *)
Fixpoint dict_set {V : Type} (k : string) (v : V) (d : list (string * V))
    : list (string * V) :=
  match d with
  | [] => [(k, v)]
  | (k', v') :: rest =>
      if bool_decide (k' = k) then (k', v) :: rest
      else (k', v') :: dict_set k v rest
  end.

Definition get_document_stats (user_id : string) : M DocumentStats :=
  try_except
    (let! rows := query_documents in
     let owned :=
       List.filter (fun d => bool_decide (Document.user_id d = user_id))
         rows in
     let status_counts :=
       group_count (List.map Document.processing_status owned) in
     let total := length owned in
     let total_size :=
       match owned with
       | [] => None
       | _ => Some (list_sum (List.map Document.file_size owned))
       end in
     ret {| total_documents := total;
            total_file_size := default 0 total_size;
            status_breakdown :=
              List.fold_left (fun stats row => dict_set row.1 row.2 stats)
                status_counts [] |})
    (fun _ =>
       ret {| total_documents := 0; total_file_size := 0;
              status_breakdown := [] |}).

End DocumentService.

(** ** api/documents.py *)

Module DocumentsApi.

Inductive ProcessResponse :=
| StatusOnly (message document_id processing_status : string)
| Processed (message : string) (result : ProcessingResult.t).

Definition process_document (service : DocumentService.t)
    (document_id : string) (current_user_id : string)
    : M ProcessResponse :=
  let! document :=
    DocumentService.get_document document_id (Some current_user_id) in
  match document with
  | None => raise (HTTPException 404 "Document not found")
  | Some document =>
      if bool_decide (Document.processing_status document = "completed")
      then ret (StatusOnly "Document already processed" document_id
                  "completed")
      else if bool_decide
                (Document.processing_status document = "processing")
      then ret (StatusOnly "Document processing in progress" document_id
                  "processing")
      else
        try_except
          (let! result :=
             DocumentService.process_document service document_id in
           ret (Processed "Document processing completed" result))
          (fun _ =>
             raise (HTTPException 500 "Failed to process document"))
  end.

(** What the framework hands to the upload handler: the name the client
    gave, if any, and the body. *)
Record UploadFile := {
  filename : option string;
  file : File
}.

(** The two [except] clauses of the upload handler. *)
Definition upload_rejected {A} (e : Exn) : M A :=
  if is_ValueError e then raise (HTTPException 400 (str e))
  else raise (HTTPException 500 "Failed to upload document").

(** The handler of [POST /documents/upload].  The checks of the name and
    of the size raise inside the [try] block of the handler. *)
Definition upload_document (service : DocumentService.t)
    (upload : UploadFile) (process_immediately : bool)
    (current_user_id : string) : M (string * UploadResult.t) :=
  try_except
    (match filename upload with
     | None => raise (HTTPException 400 "No file provided")
     | Some name =>
         if negb (Py.truthy name) then
           raise (HTTPException 400 "No file provided")
         else
           let file_size := st_size (file upload) in
           if negb (FileStorage.check_file_size
                      (DocumentService.file_storage service) file_size)
           then raise (HTTPException 413
                         ("File size exceeds limit: " +:+ pretty file_size
                          +:+ " bytes"))
           else
             let! result :=
               DocumentService.upload_document service (file upload) name
                 current_user_id process_immediately in
             ret ("Document uploaded successfully", result)
     end)
    upload_rejected.

Record DocumentContent := {
  document_id : string;
  extracted_text : option string;
  page_count : option nat;
  processing_metadata : option OcrMetadata
}.

(** The handler of [GET /documents/{id}/content].  [extracted_text],
    [page_count] and [ocr_metadata] are no attributes of a [Document]. *)
Definition get_document_content (document_id current_user_id : string)
    : M DocumentContent :=
  let! document :=
    DocumentService.get_document document_id (Some current_user_id) in
  match document with
  | None => raise (HTTPException 404 "Document not found")
  | Some document =>
      if negb (bool_decide
                 (Document.processing_status document = "completed"))
      then raise (HTTPException 400
                    ("Document processing not completed. Status: "
                     +:+ Document.processing_status document))
      else
        let! text :=
          (raise (Document.no_attribute "extracted_text")
           : M (option string)) in
        let! pages :=
          (raise (Document.no_attribute "page_count") : M (option nat)) in
        let! ocr_metadata :=
          (raise (Document.no_attribute "ocr_metadata")
           : M (option OcrMetadata)) in
        ret {| document_id := Document.id document;
               extracted_text := text;
               page_count := pages;
               processing_metadata := ocr_metadata |}
  end.

(** The handler of [DELETE /documents/{id}]. *)
Definition delete_document (service : DocumentService.t)
    (document_id current_user_id : string) : M (string * string) :=
  let! success :=
    DocumentService.delete_document service document_id
      (Some current_user_id) in
  if negb success then
    raise (HTTPException 404 "Document not found or could not be deleted")
  else ret ("Document deleted successfully", document_id).

End DocumentsApi.

(** ** services/llm_service.py *)

Module LegalAnalysisResult.
Record t := {
  question_type : string;
  difficulty_level : string;
  relevant_laws : list Json;
  legal_concepts : list (list (string * string));
  key_points : list string;
  answer_approach : string;
  study_suggestions : string;
  confidence_score : Q
}.
End LegalAnalysisResult.

Module LLMService.

(** A chat message: its role and its content. *)
Definition Message : Type := string * string.

(** The service and the libraries it calls: [agenerate] of the chat
    client, and of the output parser its format instructions, [parse],
    and [json.loads] followed by the validation of the result class. *)
Record t := {
  model_name : string;
  max_tokens : nat;
  _llm : option (list Message -> Reply string);
  format_instructions : string;
  parse : string -> Reply LegalAnalysisResult.t;
  json_loads : string -> Reply LegalAnalysisResult.t
}.

(** [_init_llm]: no client without a key, none when its construction
    raises. *)
Definition _init_llm (settings : Settings.t)
    (client : Reply (list Message -> Reply string))
    : option (list Message -> Reply string) :=
  if negb (Py.truthy (Settings.openai_api_key settings)) then None
  else match client with
       | Got c => Some c
       | Threw _ => None
       end.

Definition is_available (self : t) : bool :=
  match _llm self with Some _ => true | None => false end.

Definition _get_system_prompt : string :=
"你是一位專業的法律專家，專門分析臺灣國家考試的法律題目。你的任務是：

1. 分析題型和難度等級
2. 識別相關的法條和法律概念
3. 提供解題要點和思路
4. 給出學習建議

請用繁體中文回答，並確保分析準確、實用。

重要規則：
- 專注於臺灣法律體系
- 提供具體的法條編號和條文
- 解釋必須清晰易懂
- 學習建議要具體可行
- 信心分數要客觀評估".

(** The escapes of the source are doubled: the prompt holds a backslash
    and an [n], not a line break. *)
Definition _format_question_prompt (question_text : string)
    (context question_type_hint : option string) : string :=
  let prompt :=
    "請分析以下法律題目：\n\n【題目】\n" +:+ question_text +:+ "\n\n" in
  let prompt :=
    match context with
    | Some c => if Py.truthy c
                then prompt +:+ "【背景資訊】\n" +:+ c +:+ "\n\n"
                else prompt
    | None => prompt
    end in
  let prompt :=
    match question_type_hint with
    | Some h => if Py.truthy h
                then prompt +:+ "【題型提示】\n" +:+ h +:+ "\n\n"
                else prompt
    | None => prompt
    end in
  prompt +:+
"請提供完整的分析，包括：
1. 題型分類和難度評估
2. 相關法條和法律概念
3. 解題要點和關鍵思路
4. 學習建議和練習方向
5. 分析的信心程度

請以結構化的JSON格式回答。".

Definition placeholder_result : LegalAnalysisResult.t :=
  {| LegalAnalysisResult.question_type := "未分類";
     LegalAnalysisResult.difficulty_level := "中級";
     LegalAnalysisResult.relevant_laws := [];
     LegalAnalysisResult.legal_concepts := [];
     LegalAnalysisResult.key_points := ["需要進一步分析"];
     LegalAnalysisResult.answer_approach := "LLM 分析失敗，建議手動分析";
     LegalAnalysisResult.study_suggestions :=
       "請諮詢法律專家或查閱相關法條";
     LegalAnalysisResult.confidence_score := 0.1%Q |}.

Definition _fallback_parse (self : t) (response_text : string)
    : LegalAnalysisResult.t :=
  let start_idx := Py.find "{" response_text in
  let end_idx := (Py.rfind "}" response_text + 1)%Z in
  if negb (start_idx =? -1)%Z && negb (end_idx =? -1)%Z then
    match json_loads self (Py.slice start_idx end_idx response_text) with
    | Got r => r
    | Threw _ => placeholder_result
    end
  else placeholder_result.

Definition _get_fallback_result (question_text : string)
    : LegalAnalysisResult.t :=
  {| LegalAnalysisResult.question_type := "待分析";
     LegalAnalysisResult.difficulty_level := "未知";
     LegalAnalysisResult.relevant_laws := [];
     LegalAnalysisResult.legal_concepts := [];
     LegalAnalysisResult.key_points := ["系統暫時無法分析此題目"];
     LegalAnalysisResult.answer_approach := "請重試或聯繫技術支援";
     LegalAnalysisResult.study_suggestions :=
       "建議查閱相關法律教材或諮詢專業人士";
     LegalAnalysisResult.confidence_score := 0.0%Q |}.

(** [(time.time() - start_time) * 1000]. *)
Definition elapsed_ms (start_time stop : nat) : Q :=
  inject_Z (Z.of_nat ((stop - start_time) * 1000)).

Definition jnat (n : nat) : Json := JNum (inject_Z (Z.of_nat n)).

Definition analyze_legal_question (self : t) (question_text : string)
    (context question_type_hint : option string)
    : M (LegalAnalysisResult.t * list (string * Json)) :=
  match _llm self with
  | None => raise (RuntimeError "LLM service not available")
  | Some client =>
      let! start_time := now in
      try_except
        (let system_prompt := _get_system_prompt in
         let user_prompt :=
           _format_question_prompt question_text context
             question_type_hint in
         let user_prompt :=
           user_prompt +:+ "\n\n" +:+ format_instructions self in
         let messages :=
           [("system", system_prompt); ("human", user_prompt)] in
         do! modify (log EvGenerate) in
         match client messages with
         | Threw e => raise e
         | Got response_text =>
             let analysis_result :=
               match parse self response_text with
               | Got r => r
               | Threw _ => _fallback_parse self response_text
               end in
             let! stop := now in
             let processing_time := elapsed_ms start_time stop in
             let metadata :=
               [ ("model_used", JStr (model_name self));
                 ("processing_time_ms", JNum processing_time);
                 ("prompt_tokens", jnat (Py.count_words user_prompt));
                 ("response_tokens",
                  jnat (Py.count_words response_text));
                 ("success", JBool true) ] in
             ret (analysis_result, metadata)
         end)
        (fun e =>
           let! stop := now in
           let error_time := elapsed_ms start_time stop in
           let fallback_result := _get_fallback_result question_text in
           let metadata :=
             [ ("model_used", JStr (model_name self));
               ("processing_time_ms", JNum error_time);
               ("success", JBool false);
               ("error", JStr (str e)) ] in
           ret (fallback_result, metadata))
  end.

End LLMService.

(** ** services/analysis_service.py *)

Module AnalysisSummary.
Record t := {
  analysis_id : string;
  question_type : string;
  difficulty_level : string;
  confidence_score : Q;
  relevant_laws : list Json;
  legal_concepts : list Json;
  key_points : list string;
  answer_approach : string;
  study_suggestions : string;
  processing_metadata : list (string * Json);
  created_at : nat
}.
End AnalysisSummary.

Module AnalysisService.

Record t := { llm_service : LLMService.t }.

Definition _classify_question_basic (question_text : string) : string :=
  let text_lower := Py.lower question_text in
  if Py.any_in ["選擇"; "下列"; "何者"; "哪個"] text_lower then "選擇題"
  else if Py.any_in ["說明"; "解釋"; "論述"; "分析"] text_lower then "申論題"
  else if Py.any_in ["案例"; "事實"; "情況"; "甲乙"] text_lower
  then "案例分析"
  else if Py.contains "?" question_text || Py.contains "？" question_text
  then "問答題"
  else "未分類".

Definition _estimate_difficulty_basic (question_text : string) : string :=
  let word_count := Py.len question_text in
  if (word_count <? 50)%nat then "初級"
  else if (word_count <? 150)%nat then "中級"
  else "高級".

Definition _fallback_analysis (question_text user_id : string)
    (document_id : option string) : M AnalysisSummary.t :=
  let question_type := _classify_question_basic question_text in
  let difficulty := _estimate_difficulty_basic question_text in
  let! new_id := uuid4 in
  let! created := now in
  let question_analysis :=
    {| QuestionAnalysis.id := new_id;
       QuestionAnalysis.user_id := user_id;
       QuestionAnalysis.document_id := document_id;
       QuestionAnalysis.question_text := question_text;
       QuestionAnalysis.question_type := question_type;
       QuestionAnalysis.question_difficulty := difficulty;
       QuestionAnalysis.analysis_result :=
         Some (JDict [ ("method", JStr "fallback");
                       ("note", JStr "AI服務暫時不可用，使用基礎分類") ]);
       QuestionAnalysis.confidence_score := 0.3%Q;
       QuestionAnalysis.relevant_laws := None;
       QuestionAnalysis.legal_concepts := None;
       QuestionAnalysis.key_points := None;
       QuestionAnalysis.study_suggestions :=
         "請諮詢法律專家或使用完整AI分析功能";
       QuestionAnalysis.similar_questions := None;
       QuestionAnalysis.practice_materials := None;
       QuestionAnalysis.ai_model_used := Some "fallback_classifier";
       QuestionAnalysis.processing_time_ms := None;
       QuestionAnalysis.user_rating := None;
       QuestionAnalysis.user_feedback := None;
       QuestionAnalysis.created_at := created;
       QuestionAnalysis.updated_at := created |} in
  do! add_analysis question_analysis in
  do! commit in
  ret {| AnalysisSummary.analysis_id :=
           QuestionAnalysis.id question_analysis;
         AnalysisSummary.question_type := question_type;
         AnalysisSummary.difficulty_level := difficulty;
         AnalysisSummary.confidence_score := 0.3%Q;
         AnalysisSummary.relevant_laws := [];
         AnalysisSummary.legal_concepts := [];
         AnalysisSummary.key_points := ["需要完整AI分析功能"];
         AnalysisSummary.answer_approach := "請重試或使用手動分析";
         AnalysisSummary.study_suggestions :=
           "請諮詢法律專家或使用完整AI分析功能";
         AnalysisSummary.processing_metadata :=
           [("method", JStr "fallback")];
         AnalysisSummary.created_at :=
           QuestionAnalysis.created_at question_analysis |}.

Definition legal_keywords : list string :=
  [ "契約"; "財產"; "損害"; "責任"; "權利"; "義務"; "法律"; "條文";
    "民法"; "刑法"; "商業"; "公司"; "消費者"; "保護"; "管理"; "條例" ].

Definition _extract_keywords (text : string) : list string :=
  List.filter (fun keyword => Py.contains keyword text) legal_keywords.

Definition _find_similar_analyses (target_analysis : QuestionAnalysis.t)
    (limit : nat) : M (list QuestionAnalysis.t) :=
  try_except
    (let! rows := query_analyses in
     ret (List.firstn limit
            (List.filter
               (fun a =>
                  negb (same_analysis
                          (QuestionAnalysis.id target_analysis) a)
                  && bool_decide
                       (QuestionAnalysis.question_type a
                        = QuestionAnalysis.question_type target_analysis)
                  && negb (Qle_bool (QuestionAnalysis.confidence_score a)
                             0.5%Q))
               rows)))
    (fun _ => ret []).

(** [content.ilike("%keyword%")]. *)
Definition ilike_contains (keyword content : string) : bool :=
  Py.contains (Py.lower keyword) (Py.lower content).

(** [list({article.id: article for article in articles}.values())]: a key
    keeps the place of its first article and the value of its last. *)
Fixpoint unique_by_id (seen articles : list LegalArticle.t)
    : list LegalArticle.t :=
  match articles with
  | [] => seen
  | a :: rest =>
      let same x := bool_decide (LegalArticle.id x = LegalArticle.id a) in
      if existsb same seen
      then unique_by_id (replace_first same a seen) rest
      else unique_by_id (List.app seen [a]) rest
  end.

(** [LegalArticle.content] is no attribute of the class, which calls the
    column [article_content]: the first turn of the loop raises, and the
    handler answers with the empty list. *)
Definition _find_relevant_articles (question_text : string) (limit : nat)
    : M (list LegalArticle.t) :=
  try_except
    (let keywords := _extract_keywords question_text in
     match keywords with
     | [] => ret []
     | _ =>
         let! found :=
           for_each
             (fun keyword =>
                let! content :=
                  (raise (LegalArticle.no_class_attribute "content")
                   : M (LegalArticle.t -> string)) in
                let! rows := query_articles in
                ret (List.firstn limit
                       (List.filter
                          (fun a => ilike_contains keyword (content a))
                          rows)))
             (List.firstn 3 keywords) in
         ret (List.firstn limit (unique_by_id [] (List.concat found)))
     end)
    (fun _ => ret []).

Definition similar_entry (analysis : QuestionAnalysis.t) : Json :=
  JDict [ ("id", JStr (QuestionAnalysis.id analysis));
          ("question_text",
           JStr (Py.take_chars 100 (QuestionAnalysis.question_text analysis)
                 +:+ "..."));
          ("question_type", JStr (QuestionAnalysis.question_type analysis));
          ("similarity_score", JNum 0.7%Q) ].

(** [article.title] is no attribute of a [LegalArticle], which has
    [article_title]. *)
Definition material_entry (article : LegalArticle.t) : M Json :=
  let! title := (raise (LegalArticle.no_attribute "title") : M string) in
  ret (JDict [ ("title", JStr title);
               ("law_name", JStr (LegalArticle.law_name article));
               ("article_number",
                JStr (LegalArticle.article_number article));
               ("relevance", JStr "high") ]).

Definition _enhance_analysis (question_analysis : QuestionAnalysis.t)
    : M unit :=
  try_except
    (let! similar_analyses :=
       _find_similar_analyses question_analysis 5 in
     let question_analysis :=
       match similar_analyses with
       | [] => question_analysis
       | _ => QuestionAnalysis.set_similar_questions
                (List.map similar_entry (List.firstn 3 similar_analyses))
                question_analysis
       end in
     do! store_analysis question_analysis in
     let! relevant_articles :=
       _find_relevant_articles
         (QuestionAnalysis.question_text question_analysis) 5 in
     let! question_analysis :=
       match relevant_articles with
       | [] => ret question_analysis
       | _ =>
           let! materials :=
             for_each material_entry (List.firstn 5 relevant_articles) in
           ret (QuestionAnalysis.set_practice_materials materials
                  question_analysis)
       end in
     do! store_analysis question_analysis in
     commit)
    (fun _ => ret tt).

Definition legal_concept_entry (concept : list (string * string)) : Json :=
  JDict [ ("concept", JStr (default "" (dict_get "concept" concept)));
          ("description",
           JStr (default "" (dict_get "description" concept)));
          ("importance",
           JStr (default "中等" (dict_get "importance" concept))) ].

(** [metadata.get(k)] for a key whose value is a string, a number. *)
Definition get_str (k : string) (d : list (string * Json)) : option string :=
  match dict_get k d with Some (JStr s) => Some s | _ => None end.
Definition get_num (k : string) (d : list (string * Json)) : option Q :=
  match dict_get k d with Some (JNum q) => Some q | _ => None end.

Definition analyze_question (self : t) (question_text user_id : string)
    (document_id context question_type_hint : option string)
    : M AnalysisSummary.t :=
  try_except
    (if negb (LLMService.is_available (llm_service self)) then
       _fallback_analysis question_text user_id document_id
     else
       let! answer :=
         LLMService.analyze_legal_question (llm_service self)
           question_text context question_type_hint in
       let analysis_result := answer.1 in
       let metadata := answer.2 in
       let legal_concepts_list :=
         List.map legal_concept_entry
           (LegalAnalysisResult.legal_concepts analysis_result) in
       let! new_id := uuid4 in
       let! created := now in
       let question_analysis :=
         {| QuestionAnalysis.id := new_id;
            QuestionAnalysis.user_id := user_id;
            QuestionAnalysis.document_id := document_id;
            QuestionAnalysis.question_text := question_text;
            QuestionAnalysis.question_type :=
              LegalAnalysisResult.question_type analysis_result;
            QuestionAnalysis.question_difficulty :=
              LegalAnalysisResult.difficulty_level analysis_result;
            QuestionAnalysis.analysis_result :=
              Some (JDict
                [ ("answer_approach",
                   JStr (LegalAnalysisResult.answer_approach
                           analysis_result));
                  ("key_points",
                   JList (List.map JStr
                            (LegalAnalysisResult.key_points
                               analysis_result)));
                  ("metadata", JDict metadata) ]);
            QuestionAnalysis.confidence_score :=
              LegalAnalysisResult.confidence_score analysis_result;
            QuestionAnalysis.relevant_laws :=
              Some (LegalAnalysisResult.relevant_laws analysis_result);
            QuestionAnalysis.legal_concepts := Some legal_concepts_list;
            QuestionAnalysis.key_points :=
              Some (LegalAnalysisResult.key_points analysis_result);
            QuestionAnalysis.study_suggestions :=
              LegalAnalysisResult.study_suggestions analysis_result;
            QuestionAnalysis.similar_questions := None;
            QuestionAnalysis.practice_materials := None;
            QuestionAnalysis.ai_model_used := get_str "model_used" metadata;
            QuestionAnalysis.processing_time_ms :=
              get_num "processing_time_ms" metadata;
            QuestionAnalysis.user_rating := None;
            QuestionAnalysis.user_feedback := None;
            QuestionAnalysis.created_at := created;
            QuestionAnalysis.updated_at := created |} in
       do! add_analysis question_analysis in
       do! commit in
       do! _enhance_analysis question_analysis in
       ret {| AnalysisSummary.analysis_id :=
                QuestionAnalysis.id question_analysis;
              AnalysisSummary.question_type :=
                LegalAnalysisResult.question_type analysis_result;
              AnalysisSummary.difficulty_level :=
                LegalAnalysisResult.difficulty_level analysis_result;
              AnalysisSummary.confidence_score :=
                LegalAnalysisResult.confidence_score analysis_result;
              AnalysisSummary.relevant_laws :=
                LegalAnalysisResult.relevant_laws analysis_result;
              AnalysisSummary.legal_concepts := legal_concepts_list;
              AnalysisSummary.key_points :=
                LegalAnalysisResult.key_points analysis_result;
              AnalysisSummary.answer_approach :=
                LegalAnalysisResult.answer_approach analysis_result;
              AnalysisSummary.study_suggestions :=
                LegalAnalysisResult.study_suggestions analysis_result;
              AnalysisSummary.processing_metadata := metadata;
              AnalysisSummary.created_at :=
                QuestionAnalysis.created_at question_analysis |})
    (fun _ =>
       do! rollback in
       _fallback_analysis question_text user_id document_id).

Definition get_analysis (analysis_id user_id : string)
    : M (option QuestionAnalysis.t) :=
  try_except
    (let! rows := query_analyses in
     ret (first
            (List.filter
               (fun a =>
                  same_analysis analysis_id a
                  && bool_decide (QuestionAnalysis.user_id a = user_id))
               rows)))
    (fun _ => ret None).

Definition get_user_analyses (user_id : string) (limit offset : nat)
    (question_type_filter : option string) : M (list QuestionAnalysis.t) :=
  try_except
    (let! rows := query_analyses in
     let query :=
       List.filter
         (fun a => bool_decide (QuestionAnalysis.user_id a = user_id))
         rows in
     let query :=
       match question_type_filter with
       | Some q =>
           if Py.truthy q
           then List.filter
                  (fun a =>
                     bool_decide (QuestionAnalysis.question_type a = q))
                  query
           else query
       | None => query
       end in
     ret (offset_limit offset limit
            (order_by_desc QuestionAnalysis.created_at query)))
    (fun _ => ret []).

Definition rate_analysis (analysis_id user_id : string) (rating : Q)
    (feedback : option string) : M bool :=
  try_except
    (let! analysis := get_analysis analysis_id user_id in
     match analysis with
     | None => ret false
     | Some analysis =>
         let! updated := now in
         do! store_analysis
               (QuestionAnalysis.set_rating rating feedback updated
                  analysis) in
         do! commit in
         ret true
     end)
    (fun _ => do! rollback in ret false).

End AnalysisService.

(** ** api/analysis.py: the handler of [POST /analysis/{id}/rate] *)

Module AnalysisApi.

Record AnalysisRatingRequest := {
  rating : Q;
  feedback : option string
}.

(** The [Field] constraints of the request model: [ge=1.0, le=5.0] on the
    rating, [max_length=1000] on the feedback. *)
Definition valid (request : AnalysisRatingRequest) : bool :=
  Qle_bool 1.0%Q (rating request) && Qle_bool (rating request) 5.0%Q
  && match feedback request with
     | Some f => (Py.len f <=? 1000)%nat
     | None => true
     end.

Record RateResponse := {
  message : string;
  analysis_id : string;
  rated : Q
}.

(** The framework validates the body before it calls the handler and
    answers 422 when the validation fails. *)
Definition rate_analysis (service : AnalysisService.t)
    (analysis_id : string) (request : AnalysisRatingRequest)
    (current_user_id : string) : M RateResponse :=
  if negb (valid request) then
    raise (HTTPException 422 "Unprocessable Entity")
  else
    let! success :=
      AnalysisService.rate_analysis analysis_id current_user_id
        (rating request) (feedback request) in
    if negb success then
      raise (HTTPException 404 "Analysis not found or could not be rated")
    else
      ret {| message := "Analysis rated successfully";
             analysis_id := analysis_id;
             rated := rating request |}.

End AnalysisApi.

(** ** A small deployment, for the examples *)

Definition sample_entropy (n : nat) : string := "uuid-" +:+ pretty n.

Definition small_store : FileStorage.t :=
  {| FileStorage.upload_dir := "data/uploads";
     FileStorage.max_file_size := 4;
     FileStorage.allowed_extensions := [".pdf"] |}.

Definition paddle : OCRProcessor.t :=
  {| OCRProcessor.engine := "paddleocr";
     OCRProcessor.language := "ch_tra";
     OCRProcessor._ocr_available := true |}.

Definition pipeline : DocumentService.t :=
  {| DocumentService.file_storage := small_store;
     DocumentService.ocr_processor := paddle |}.

Definition no_tables : Tables :=
  {| documents := []; question_analyses := []; legal_articles := [] |}.

Definition fresh_world : World :=
  {| fs := ∅;
     session := {| persisted := no_tables; working := no_tables;
                   faults := [] |};
     clock := 0;
     entropy := sample_entropy;
     draws := 0;
     modules := ["fitz"; "paddleocr"];
     trace := [] |}.

Definition not_a_pdf : Reply (list (Reply File)) :=
  Threw (RuntimeError "cannot open document").

(** The image of a page on which the engine reads one line. *)
Definition page_image (line : string) : File :=
  mkFile 1 (Got (Some [Some line])) (Got line) not_a_pdf.

Definition unreadable : Reply (option (list (option string))) :=
  Threw (RuntimeError "not an image").

(** A PDF of three bytes and one page. *)
Definition one_page_pdf : File :=
  mkFile 3 unreadable (Threw (RuntimeError "not an image"))
    (Got [Got (page_image "契約之成立")]).

(** A PDF of nine bytes. *)
Definition nine_byte_pdf : File :=
  mkFile 9 unreadable (Threw (RuntimeError "not an image"))
    (Got [Got (page_image "契約之成立")]).

(** A PDF without pages. *)
Definition empty_pdf : File :=
  mkFile 2 unreadable (Threw (RuntimeError "not an image")) (Got []).

(** A PDF whose first page renders and whose second page does not. *)
Definition torn_pdf : File :=
  mkFile 3 unreadable (Threw (RuntimeError "not an image"))
    (Got [Got (page_image "第一頁");
          Threw (RuntimeError "cannot render page")]).

(** A parser that accepts nothing, for a service whose answers never get
    that far. *)
Definition no_parse (s : string) : Reply LegalAnalysisResult.t :=
  Threw (ValueError "Failed to parse LegalAnalysisResult").

(** No key configured: [_llm] is [None]. *)
Definition offline : LLMService.t :=
  {| LLMService.model_name := "gpt-4";
     LLMService.max_tokens := 4000;
     LLMService._llm := None;
     LLMService.format_instructions := "";
     LLMService.parse := no_parse;
     LLMService.json_loads := no_parse |}.

(** A client whose every request times out. *)
Definition timeout_client (messages : list LLMService.Message)
    : Reply string :=
  Threw (ServiceError "Request timed out.").

Definition timing_out : LLMService.t :=
  {| LLMService.model_name := "gpt-4";
     LLMService.max_tokens := 4000;
     LLMService._llm := Some timeout_client;
     LLMService.format_instructions := "";
     LLMService.parse := no_parse;
     LLMService.json_loads := no_parse |}.

Definition analyst (llm : LLMService.t) : AnalysisService.t :=
  {| AnalysisService.llm_service := llm |}.

Definition contract_question : string := "下列何者為正確的契約成立要件？".

(** ** The vocabulary of the properties *)

(** The world after a draw of [uuid4]. *)
Definition drawn (w : World) : World :=
  {| fs := fs w; session := session w; clock := clock w; entropy := entropy w;
     draws := S (draws w); modules := modules w; trace := trace w |}.

(** A computation preserves a property of the session. *)
Definition preserves (P : Session -> Prop) {A} (m : M A) : Prop :=
  forall w, P (session w) -> P (session (m w).2).

(** The number of rollbacks so far. *)
Definition rollbacks (w : World) : nat :=
  length (List.filter
            (fun e => match e with EvRollback => true | _ => false end)
            (trace w)).

(** The computations that never roll back. *)
Definition keeps_rollbacks {A} (m : M A) : Prop :=
  forall w, rollbacks (m w).2 = rollbacks w.

(** The number of extractions started so far. *)
Definition extractions (w : World) : nat :=
  length (List.filter
            (fun e => match e with EvExtract _ => true | _ => false end)
            (trace w)).

(** *** The document pipeline as a transition system

    A request runs one operation of the pipeline in a session of its own,
    which is closed when the operation is over: an upload, the removal of
    a document, and the processing of a document as its handler starts
    it, behind the guard on the status. *)







(** What every processing of a row ends with: the text of the
    [AttributeError] that the read of [file_path] raises. *)
Definition no_file_path : string :=
  "'Document' object has no attribute 'file_path'".

(** What the processing that starts at time [started] makes of a row:
    marked as in progress, then as failed. *)
Definition marked_failed (started : nat) (d : Document.t) : Document.t :=
  Document.set_error_message no_file_path
    (Document.set_processing_completed_at (S started)
       (Document.set_processing_status "failed"
          (Document.set_processing_started_at started
             (Document.set_processing_status "processing" d)))).

(** *** Page images *)

(** The name under which the image of page [page_num] (counted from 0) of
    a PDF is written. *)
Definition page_image_path (pdf_path : string) (page_num : nat) : string :=
  Py.joinpath (Py.parent pdf_path)
    (Py.stem pdf_path +:+ "_page_" +:+ pretty (page_num + 1) +:+ ".png").

(** The images of pages that all render, with their names. *)
Fixpoint named_pages (pdf_path : string) (images : list File) (n : nat)
    : list (string * File) :=
  match images with
  | [] => []
  | image :: images' =>
      (page_image_path pdf_path n, image) :: named_pages pdf_path images' (S n)
  end.

(** The store with the given files written, one after the other. *)
Definition write_all (files : list (string * File)) (m : gmap string File)
    : gmap string File :=
  List.fold_left (fun m pf => <[pf.1 := pf.2]> m) files m.

(** The store with the given paths deleted, one after the other. *)
Definition delete_all (paths : list string) (m : gmap string File)
    : gmap string File :=
  List.fold_left (fun m p => delete p m) paths m.

(** *** Analyses *)

(** What the service recorded about a result in a row. *)
Definition recorded (i : string) (score : Q) (model : string)
    (a : QuestionAnalysis.t) : Prop :=
  QuestionAnalysis.id a = i
  /\ QuestionAnalysis.confidence_score a = score
  /\ QuestionAnalysis.ai_model_used a = Some model.

(** ** The worlds of the examples *)

(** A database that holds the given documents, and a store that holds
    the given files. *)
Definition holding (rows : list Document.t) (files : gmap string File)
    : World :=
  let tables :=
    {| documents := rows; question_analyses := [];
       legal_articles := [] |} in
  {| fs := files;
     session := {| persisted := tables; working := tables; faults := [] |};
     clock := 3;
     entropy := sample_entropy;
     draws := 2;
     modules := ["fitz"; "paddleocr"];
     trace := [] |}.

(** A completed document of alice. *)
Definition completed_scan : Document.t :=
  {| Document.id := "uuid-1";
     Document.user_id := "alice";
     Document.filename := "exam.pdf";
     Document.file_type := "application/pdf";
     Document.file_size := 3;
     Document.storage_path := "data/uploads/uuid-0.pdf";
     Document.processing_status := "completed";
     Document.ocr_text := Some "契約之成立";
     Document.ocr_confidence := None;
     Document.processing_started_at := Some 1;
     Document.processing_completed_at := Some 2;
     Document.error_message := None;
     Document.created_at := 0;
     Document.updated_at := 2 |}.

(** A database that holds it, beside its file.  No operation of the
    service makes such a row: it is given. *)
Definition after_scan : World :=
  holding [completed_scan] {[ "data/uploads/uuid-0.pdf" := one_page_pdf ]}.

(** A document of alice that waits for its processing. *)
Definition waiting_scan : Document.t :=
  {| Document.id := "uuid-1";
     Document.user_id := "alice";
     Document.filename := "exam.pdf";
     Document.file_type := "application/pdf";
     Document.file_size := 3;
     Document.storage_path := "data/uploads/uuid-0.pdf";
     Document.processing_status := "uploaded";
     Document.ocr_text := None;
     Document.ocr_confidence := None;
     Document.processing_started_at := None;
     Document.processing_completed_at := None;
     Document.error_message := None;
     Document.created_at := 0;
     Document.updated_at := 0 |}.

Definition before_scan : World :=
  holding [waiting_scan] {[ "data/uploads/uuid-0.pdf" := one_page_pdf ]}.

(** A store that holds the PDF whose second page does not render. *)
Definition torn_world : World :=
  with_fs {[ "data/uploads/exam.pdf" := torn_pdf ]} fresh_world.

(** An extraction leaves no file behind that was not there before. *)
Definition leaves_no_file (self : OCRProcessor.t) (pdf_path : string)
    (w : World) : Prop :=
  forall p,
    is_Some (fs (OCRProcessor.extract_text_from_pdf self pdf_path w).2 !! p) ->
    is_Some (fs w !! p).

(** What the specification says [analyze_question] does when the call of
    the reasoning service fails: roll the transaction back and return the
    result of the fallback path. *)
Definition rolls_back_to_fallback (self : AnalysisService.t)
    (question_text user_id : string)
    (document_id context question_type_hint : option string) (w : World)
    : Prop :=
  exists r w',
    AnalysisService.analyze_question self question_text user_id document_id
      context question_type_hint w = (Return r, w')
    /\ rollbacks w' = S (rollbacks w)
    /\ AnalysisSummary.processing_metadata r = [("method", JStr "fallback")].

(** A row of the given identifier with the given score and model is among
    the analyses the database holds. *)
Definition holds_record (i : string) (score : Q) (model : string)
    (s : Session) : Prop :=
  Exists (recorded i score model) (question_analyses (persisted s))
  /\ Exists (recorded i score model) (question_analyses (working s)).

(** The row behind a result: its identifier, its owner, its question, and
    what the result says of the type and of the confidence. *)
Definition row_of (r : AnalysisSummary.t) (user_id question_text : string)
    (a : QuestionAnalysis.t) : Prop :=
  QuestionAnalysis.id a = AnalysisSummary.analysis_id r
  /\ QuestionAnalysis.user_id a = user_id
  /\ QuestionAnalysis.question_text a = question_text
  /\ QuestionAnalysis.question_type a = AnalysisSummary.question_type r
  /\ QuestionAnalysis.confidence_score a
     = AnalysisSummary.confidence_score r.

(** Such a row is among the analyses the database holds. *)
Definition holds_row (r : AnalysisSummary.t) (user_id question_text : string)
    (s : Session) : Prop :=
  Exists (row_of r user_id question_text) (question_analyses (persisted s))
  /\ Exists (row_of r user_id question_text) (question_analyses (working s)).

(** A database that refuses the next commit and takes the one after it. *)
Definition refusing_once : World :=
  with_session {| persisted := no_tables; working := no_tables;
                  faults := [true] |} fresh_world.

(** The world after the analysis of [contract_question] for alice without
    a reasoning service. *)
Definition after_fallback : World :=
  close (AnalysisService.analyze_question (analyst offline) contract_question
           "alice" None None None fresh_world).2.

Definition six_stars : AnalysisApi.AnalysisRatingRequest :=
  {| AnalysisApi.rating := 6.0%Q; AnalysisApi.feedback := None |}.

Definition four_stars : AnalysisApi.AnalysisRatingRequest :=
  {| AnalysisApi.rating := 4.0%Q; AnalysisApi.feedback := Some "清楚" |}.

(** * Properties *)

(** ** Equations of the monad *)

Lemma bind_Return {A B} (m : M A) (k : A -> M B) (w w1 : World) (a : A) :
  m w = (Return a, w1) -> bind m k w = k a w1.
Proof. intros H. unfold bind. rewrite H. reflexivity. Qed.

Lemma bind_Raise {A B} (m : M A) (k : A -> M B) (w w1 : World) (e : Exn) :
  m w = (Raise e, w1) -> bind m k w = (Raise e, w1).
Proof. intros H. unfold bind. rewrite H. reflexivity. Qed.

Lemma try_Return {A} (m : M A) (h : Exn -> M A) (w w1 : World) (a : A) :
  m w = (Return a, w1) -> try_except m h w = (Return a, w1).
Proof. intros H. unfold try_except. rewrite H. reflexivity. Qed.

Lemma try_Raise {A} (m : M A) (h : Exn -> M A) (w w1 : World) (e : Exn) :
  m w = (Raise e, w1) -> try_except m h w = h e w1.
Proof. intros H. unfold try_except. rewrite H. reflexivity. Qed.

Lemma bind_inv {A B} (m : M A) (k : A -> M B) (w w' : World) (b : B) :
  bind m k w = (Return b, w') ->
  exists a w1, m w = (Return a, w1) /\ k a w1 = (Return b, w').
Proof.
  unfold bind. destruct (m w) as [[a | e] w1]; intros H.
  - eauto.
  - discriminate.
Qed.

Lemma bind_inv_Raise {A B} (m : M A) (k : A -> M B) (w w' : World) (e : Exn) :
  bind m k w = (Raise e, w') ->
  m w = (Raise e, w')
  \/ exists a w1, m w = (Return a, w1) /\ k a w1 = (Raise e, w').
Proof.
  unfold bind. destruct (m w) as [[a | e1] w1]; intros H.
  - right. eauto.
  - left. inversion H; subst. reflexivity.
Qed.

Lemma try_inv {A} (m : M A) (h : Exn -> M A) (w w' : World) (a : A) :
  try_except m h w = (Return a, w') ->
  m w = (Return a, w')
  \/ exists e w1, m w = (Raise e, w1) /\ h e w1 = (Return a, w').
Proof.
  unfold try_except. destruct (m w) as [[a1 | e] w1]; intros H.
  - left. exact H.
  - right. eauto.
Qed.

Lemma commit_inv (w w' : World) :
  commit w = (Return tt, w') ->
  persisted (session w') = working (session w)
  /\ working (session w') = working (session w)
  /\ fs w' = fs w.
Proof.
  unfold commit.
  destruct (faults (session w)) as [| [|] fl]; intros H; inversion H; subst;
    cbn; auto.
Qed.

Lemma commit_healthy (w : World) :
  List.hd false (faults (session w)) = false ->
  commit w
  = (Return tt,
     log EvCommit
       (with_session {| persisted := working (session w);
                        working := working (session w);
                        faults := List.tl (faults (session w)) |} w)).
Proof.
  intros Hf. unfold commit.
  destruct (faults (session w)) as [| [|] fl]; cbn in *;
    [reflexivity | discriminate | reflexivity].
Qed.

Lemma commit_refused (w : World) (fl : list bool) :
  faults (session w) = true :: fl ->
  commit w
  = (Raise (SQLAlchemyError "commit failed"),
     with_session {| persisted := persisted (session w);
                     working := working (session w);
                     faults := fl |} w).
Proof. intros Hf. unfold commit. rewrite Hf. reflexivity. Qed.

Lemma bind_Return_ex {A B} (m : M A) (k : A -> M B) (w w1 : World) (a : A)
    (Q : B -> World -> Prop) :
  m w = (Return a, w1) ->
  (exists b w2, k a w1 = (Return b, w2) /\ Q b w2) ->
  exists b w2, bind m k w = (Return b, w2) /\ Q b w2.
Proof.
  intros Hm (b & w2 & Hk & HQ). exists b, w2. split; [| exact HQ].
  rewrite (bind_Return m k w w1 a Hm). exact Hk.
Qed.

Lemma try_Return_ex {A} (m : M A) (h : Exn -> M A) (w : World)
    (Q : A -> World -> Prop) :
  (exists a w1, m w = (Return a, w1) /\ Q a w1) ->
  exists a w1, try_except m h w = (Return a, w1) /\ Q a w1.
Proof.
  intros (a & w1 & Hm & HQ). exists a, w1. split; [| exact HQ].
  apply try_Return, Hm.
Qed.

Lemma try_inv_Raise {A} (m : M A) (h : Exn -> M A) (w w' : World) (e : Exn) :
  try_except m h w = (Raise e, w') ->
  exists e0 w1, m w = (Raise e0, w1) /\ h e0 w1 = (Raise e, w').
Proof.
  unfold try_except. destruct (m w) as [[a | e0] w1]; intros H.
  - discriminate.
  - eauto.
Qed.

(** ** Lists of rows *)

Lemma Forall_replace_first {R : Type} (Q : R -> Prop) (same : R -> bool)
    (r' : R) (l : list R) :
  Q r' -> Forall Q l -> Forall Q (replace_first same r' l).
Proof.
  intros Hr. induction 1 as [| x l Hx Hl IH]; cbn.
  - constructor.
  - destruct (same x); constructor; assumption.
Qed.

Lemma Forall_remove_first {R : Type} (Q : R -> Prop) (same : R -> bool)
    (l : list R) :
  Forall Q l -> Forall Q (remove_first same l).
Proof.
  induction 1 as [| x l Hx Hl IH]; cbn.
  - constructor.
  - destruct (same x); [assumption | constructor; assumption].
Qed.

Lemma Exists_replace_first {R : Type} (Q : R -> Prop) (same : R -> bool)
    (r' : R) (l : list R) :
  Q r' -> Exists Q l -> Exists Q (replace_first same r' l).
Proof.
  intros Hr. induction 1 as [x l Hx | x l Hl IH]; cbn.
  - destruct (same x); [left; exact Hr | left; exact Hx].
  - destruct (same x); [left; exact Hr | right; exact IH].
Qed.

Lemma In_replace_first {R : Type} (same : R -> bool) (r' : R) (l : list R) :
  existsb same l = true -> In r' (replace_first same r' l).
Proof.
  induction l as [| x l IH]; cbn; [discriminate |].
  destruct (same x); cbn; [auto |]. intros H. right. apply IH, H.
Qed.

Lemma existsb_replace_first {R : Type} (same : R -> bool) (r' : R)
    (l : list R) :
  same r' = true -> existsb same l = true ->
  existsb same (replace_first same r' l) = true.
Proof.
  intros Hr. induction l as [| x l IH]; cbn; [discriminate |].
  destruct (same x) eqn:Hx; cbn.
  - rewrite Hr. reflexivity.
  - rewrite Hx. exact IH.
Qed.

Lemma first_filter_Some {R : Type} (f : R -> bool) (l : list R) (r : R) :
  first (List.filter f l) = Some r -> In r l /\ f r = true.
Proof.
  unfold first. intros H.
  assert (Hin : In r (List.filter f l)).
  { destruct (List.filter f l); [discriminate |].
    cbn in H. inversion H. left. reflexivity. }
  apply filter_In in Hin. exact Hin.
Qed.

Lemma first_filter_None {R : Type} (f : R -> bool) (l : list R) :
  (forall r, In r l -> f r = false) -> first (List.filter f l) = None.
Proof.
  intros H. induction l as [| x l IH]; cbn; [reflexivity |].
  rewrite (H x) by (left; reflexivity).
  apply IH. intros r Hr. apply H. right. exact Hr.
Qed.

Lemma Forall_insert_desc {R : Type} (Q : R -> Prop) (key : R -> nat) (r : R)
    (l : list R) :
  Q r -> Forall Q l -> Forall Q (insert_desc key r l).
Proof.
  intros Hr. induction 1 as [| x l Hx Hl IH]; cbn [insert_desc].
  - constructor; [exact Hr | constructor].
  - destruct (key x <? key r)%nat.
    + constructor; [exact Hr | constructor; assumption].
    + constructor; assumption.
Qed.

Lemma Forall_order_by_desc {R : Type} (Q : R -> Prop) (key : R -> nat)
    (l : list R) :
  Forall Q l -> Forall Q (order_by_desc key l).
Proof.
  unfold order_by_desc. induction 1 as [| x l Hx Hl IH]; cbn.
  - constructor.
  - apply Forall_insert_desc; assumption.
Qed.

Lemma Forall_offset_limit {R : Type} (Q : R -> Prop) (o n : nat)
    (l : list R) :
  Forall Q l -> Forall Q (offset_limit o n l).
Proof.
  intros H. unfold offset_limit. apply Forall_take, Forall_drop, H.
Qed.

Lemma Forall_filter_self {R : Type} (f : R -> bool) (l : list R) :
  Forall (fun r => f r = true) (List.filter f l).
Proof.
  apply List.Forall_forall. intros x Hx. apply filter_In in Hx. apply Hx.
Qed.

Lemma Forall_filter_keeps {R : Type} (Q : R -> Prop) (f : R -> bool)
    (l : list R) :
  Forall Q l -> Forall Q (List.filter f l).
Proof.
  intros H. apply List.Forall_forall. intros x Hx. apply filter_In in Hx.
  apply (proj1 (List.Forall_forall Q l) H). apply Hx.
Qed.

(** ** Preservation of a property of the session *)

Section Preservation.

Variable P : Session -> Prop.

Lemma preserves_ret {A} (a : A) : preserves P (ret a).
Proof. intros w H. exact H. Qed.

Lemma preserves_raise {A} (e : Exn) : preserves P (@raise A e).
Proof. intros w H. exact H. Qed.

Lemma preserves_gets {A} (f : World -> A) : preserves P (gets f).
Proof. intros w H. exact H. Qed.

Lemma preserves_bind {A B} (m : M A) (k : A -> M B) :
  preserves P m -> (forall a, preserves P (k a)) -> preserves P (bind m k).
Proof.
  intros Hm Hk w H. unfold bind.
  specialize (Hm w H). destruct (m w) as [[a | e] w1]; cbn in *.
  - apply Hk, Hm.
  - exact Hm.
Qed.

Lemma preserves_try {A} (m : M A) (h : Exn -> M A) :
  preserves P m -> (forall e, preserves P (h e)) ->
  preserves P (try_except m h).
Proof.
  intros Hm Hh w H. unfold try_except.
  specialize (Hm w H). destruct (m w) as [[a | e] w1]; cbn in *.
  - exact Hm.
  - apply Hh, Hm.
Qed.

Lemma preserves_now : preserves P now.
Proof. intros w H. exact H. Qed.

Lemma preserves_uuid4 : preserves P uuid4.
Proof. intros w H. exact H. Qed.

Lemma preserves_import (m : string) : preserves P (import m).
Proof. intros w H. unfold import. destruct (bool_decide _); exact H. Qed.

Lemma preserves_exists (p : string) : preserves P (exists_ p).
Proof. intros w H. exact H. Qed.

Lemma preserves_write_file (p : string) (f : File) :
  preserves P (write_file p f).
Proof. intros w H. exact H. Qed.

Lemma preserves_stat (p : string) : preserves P (stat p).
Proof. intros w H. unfold stat. destruct (fs w !! p); exact H. Qed.

Lemma preserves_unlink (p : string) : preserves P (unlink p).
Proof. intros w H. unfold unlink. destruct (fs w !! p); exact H. Qed.

Lemma preserves_log (e : Event) : preserves P (modify (log e)).
Proof. intros w H. exact H. Qed.

End Preservation.

Ltac preserve :=
  repeat first
    [ apply preserves_ret | apply preserves_raise | apply preserves_gets
    | apply preserves_now | apply preserves_uuid4 | apply preserves_import
    | apply preserves_exists | apply preserves_write_file
    | apply preserves_stat | apply preserves_unlink | apply preserves_log
    | apply preserves_bind; [| intros ?]
    | apply preserves_try; [| intros ?]
    | match goal with
      | |- preserves _ (if ?b then _ else _) => destruct b
      | |- preserves _ (match ?x with _ => _ end) => destruct x
      end ].

(** The file store and the extractor leave the session alone. *)

Section Frame.

Variable P : Session -> Prop.

Lemma preserves_save_file self file filename :
  preserves P (FileStorage.save_file self file filename).
Proof.
  unfold FileStorage.save_file, FileStorage.generate_unique_filename.
  preserve.
Qed.

Lemma preserves_delete_file self filename :
  preserves P (FileStorage.delete_file self filename).
Proof. unfold FileStorage.delete_file. preserve. Qed.

Lemma preserves_get_file_info self filename :
  preserves P (FileStorage.get_file_info self filename).
Proof.
  unfold FileStorage.get_file_info, FileStorage.get_file_path. preserve.
Qed.

Lemma preserves_extract_text_from_image self p :
  preserves P (OCRProcessor.extract_text_from_image self p).
Proof.
  unfold OCRProcessor.extract_text_from_image,
    OCRProcessor._extract_text_paddleocr,
    OCRProcessor._extract_text_tesseract.
  preserve.
Qed.

Lemma preserves_render_pages pdf doc n :
  preserves P (OCRProcessor.render_pages pdf doc n).
Proof.
  revert n. induction doc as [| page doc IH]; intros n; cbn.
  - preserve.
  - destruct page; preserve. apply IH.
Qed.

Lemma preserves_extract_pages self paths i :
  preserves P (OCRProcessor.extract_pages self paths i).
Proof.
  revert i. induction paths as [| p paths IH]; intros i; cbn.
  - preserve.
  - apply preserves_bind; [apply preserves_extract_text_from_image |].
    intros t. preserve. apply IH.
Qed.

Lemma preserves_extract_text_async self p :
  preserves P (OCRProcessor.extract_text_async self p).
Proof.
  unfold OCRProcessor.extract_text_async,
    OCRProcessor.extract_text_from_pdf,
    OCRProcessor._convert_pdf_to_images.
  preserve;
    first [ apply preserves_render_pages | apply preserves_extract_pages
          | apply preserves_extract_text_from_image ].
Qed.

Lemma preserves_get_document i u :
  preserves P (DocumentService.get_document i u).
Proof. unfold DocumentService.get_document, query_documents. preserve. Qed.

End Frame.

Lemma extract_text_async_session self p w :
  session (OCRProcessor.extract_text_async self p w).2 = session w.
Proof.
  symmetry.
  apply (preserves_extract_text_async (fun s => session w = s) self p w).
  reflexivity.
Qed.

(** ** The file store and the upload *)

Lemma save_file_within_limit (self : FileStorage.t) (file : File)
    (filename : string) (w : World) :
  FileStorage.is_allowed_file self filename = true ->
  (st_size file <= FileStorage.max_file_size self)%nat ->
  let unique_filename := entropy w (draws w) +:+ Py.suffix filename in
  let stored := Py.joinpath (FileStorage.upload_dir self) unique_filename in
  FileStorage.save_file self file filename w
  = (Return (unique_filename, stored),
     with_fs (<[stored := file]> (fs w)) (drawn w)).
Proof.
  intros Hext Hsize unique_filename stored.
  unfold FileStorage.save_file. rewrite Hext. cbn [negb].
  unfold FileStorage.generate_unique_filename, bind, uuid4, try_except, ret,
    write_file, modify, stat.
  cbn. fold unique_filename. fold stored.
  rewrite lookup_insert_eq.
  unfold FileStorage.check_file_size.
  destruct (Nat.leb_spec (st_size file) (FileStorage.max_file_size self))
    as [Hle | Hgt]; [| lia].
  reflexivity.
Qed.

Lemma save_file_over_limit (self : FileStorage.t) (file : File)
    (filename : string) (w : World) :
  FileStorage.is_allowed_file self filename = true ->
  (FileStorage.max_file_size self < st_size file)%nat ->
  let stored :=
    Py.joinpath (FileStorage.upload_dir self)
      (entropy w (draws w) +:+ Py.suffix filename) in
  FileStorage.save_file self file filename w
  = (Raise (ValueError ("File size exceeds limit: "
                        +:+ pretty (st_size file) +:+ " bytes")),
     with_fs (delete stored (fs w)) (drawn w)).
Proof.
  intros Hext Hsize stored.
  unfold FileStorage.save_file. rewrite Hext. cbn [negb].
  unfold FileStorage.generate_unique_filename, bind, uuid4, try_except, ret,
    write_file, modify, stat.
  cbn. fold stored.
  rewrite lookup_insert_eq.
  unfold FileStorage.check_file_size.
  destruct (Nat.leb_spec (st_size file) (FileStorage.max_file_size self))
    as [Hle | Hgt]; [lia |].
  cbn. unfold unlink. cbn. rewrite lookup_insert_eq. cbn.
  unfold exists_, gets. cbn.
  rewrite lookup_delete_eq.
  rewrite bool_decide_eq_false_2 by (intros [? ?]; discriminate).
  cbn. unfold with_fs, drawn; cbn.
  rewrite delete_insert_eq. reflexivity.
Qed.

Lemma get_file_info_stored (self : FileStorage.t) (filename : string)
    (f : File) (w : World) :
  fs w !! Py.joinpath (FileStorage.upload_dir self) filename = Some f ->
  FileStorage.get_file_info self filename w
  = (Return (Some {| FileStorage.filename := filename;
                     FileStorage.size := st_size f;
                     FileStorage.extension :=
                       Py.suffix (Py.joinpath (FileStorage.upload_dir self)
                                    filename);
                     FileStorage.path :=
                       Py.joinpath (FileStorage.upload_dir self) filename |}),
     w).
Proof.
  intros Hf.
  unfold FileStorage.get_file_info, FileStorage.get_file_path, bind,
    exists_, gets, try_except, stat, ret.
  rewrite Hf.
  rewrite bool_decide_eq_true_2 by eauto.
  rewrite Hf. reflexivity.
Qed.

Lemma with_fs_same (w : World) : with_fs (fs w) w = w.
Proof. destruct w. reflexivity. Qed.

Lemma delete_file_eq (self : FileStorage.t) (name : string) (w : World) :
  let path := Py.joinpath (FileStorage.upload_dir self) name in
  FileStorage.delete_file self name w
  = (Return (bool_decide (is_Some (fs w !! path))),
     with_fs (delete path (fs w)) w).
Proof.
  intros path.
  unfold FileStorage.delete_file, try_except, bind, exists_, gets, unlink, ret.
  fold path.
  destruct (fs w !! path) as [f |] eqn:Hf.
  - rewrite bool_decide_eq_true_2 by eauto. cbn. rewrite Hf. reflexivity.
  - rewrite bool_decide_eq_false_2 by (intros [? ?]; discriminate).
    cbn. rewrite delete_id by exact Hf. rewrite with_fs_same. reflexivity.
Qed.

Lemma upload_failed_raises {A} (self : DocumentService.t)
    (saved : option string) (e : Exn) (w : World) :
  exists e' w',
    @DocumentService.upload_failed A self saved e w = (Raise e', w').
Proof.
  unfold DocumentService.upload_failed.
  destruct (is_ValueError e); [eexists _, _; reflexivity |].
  unfold bind.
  destruct (try_except _ _ w) as [[[] | e1] w1]; eexists _, _; reflexivity.
Qed.

(** C5. For every filename whose extension is not in the allow-list, the
    upload raises the validation error [ValueError], and the world after it
    is the world before it: no file is written and no document row is
    created. *)
Theorem C5_disallowed_extension_is_rejected
    (self : DocumentService.t) (file : File) (filename user_id : string)
    (process_immediately : bool) (w : World) :
  FileStorage.is_allowed_file (DocumentService.file_storage self) filename
    = false ->
  DocumentService.upload_document self file filename user_id
    process_immediately w
  = (Raise (ValueError ("File type not allowed: " +:+ Py.suffix filename)),
     w).
Proof.
  intros Hext.
  unfold DocumentService.upload_document, bind, try_except.
  rewrite Hext. reflexivity.
Qed.

Lemma C5_witness :
  FileStorage.is_allowed_file (DocumentService.file_storage pipeline)
    "notes.exe" = false
  /\ DocumentService.upload_document pipeline one_page_pdf "notes.exe"
       "alice" true fresh_world
     = (Raise (ValueError ("File type not allowed: "
                           +:+ Py.suffix "notes.exe")),
        fresh_world).
Proof.
  split; [reflexivity |].
  apply (C5_disallowed_extension_is_rejected pipeline one_page_pdf
           "notes.exe" "alice" true fresh_world).
  reflexivity.
Defined.

(** C6. For every payload of an allowed type whose size after writing
    exceeds the maximum, [save_file] and the upload that calls it raise
    [ValueError], and the file written under the generated name is gone
    again: the store afterwards is the store before without that name. *)
Theorem C6_oversized_payload_is_removed
    (self : DocumentService.t) (file : File) (filename user_id : string)
    (process_immediately : bool) (w : World) :
  FileStorage.is_allowed_file (DocumentService.file_storage self) filename
    = true ->
  (FileStorage.max_file_size (DocumentService.file_storage self)
   < st_size file)%nat ->
  let stored :=
    Py.joinpath (FileStorage.upload_dir (DocumentService.file_storage self))
      (entropy w (draws w) +:+ Py.suffix filename) in
  exists msg w',
    FileStorage.save_file (DocumentService.file_storage self) file filename w
      = (Raise (ValueError msg), w')
    /\ DocumentService.upload_document self file filename user_id
         process_immediately w
       = (Raise (ValueError msg), w')
    /\ fs w' !! stored = None
    /\ fs w' = delete stored (fs w)
    /\ session w' = session w.
Proof.
  intros Hext Hsize stored.
  pose proof (save_file_over_limit _ file filename w Hext Hsize) as Hsave.
  cbn zeta in Hsave. fold stored in Hsave.
  eexists _, _. split; [exact Hsave |].
  split.
  - unfold DocumentService.upload_document, bind, try_except.
    rewrite Hext. cbn [negb]. rewrite Hsave. reflexivity.
  - cbn. split; [apply lookup_delete_eq | split; reflexivity].
Qed.

Lemma C6_witness :
  FileStorage.is_allowed_file (DocumentService.file_storage pipeline)
    "exam.pdf" = true
  /\ (FileStorage.max_file_size (DocumentService.file_storage pipeline)
      < st_size nine_byte_pdf)%nat
  /\ exists msg w',
       FileStorage.save_file (DocumentService.file_storage pipeline)
         nine_byte_pdf "exam.pdf" fresh_world
         = (Raise (ValueError msg), w')
       /\ DocumentService.upload_document pipeline nine_byte_pdf "exam.pdf"
            "alice" true fresh_world
          = (Raise (ValueError msg), w')
       /\ fs w' !! "data/uploads/uuid-0.pdf" = None
       /\ fs w' = delete "data/uploads/uuid-0.pdf" (fs fresh_world)
       /\ session w' = session fresh_world.
Proof.
  split; [reflexivity |]. split; [vm_compute; lia |].
  apply (C6_oversized_payload_is_removed pipeline nine_byte_pdf "exam.pdf"
           "alice" true fresh_world); [reflexivity | vm_compute; lia].
Defined.

(** An upload of an allowed type within the size limit stores the file
    and then fails at the constructor of the row, whose keywords are not
    all attributes of [Document]; the handler deletes the stored file. *)
Lemma upload_document_of_valid_file
    (self : DocumentService.t) (file : File) (filename user_id : string)
    (process_immediately : bool) (w : World) :
  FileStorage.is_allowed_file (DocumentService.file_storage self) filename
    = true ->
  (st_size file
   <= FileStorage.max_file_size (DocumentService.file_storage self))%nat ->
  let stored :=
    Py.joinpath (FileStorage.upload_dir (DocumentService.file_storage self))
      (entropy w (draws w) +:+ Py.suffix filename) in
  DocumentService.upload_document self file filename user_id
    process_immediately w
  = (Raise (RuntimeError
              ("Failed to upload document: "
               +:+ "'original_filename' is an invalid keyword argument "
               +:+ "for Document")),
     with_fs (delete stored (fs w)) (drawn w)).
Proof.
  intros Hext Hsize stored.
  unfold DocumentService.upload_document.
  rewrite Hext. cbn [negb].
  erewrite bind_Return
    by (apply try_Return, save_file_within_limit; assumption).
  cbn [fst snd]. fold stored.
  set (w1 := with_fs (<[stored := file]> (fs w)) (drawn w)).
  assert (Hfile : fs w1 !! stored = Some file)
    by (subst w1; cbn; apply lookup_insert_eq).
  erewrite try_Raise.
  2:{ erewrite bind_Return by (apply get_file_info_stored; exact Hfile).
      cbn beta iota. apply bind_Raise. reflexivity. }
  unfold DocumentService.upload_failed. cbn [is_ValueError].
  erewrite bind_Return.
  2:{ apply try_Return. erewrite bind_Return by apply delete_file_eq.
      reflexivity. }
  unfold raise. f_equal. subst w1. unfold with_fs, drawn. cbn.
  rewrite delete_insert_eq. reflexivity.
Qed.

(** No upload is accepted: whatever is uploaded, [upload_document] raises
    and leaves the session as it was. *)
Lemma upload_document_never_returns
    (self : DocumentService.t) (file : File) (filename user_id : string)
    (process_immediately : bool) (w : World) :
  exists e w',
    DocumentService.upload_document self file filename user_id
      process_immediately w = (Raise e, w')
    /\ session w' = session w.
Proof.
  destruct (FileStorage.is_allowed_file (DocumentService.file_storage self)
              filename) eqn:Hext.
  - destruct (Nat.le_gt_cases (st_size file)
                (FileStorage.max_file_size
                   (DocumentService.file_storage self))) as [Hle | Hgt].
    + eexists _, _. split.
      * apply upload_document_of_valid_file; assumption.
      * reflexivity.
    + eexists _, _. split.
      * unfold DocumentService.upload_document.
        rewrite Hext. cbn [negb].
        apply bind_Raise. erewrite try_Raise
          by (apply save_file_over_limit; assumption).
        reflexivity.
      * reflexivity.
  - eexists _, _. split.
    + unfold DocumentService.upload_document, bind, try_except.
      rewrite Hext. reflexivity.
    + reflexivity.
Qed.

(** C4 fails on the code.  No upload is ever accepted: whatever is
    uploaded, [upload_document] raises and leaves the database as it was;
    no row is inserted.  For a file of an allowed type within the size
    limit, which the claim has inserted as a ['pending'] row, the
    exception is the [RuntimeError] made from the [TypeError] of the
    constructor, and the file that had been stored is deleted again. *)
Theorem C4_upload_never_inserts_a_row
    (self : DocumentService.t) (file : File) (filename user_id : string)
    (process_immediately : bool) (w : World) :
  (exists e w',
     DocumentService.upload_document self file filename user_id
       process_immediately w = (Raise e, w')
     /\ session w' = session w)
  /\ (FileStorage.is_allowed_file (DocumentService.file_storage self)
        filename = true ->
      (st_size file
       <= FileStorage.max_file_size
            (DocumentService.file_storage self))%nat ->
      DocumentService.upload_document self file filename user_id
        process_immediately w
      = (Raise (RuntimeError
                  ("Failed to upload document: "
                   +:+ "'original_filename' is an invalid keyword argument "
                   +:+ "for Document")),
         with_fs
           (delete
              (Py.joinpath
                 (FileStorage.upload_dir (DocumentService.file_storage self))
                 (entropy w (draws w) +:+ Py.suffix filename))
              (fs w))
           (drawn w))).
Proof.
  split.
  - apply upload_document_never_returns.
  - intros Hext Hle. apply upload_document_of_valid_file; assumption.
Qed.

Lemma C4_witness :
  FileStorage.is_allowed_file (DocumentService.file_storage pipeline)
    "exam.pdf" = true
  /\ (st_size one_page_pdf
      <= FileStorage.max_file_size (DocumentService.file_storage pipeline))%nat
  /\ DocumentService.upload_document pipeline one_page_pdf "exam.pdf" "alice"
       false fresh_world
     = (Raise (RuntimeError
                 ("Failed to upload document: "
                  +:+ "'original_filename' is an invalid keyword argument "
                  +:+ "for Document")),
        with_fs (delete "data/uploads/uuid-0.pdf" (fs fresh_world))
          (drawn fresh_world))
  /\ documents (persisted (session (drawn fresh_world))) = [].
Proof.
  split; [reflexivity |]. split; [vm_compute; lia |].
  split; [| reflexivity].
  apply (proj2 (C4_upload_never_inserts_a_row pipeline one_page_pdf
                  "exam.pdf" "alice" false fresh_world));
    [reflexivity | vm_compute; lia].
Defined.
(** ** The document pipeline *)

Lemma find_document_eq (i : string) (w : World) :
  DocumentService.find_document i w
  = (Return (first (List.filter (same_document i)
                      (documents (working (session w))))), w).
Proof. reflexivity. Qed.

Lemma first_filter_replace_first {R : Type} (same : R -> bool) (r' : R)
    (l : list R) :
  same r' = true -> existsb same l = true ->
  first (List.filter same (replace_first same r' l)) = Some r'.
Proof.
  intros Hr. induction l as [| x l IH]; cbn; [discriminate |].
  destruct (same x) eqn:Hx; cbn.
  - rewrite Hr. reflexivity.
  - rewrite Hx. exact IH.
Qed.

Lemma first_filter_existsb {R : Type} (same : R -> bool) (l : list R) (r : R) :
  first (List.filter same l) = Some r -> existsb same l = true.
Proof.
  intros H. apply first_filter_Some in H. destruct H as [Hin Hs].
  apply existsb_exists. exists r. split; assumption.
Qed.

Lemma get_document_eq (i : string) (u : option string) (w : World) :
  exists found,
    DocumentService.get_document i u w = (Return found, w)
    /\ (forall d, found = Some d ->
        In d (documents (working (session w))) /\ Document.id d = i)
    /\ ((forall d, In d (documents (working (session w))) ->
         Document.id d <> i) -> found = None).
Proof.
  unfold DocumentService.get_document, try_except, bind, query_documents,
    gets, ret.
  eexists. split; [reflexivity |]. split.
  - intros d Hd.
    assert (Hin : In d (List.filter (same_document i)
                          (documents (working (session w))))).
    { destruct u as [u |]; [destruct (Py.truthy u) |].
      - apply first_filter_Some in Hd. apply Hd.
      - unfold first in Hd.
        destruct (List.filter _ _); [discriminate |].
        inversion Hd. left. reflexivity.
      - unfold first in Hd.
        destruct (List.filter _ _); [discriminate |].
        inversion Hd. left. reflexivity. }
    apply filter_In in Hin. destruct Hin as [Hin Hs].
    split; [exact Hin |]. apply bool_decide_eq_true_1 in Hs. exact Hs.
  - intros Hnone.
    assert (Hnil : List.filter (same_document i)
                     (documents (working (session w))) = []).
    { induction (documents (working (session w))) as [| x l IH]; cbn;
        [reflexivity |].
      unfold same_document at 1.
      rewrite bool_decide_eq_false_2 by (apply Hnone; left; reflexivity).
      apply IH. intros d Hd. apply Hnone. right. exact Hd. }
    rewrite Hnil. destruct u as [u |]; [destruct (Py.truthy u) |];
      reflexivity.
Qed.

Lemma replace_first_twice {R : Type} (same : R -> bool) (r1 r2 : R)
    (l : list R) :
  same r1 = true ->
  replace_first same r2 (replace_first same r1 l) = replace_first same r2 l.
Proof.
  intros H1. induction l as [| x l IH]; cbn; [reflexivity |].
  destruct (same x) eqn:Hx; cbn.
  - rewrite H1. reflexivity.
  - rewrite Hx, IH. reflexivity.
Qed.

(** The processing of a document that is there, with a database that
    takes the commits: the row is marked as in progress, the read of
    [file_path] raises, and the handler marks the row as failed. *)
Lemma process_document_fails (self : DocumentService.t) (i : string)
    (d : Document.t) (w : World) :
  first (List.filter (same_document i) (documents (working (session w))))
    = Some d ->
  faults (session w) = [] ->
  exists w',
    DocumentService.process_document self i w
    = (Raise (RuntimeError ("Failed to process document: "
                            +:+ no_file_path)), w')
    /\ documents (persisted (session w'))
       = replace_first (same_document i) (marked_failed (clock w) d)
           (documents (working (session w)))
    /\ working (session w') = persisted (session w')
    /\ faults (session w') = []
    /\ fs w' = fs w
    /\ extractions w' = extractions w.
Proof.
  intros Hfirst Hfaults.
  pose proof (first_filter_Some _ _ _ Hfirst) as [Hin Hsame].
  pose proof (first_filter_existsb _ _ _ Hfirst) as Hex.
  assert (Hid : Document.id d = i)
    by (apply bool_decide_eq_true_1 in Hsame; exact Hsame).
  unfold DocumentService.process_document.
  eexists. split.
  { erewrite try_Raise.
    2:{ erewrite bind_Return
          by (rewrite find_document_eq, Hfirst; reflexivity).
        cbn beta iota.
        erewrite bind_Return by reflexivity.
        erewrite bind_Return by reflexivity.
        erewrite bind_Return
          by (apply commit_healthy; cbn; rewrite Hfaults; reflexivity).
        apply bind_Raise. reflexivity. }
    erewrite bind_Return.
    2:{ apply try_Return.
        erewrite bind_Return.
        2:{ rewrite find_document_eq. cbn. rewrite Hid.
            rewrite first_filter_replace_first;
              [reflexivity | apply bool_decide_eq_true_2; exact Hid
              | exact Hex]. }
        cbn beta iota.
        erewrite bind_Return by reflexivity.
        erewrite bind_Return by reflexivity.
        apply commit_healthy. cbn. rewrite Hfaults. reflexivity. }
    reflexivity. }
  cbn. rewrite Hid, Hfaults.
  split.
  { rewrite replace_first_twice
      by (apply bool_decide_eq_true_2; exact Hid).
    reflexivity. }
  repeat split.
  unfold extractions. cbn. rewrite !List.filter_app, !length_app. cbn. lia.
Qed.

(** C2. For every document the caller can see whose status is
    ['completed'], the process operation of the API returns the status-only
    response, and the world after it is the world before it: no extraction
    is started and no row, hence no [processing_completed_at], changes. *)
Theorem C2_completed_document_is_not_processed_again
    (service : DocumentService.t) (document_id current_user_id : string)
    (d : Document.t) (w : World) :
  DocumentService.get_document document_id (Some current_user_id) w
    = (Return (Some d), w) ->
  Document.processing_status d = "completed" ->
  DocumentsApi.process_document service document_id current_user_id w
  = (Return (DocumentsApi.StatusOnly "Document already processed"
               document_id "completed"),
     w).
Proof.
  intros Hget Hstatus.
  unfold DocumentsApi.process_document.
  erewrite bind_Return by exact Hget.
  cbn beta iota. rewrite Hstatus. reflexivity.
Qed.

Lemma C2_witness :
  DocumentService.get_document "uuid-1" (Some "alice") after_scan
    = (Return (Some completed_scan), after_scan)
  /\ Document.processing_status completed_scan = "completed"
  /\ DocumentsApi.process_document pipeline "uuid-1" "alice" after_scan
     = (Return (DocumentsApi.StatusOnly "Document already processed"
                  "uuid-1" "completed"),
        after_scan).
Proof.
  split; [vm_compute; reflexivity |]. split; [reflexivity |].
  apply (C2_completed_document_is_not_processed_again pipeline "uuid-1"
           "alice" completed_scan after_scan);
    [vm_compute; reflexivity | reflexivity].
Defined.

(** The method of the service has no such guard: called on the completed
    document it starts no extraction either, but it marks the row as
    failed and moves the timestamp. *)
Example service_process_has_no_guard :
  let w' := (DocumentService.process_document pipeline "uuid-1" after_scan).2 in
  extractions w' = extractions after_scan
  /\ List.map Document.processing_status
       (documents (persisted (session w'))) = ["failed"]
  /\ List.map Document.processing_completed_at
       (documents (persisted (session after_scan))) = [Some 2]
  /\ List.map Document.processing_completed_at
       (documents (persisted (session w'))) = [Some 4].
Proof. vm_compute. repeat split. Qed.

(** *** What a request does to the documents *)





(** The removal of a document never removes anything: for a document the
    caller may see, the read of [stored_filename] raises, and the handler
    rolls back and answers [False]. *)
Lemma delete_document_eq (self : DocumentService.t) (i : string)
    (u : option string) (w : World) :
  exists found,
    DocumentService.get_document i u w = (Return found, w)
    /\ DocumentService.delete_document self i u w
       = (Return false,
          match found with
          | None => w
          | Some _ =>
              log EvRollback
                (with_session {| persisted := persisted (session w);
                                 working := persisted (session w);
                                 faults := faults (session w) |} w)
          end).
Proof.
  destruct (get_document_eq i u w) as (found & Hget & _).
  exists found. split; [exact Hget |].
  unfold DocumentService.delete_document.
  destruct found as [d |].
  - erewrite try_Raise.
    2:{ erewrite bind_Return by exact Hget. cbn beta iota.
        apply bind_Raise. reflexivity. }
    reflexivity.
  - apply try_Return. erewrite bind_Return by exact Hget. reflexivity.
Qed.








(** C9 fails on the code: the second page of this PDF does not render, the
    conversion gives up with the image of the first page already written,
    and the extraction returns, without success, with that image still in
    the store. *)
Theorem C9_torn_pdf_leaves_a_page_image :
  fs torn_world !! "data/uploads/exam_page_1.png" = None
  /\ (exists r,
        (OCRProcessor.extract_text_from_pdf paddle "data/uploads/exam.pdf"
           torn_world).1 = Return r
        /\ success (metadata r) = false)
  /\ fs (OCRProcessor.extract_text_from_pdf paddle "data/uploads/exam.pdf"
           torn_world).2 !! "data/uploads/exam_page_1.png"
     = Some (page_image "第一頁")
  /\ ~ leaves_no_file paddle "data/uploads/exam.pdf" torn_world.
Proof.
  assert (Hbefore : fs torn_world !! "data/uploads/exam_page_1.png" = None)
    by (vm_compute; reflexivity).
  assert (Hafter :
    fs (OCRProcessor.extract_text_from_pdf paddle "data/uploads/exam.pdf"
          torn_world).2 !! "data/uploads/exam_page_1.png"
    = Some (page_image "第一頁")) by (vm_compute; reflexivity).
  split; [exact Hbefore |]. split.
  { eexists. split; [vm_compute; reflexivity | reflexivity]. }
  split; [exact Hafter |].
  intros H. specialize (H "data/uploads/exam_page_1.png").
  rewrite Hafter, Hbefore in H.
  destruct H as [f Hf]; [eauto | discriminate].
Qed.

(** When every page renders, the loop over the images deletes each of
    them. *)
Example complete_rendering_cleans_up :
  fs (OCRProcessor.extract_text_from_pdf paddle "data/uploads/exam.pdf"
        (with_fs {[ "data/uploads/exam.pdf" := one_page_pdf ]} fresh_world)).2
  = {[ "data/uploads/exam.pdf" := one_page_pdf ]}.
Proof. vm_compute. reflexivity. Qed.

(** ** The analysis pipeline *)

Lemma fallback_analysis_returned (q u : string) (doc : option string)
    (w w' : World) (r : AnalysisSummary.t) :
  AnalysisService._fallback_analysis q u doc w = (Return r, w') ->
  AnalysisSummary.confidence_score r = 0.3%Q
  /\ AnalysisSummary.processing_metadata r = [("method", JStr "fallback")]
  /\ exists a,
       In a (question_analyses (persisted (session w')))
       /\ recorded (AnalysisSummary.analysis_id r) 0.3%Q
            "fallback_classifier" a
       /\ QuestionAnalysis.user_id a = u
       /\ QuestionAnalysis.question_text a = q.
Proof.
  unfold AnalysisService._fallback_analysis.
  unfold bind, uuid4, now, add_analysis, query_analyses, gets, put_analyses,
    modify, commit, ret. cbn.
  destruct (faults (session w)) as [| [|] fl]; cbn; intros H;
    inversion H; subst; clear H; cbn.
  all: split; [reflexivity |]; split; [reflexivity |].
  all: eexists; split; [apply in_or_app; right; left; reflexivity |].
  all: repeat split; reflexivity.
Qed.

Lemma fallback_analysis_raised (q u : string) (doc : option string)
    (w w' : World) (e : Exn) :
  AnalysisService._fallback_analysis q u doc w = (Raise e, w') ->
  e = SQLAlchemyError "commit failed".
Proof.
  unfold AnalysisService._fallback_analysis.
  unfold bind, uuid4, now, add_analysis, query_analyses, gets, put_analyses,
    modify, commit, ret. cbn.
  destruct (faults (session w)) as [| [|] fl]; cbn; intros H;
    inversion H; subst; reflexivity.
Qed.

Lemma rollbacks_log (e : Event) (w : World) :
  rollbacks (log e w)
  = (rollbacks w + match e with EvRollback => 1 | _ => 0 end)%nat.
Proof.
  unfold rollbacks. cbn. rewrite List.filter_app, length_app.
  destruct e; cbn; lia.
Qed.

Lemma fallback_analysis_healthy (q u : string) (doc : option string)
    (w : World) :
  List.hd false (faults (session w)) = false ->
  exists r w',
    AnalysisService._fallback_analysis q u doc w = (Return r, w')
    /\ rollbacks w' = rollbacks w.
Proof.
  intros Hf.
  unfold AnalysisService._fallback_analysis.
  unfold bind, uuid4, now, add_analysis, query_analyses, gets, put_analyses,
    modify, commit, ret. cbn.
  destruct (faults (session w)) as [| [|] fl]; cbn in *; try discriminate.
  all: eexists _, _; split; [reflexivity |].
  all: rewrite rollbacks_log; unfold rollbacks; cbn; lia.
Qed.

(** C7. For every analysis request made while the reasoning service is
    unavailable: a result that [analyze_question] returns has confidence
    exactly 0.3 and the metadata of the fallback, and the database holds a
    row of its identifier with confidence 0.3 and model
    ["fallback_classifier"]; and the operation does return when the
    database takes the commit. *)
Theorem C7_unavailable_service_gives_fallback
    (self : AnalysisService.t) (question_text user_id : string)
    (document_id context question_type_hint : option string) (w : World) :
  LLMService.is_available (AnalysisService.llm_service self) = false ->
  (forall r w',
     AnalysisService.analyze_question self question_text user_id document_id
       context question_type_hint w = (Return r, w') ->
     AnalysisSummary.confidence_score r = 0.3%Q
     /\ AnalysisSummary.processing_metadata r = [("method", JStr "fallback")]
     /\ exists a,
          In a (question_analyses (persisted (session w')))
          /\ recorded (AnalysisSummary.analysis_id r) 0.3%Q
               "fallback_classifier" a
          /\ QuestionAnalysis.user_id a = user_id
          /\ QuestionAnalysis.question_text a = question_text)
  /\ (List.hd false (faults (session w)) = false ->
      exists r w',
        AnalysisService.analyze_question self question_text user_id
          document_id context question_type_hint w = (Return r, w')).
Proof.
  intros Hoff. unfold AnalysisService.analyze_question.
  rewrite Hoff. cbn [negb]. split.
  - intros r w' H. apply try_inv in H.
    destruct H as [H | (e & w1 & _ & H)].
    + eapply fallback_analysis_returned, H.
    + apply bind_inv in H. destruct H as ([] & w2 & _ & H).
      eapply fallback_analysis_returned, H.
  - intros Hf.
    destruct (fallback_analysis_healthy question_text user_id document_id
                w Hf) as (r & w' & H & _).
    exists r, w'. apply try_Return, H.
Qed.

Lemma C7_witness :
  LLMService.is_available (AnalysisService.llm_service (analyst offline))
    = false
  /\ List.hd false (faults (session fresh_world)) = false
  /\ exists r w',
       AnalysisService.analyze_question (analyst offline) contract_question
         "alice" None None None fresh_world = (Return r, w')
       /\ AnalysisSummary.confidence_score r = 0.3%Q
       /\ exists a,
            In a (question_analyses (persisted (session w')))
            /\ recorded (AnalysisSummary.analysis_id r) 0.3%Q
                 "fallback_classifier" a.
Proof.
  split; [reflexivity |]. split; [reflexivity |].
  destruct (C7_unavailable_service_gives_fallback (analyst offline)
              contract_question "alice" None None None fresh_world eq_refl)
    as [Hret Hruns].
  destruct (Hruns eq_refl) as (r & w' & Hrun).
  exists r, w'. split; [exact Hrun |].
  destruct (Hret r w' Hrun) as (Hscore & _ & a & Hin & Hrec & _).
  split; [exact Hscore |]. exists a. split; assumption.
Defined.

(** *** A failing call of the reasoning service *)

Lemma analyze_legal_question_failed (self : LLMService.t)
    (q : string) (ctx hint : option string)
    (client : list LLMService.Message -> Reply string) (e : Exn) (w : World) :
  LLMService._llm self = Some client ->
  (forall messages, client messages = Threw e) ->
  exists w',
    LLMService.analyze_legal_question self q ctx hint w
    = (Return (LLMService._get_fallback_result q,
               [ ("model_used", JStr (LLMService.model_name self));
                 ("processing_time_ms",
                  JNum (LLMService.elapsed_ms (clock w) (S (clock w))));
                 ("success", JBool false);
                 ("error", JStr (str e)) ]),
       w')
    /\ session w' = session w
    /\ rollbacks w' = rollbacks w.
Proof.
  intros Hllm Hfail.
  unfold LLMService.analyze_legal_question. rewrite Hllm.
  unfold bind, now, try_except, modify, raise, ret. cbn.
  rewrite Hfail. cbn.
  eexists. split; [reflexivity |]. split; [reflexivity |].
  unfold rollbacks. cbn. rewrite List.filter_app, length_app. cbn. lia.
Qed.

Lemma keeps_ret {A} (a : A) : keeps_rollbacks (ret a).
Proof. intros w. reflexivity. Qed.

Lemma keeps_gets {A} (f : World -> A) : keeps_rollbacks (gets f).
Proof. intros w. reflexivity. Qed.

Lemma keeps_bind {A B} (m : M A) (k : A -> M B) :
  keeps_rollbacks m -> (forall a, keeps_rollbacks (k a)) ->
  keeps_rollbacks (bind m k).
Proof.
  intros Hm Hk w. unfold bind. specialize (Hm w).
  destruct (m w) as [[a | e] w1]; cbn in *.
  - rewrite Hk. exact Hm.
  - exact Hm.
Qed.

Lemma keeps_try {A} (m : M A) (h : Exn -> M A) :
  keeps_rollbacks m -> (forall e, keeps_rollbacks (h e)) ->
  keeps_rollbacks (try_except m h).
Proof.
  intros Hm Hh w. unfold try_except. specialize (Hm w).
  destruct (m w) as [[a | e] w1]; cbn in *.
  - exact Hm.
  - rewrite Hh. exact Hm.
Qed.

Lemma keeps_commit : keeps_rollbacks commit.
Proof.
  intros w. unfold commit.
  destruct (faults (session w)) as [| [|] fl]; cbn [snd].
  all: try rewrite rollbacks_log; unfold rollbacks; cbn [trace with_session];
    lia.
Qed.

Lemma keeps_store_analysis (a : QuestionAnalysis.t) :
  keeps_rollbacks (store_analysis a).
Proof. intros w. reflexivity. Qed.

Lemma keeps_for_each {A B} (body : A -> M B) (l : list A) :
  (forall x, keeps_rollbacks (body x)) -> keeps_rollbacks (for_each body l).
Proof.
  intros Hbody. induction l as [| x l IH]; cbn [for_each].
  - apply keeps_ret.
  - apply keeps_bind; [apply Hbody |]. intros y.
    apply keeps_bind; [exact IH |]. intros ys. apply keeps_ret.
Qed.

(** The search for articles finds nothing, whatever the question: with a
    keyword, the read of [LegalArticle.content] raises in the first turn
    of the loop. *)
Lemma find_relevant_articles_eq (question_text : string) (limit : nat)
    (w : World) :
  AnalysisService._find_relevant_articles question_text limit w
  = (Return [], w).
Proof.
  unfold AnalysisService._find_relevant_articles.
  destruct (AnalysisService._extract_keywords question_text)
    as [| k keywords]; [reflexivity |].
  erewrite try_Raise; [reflexivity |].
  apply bind_Raise. cbn [List.firstn for_each].
  apply bind_Raise. apply bind_Raise. reflexivity.
Qed.

Lemma keeps_material_entry (article : LegalArticle.t) :
  keeps_rollbacks (AnalysisService.material_entry article).
Proof. intros w. reflexivity. Qed.

Lemma keeps_enhance_analysis (a : QuestionAnalysis.t) :
  keeps_rollbacks (AnalysisService._enhance_analysis a).
Proof.
  unfold AnalysisService._enhance_analysis,
    AnalysisService._find_similar_analyses, query_analyses.
  apply keeps_try; [| intros e; apply keeps_ret].
  apply keeps_bind.
  { apply keeps_try; [| intros e; apply keeps_ret].
    apply keeps_bind; [apply keeps_gets | intros ?; apply keeps_ret]. }
  intros similar.
  apply keeps_bind; [apply keeps_store_analysis |]. intros _.
  apply keeps_bind.
  { intros w. rewrite find_relevant_articles_eq. reflexivity. }
  intros articles.
  apply keeps_bind.
  { destruct articles; [apply keeps_ret |].
    apply keeps_bind; [| intros ?; apply keeps_ret].
    apply keeps_for_each, keeps_material_entry. }
  intros enhanced.
  apply keeps_bind; [apply keeps_store_analysis |]. intros _.
  apply keeps_commit.
Qed.

Lemma enhance_analysis_returns (a : QuestionAnalysis.t) (w : World) :
  exists w',
    AnalysisService._enhance_analysis a w = (Return tt, w')
    /\ rollbacks w' = rollbacks w.
Proof.
  pose proof (keeps_enhance_analysis a w) as Hk.
  unfold AnalysisService._enhance_analysis in *.
  unfold try_except in *.
  match goal with
  | |- context [let (_, _) := ?body w in _] =>
      destruct (body w) as [[[] | e] w1]
  end; cbn in *; eexists; split; try reflexivity; exact Hk.
Qed.

Lemma preserves_bind_ret (P : Session -> Prop) {A B} (a : A)
    (k : A -> M B) :
  preserves P (k a) -> preserves P (bind (ret a) k).
Proof. intros H w Hw. exact (H w Hw). Qed.

Section Records.

Variables (i : string) (score : Q) (model : string).

Lemma holds_record_commit : preserves (holds_record i score model) commit.
Proof.
  intros w [Hp Hw]. unfold commit.
  destruct (faults (session w)) as [| [|] fl]; cbn; split; assumption.
Qed.

Lemma holds_record_store (a : QuestionAnalysis.t) :
  recorded i score model a ->
  preserves (holds_record i score model) (store_analysis a).
Proof.
  intros Ha w [Hp Hw]. cbn. split; [assumption |].
  apply Exists_replace_first; assumption.
Qed.

Lemma holds_record_enhance (a : QuestionAnalysis.t) :
  recorded i score model a ->
  preserves (holds_record i score model)
    (AnalysisService._enhance_analysis a).
Proof.
  intros Ha.
  unfold AnalysisService._enhance_analysis,
    AnalysisService._find_similar_analyses, query_analyses.
  apply preserves_try; [| intros e; preserve].
  apply preserves_bind; [preserve |]. intros similar.
  apply preserves_bind.
  { apply holds_record_store. destruct similar; exact Ha. }
  intros _. apply preserves_bind.
  { intros w Hw. rewrite find_relevant_articles_eq. exact Hw. }
  intros articles.
  destruct articles as [| article articles].
  - apply preserves_bind_ret.
    apply preserves_bind; [| intros _; apply holds_record_commit].
    apply holds_record_store. destruct similar; exact Ha.
  - intros w Hw. exact Hw.
Qed.

End Records.

(** C1, as the specification states it, fails: the client times out, and
    [analyze_question] neither rolls back nor returns the result of the
    fallback path. *)
Lemma C1_counterexample :
  ~ rolls_back_to_fallback (analyst timing_out) contract_question "alice"
      None None None fresh_world.
Proof.
  intros (r & w' & Hrun & Hroll & _).
  pose proof (f_equal snd Hrun) as Hw. cbn [snd] in Hw. subst w'.
  vm_compute in Hroll. discriminate Hroll.
Qed.


Lemma failed_call_is_recorded
    (self : AnalysisService.t) (question_text user_id : string)
    (document_id context question_type_hint : option string)
    (client : list LLMService.Message -> Reply string) (e : Exn)
    (w : World) :
  LLMService._llm (AnalysisService.llm_service self) = Some client ->
  (forall messages, client messages = Threw e) ->
  (List.hd false (faults (session w)) = false ->
   exists r w',
     AnalysisService.analyze_question self question_text user_id document_id
       context question_type_hint w = (Return r, w')
     /\ (AnalysisSummary.confidence_score r = 0.0%Q
     /\ AnalysisSummary.question_type r = "待分析"
     /\ dict_get "success" (AnalysisSummary.processing_metadata r)
        = Some (JBool false)
     /\ dict_get "error" (AnalysisSummary.processing_metadata r)
        = Some (JStr (str e))
     /\ dict_get "method" (AnalysisSummary.processing_metadata r) = None
     /\ rollbacks w' = rollbacks w
     /\ holds_record (AnalysisSummary.analysis_id r) 0.0%Q
          (LLMService.model_name (AnalysisService.llm_service self))
          (session w'))).
Proof.
  intros Hllm Hfail Hf.
  assert (Havail : LLMService.is_available (AnalysisService.llm_service self)
                   = true)
    by (unfold LLMService.is_available; rewrite Hllm; reflexivity).
  destruct (analyze_legal_question_failed (AnalysisService.llm_service self)
              question_text context question_type_hint client e w Hllm Hfail)
    as (w1 & Hcall & Hs1 & Hr1).
  unfold AnalysisService.analyze_question.
  rewrite Havail. cbn [negb].
  apply try_Return_ex.
  eapply bind_Return_ex; [exact Hcall |]. cbn [fst snd].
  eapply bind_Return_ex; [reflexivity |].
  eapply bind_Return_ex; [reflexivity |].
  eapply bind_Return_ex; [reflexivity |].
  eapply bind_Return_ex.
  { apply commit_healthy. cbn. rewrite Hs1. exact Hf. }
  match goal with
  | |- exists _ _, bind (AnalysisService._enhance_analysis ?a) _ ?wx = _ /\ _ =>
      destruct (enhance_analysis_returns a wx) as (w2 & He & Hr2);
      pose proof (holds_record_enhance (QuestionAnalysis.id a) 0.0%Q
                    (LLMService.model_name (AnalysisService.llm_service self))
                    a (conj eq_refl (conj eq_refl eq_refl)) wx) as Hh;
      rewrite He in Hh; cbn [snd] in Hh
  end.
  eapply bind_Return_ex; [exact He |].
  eexists _, _. split; [reflexivity |].
  cbn [AnalysisSummary.confidence_score AnalysisSummary.question_type
       AnalysisSummary.processing_metadata AnalysisSummary.analysis_id].
  repeat split; try reflexivity.
  - rewrite Hr2, rollbacks_log. cbn. unfold rollbacks in *. cbn. rewrite <- Hr1. unfold rollbacks. lia.
  - apply Hh. cbn. split; apply Exists_app; right; left; repeat split; reflexivity.
  - apply Hh. cbn. split; apply Exists_app; right; left; repeat split; reflexivity.
Qed.

Lemma refused_commit_rolls_back
    (self : AnalysisService.t) (question_text user_id : string)
    (document_id context question_type_hint : option string)
    (client : list LLMService.Message -> Reply string) (e : Exn)
    (w : World) :
  LLMService._llm (AnalysisService.llm_service self) = Some client ->
  (forall messages, client messages = Threw e) ->
  (forall fl,
        faults (session w) = true :: fl -> List.hd false fl = false ->
        exists r w',
          AnalysisService.analyze_question self question_text user_id
            document_id context question_type_hint w = (Return r, w')
          /\ AnalysisSummary.confidence_score r = 0.3%Q
          /\ AnalysisSummary.processing_metadata r
             = [("method", JStr "fallback")]
          /\ rollbacks w' = S (rollbacks w)).
Proof.
  intros Hllm Hfail fl Hfl Hnext.
  assert (Havail : LLMService.is_available (AnalysisService.llm_service self)
                   = true)
    by (unfold LLMService.is_available; rewrite Hllm; reflexivity).
  destruct (analyze_legal_question_failed (AnalysisService.llm_service self)
              question_text context question_type_hint client e w Hllm Hfail)
    as (w1 & Hcall & Hs1 & Hr1).
  eassert (Hrun : AnalysisService.analyze_question self question_text user_id
                    document_id context question_type_hint w = _).
  { unfold AnalysisService.analyze_question.
    rewrite Havail. cbn [negb].
    erewrite try_Raise.
    2:{ erewrite bind_Return by exact Hcall. cbn [fst snd].
        erewrite bind_Return by reflexivity.
        erewrite bind_Return by reflexivity.
        erewrite bind_Return by reflexivity.
        apply bind_Raise. apply commit_refused. cbn. rewrite Hs1. exact Hfl. }
    erewrite bind_Return by reflexivity.
    reflexivity. }
  match type of Hrun with
  | _ = AnalysisService._fallback_analysis _ _ _ ?wx =>
      destruct (fallback_analysis_healthy question_text user_id document_id
                  wx) as (r & w' & Hfb & Hrb); [exact Hnext |]
  end.
  rewrite Hfb in Hrun.
  exists r, w'. split; [exact Hrun |].
  destruct (fallback_analysis_returned _ _ _ _ _ _ Hfb) as (Hscore & Hmeta & _).
  split; [exact Hscore |]. split; [exact Hmeta |].
  rewrite Hrb, rollbacks_log. cbn.
  unfold rollbacks in *. cbn. rewrite <- Hr1. unfold rollbacks. lia.
Qed.

Lemma analyze_question_raises_only_commit_failure
    (self : AnalysisService.t) (question_text user_id : string)
    (document_id context question_type_hint : option string)
    (w w' : World) (e : Exn) :
  AnalysisService.analyze_question self question_text user_id document_id
    context question_type_hint w = (Raise e, w') ->
  e = SQLAlchemyError "commit failed".
Proof.
  intros H. unfold AnalysisService.analyze_question in H.
  apply try_inv_Raise in H. destruct H as (e0 & w1 & _ & H).
  apply bind_inv_Raise in H. destruct H as [H | (a & w2 & _ & H)].
  - discriminate.
  - eapply fallback_analysis_raised, H.
Qed.

(** C1, amended. When the call of the reasoning service fails, the LLM
    service itself turns the failure into its placeholder result
    (confidence 0.0, [success] false, the error text in the metadata);
    [analyze_question] commits a row for it and returns it, and no rollback
    happens, provided the database takes the commit.  A rollback followed
    by the fallback classifier is what happens when that commit is refused.
    Whatever the database does, nothing but the failure of a commit ever
    leaves [analyze_question]: the failure of the service does not. *)
Theorem C1_service_failure_is_absorbed
    (self : AnalysisService.t) (question_text user_id : string)
    (document_id context question_type_hint : option string)
    (client : list LLMService.Message -> Reply string) (e : Exn)
    (w : World) :
  LLMService._llm (AnalysisService.llm_service self) = Some client ->
  (forall messages, client messages = Threw e) ->
  (List.hd false (faults (session w)) = false ->
   exists r w',
     AnalysisService.analyze_question self question_text user_id document_id
       context question_type_hint w = (Return r, w')
     /\ AnalysisSummary.confidence_score r = 0.0%Q
     /\ AnalysisSummary.question_type r = "待分析"
     /\ dict_get "success" (AnalysisSummary.processing_metadata r)
        = Some (JBool false)
     /\ dict_get "error" (AnalysisSummary.processing_metadata r)
        = Some (JStr (str e))
     /\ dict_get "method" (AnalysisSummary.processing_metadata r) = None
     /\ rollbacks w' = rollbacks w
     /\ holds_record (AnalysisSummary.analysis_id r) 0.0%Q
          (LLMService.model_name (AnalysisService.llm_service self))
          (session w'))
  /\ (forall fl,
        faults (session w) = true :: fl -> List.hd false fl = false ->
        exists r w',
          AnalysisService.analyze_question self question_text user_id
            document_id context question_type_hint w = (Return r, w')
          /\ AnalysisSummary.confidence_score r = 0.3%Q
          /\ AnalysisSummary.processing_metadata r
             = [("method", JStr "fallback")]
          /\ rollbacks w' = S (rollbacks w))
  /\ (forall e' w',
        AnalysisService.analyze_question self question_text user_id
          document_id context question_type_hint w = (Raise e', w') ->
        e' = SQLAlchemyError "commit failed").
Proof.
  intros Hllm Hfail. split; [| split].
  - intros Hf.
    destruct (failed_call_is_recorded self question_text user_id document_id
                context question_type_hint client e w Hllm Hfail Hf)
      as (r & w' & Hrun & Hprops).
    exists r, w'. split; [exact Hrun | exact Hprops].
  - apply (refused_commit_rolls_back self question_text user_id document_id
             context question_type_hint client e w Hllm Hfail).
  - intros e' w' H.
    eapply analyze_question_raises_only_commit_failure, H.
Qed.

Lemma C1_witness :
  LLMService._llm (AnalysisService.llm_service (analyst timing_out))
    = Some timeout_client
  /\ (forall messages,
        timeout_client messages = Threw (ServiceError "Request timed out."))
  /\ List.hd false (faults (session fresh_world)) = false
  /\ exists r w',
       AnalysisService.analyze_question (analyst timing_out)
         contract_question "alice" None None None fresh_world
         = (Return r, w')
       /\ AnalysisSummary.confidence_score r = 0.0%Q
       /\ rollbacks w' = rollbacks fresh_world.
Proof.
  split; [reflexivity |]. split; [intros messages; reflexivity |].
  split; [reflexivity |].
  destruct (C1_service_failure_is_absorbed (analyst timing_out)
              contract_question "alice" None None None timeout_client
              (ServiceError "Request timed out.") fresh_world eq_refl
              (fun _ => eq_refl))
    as (Hrecorded & _ & _).
  destruct (Hrecorded eq_refl)
    as (r & w' & Hrun & Hscore & _ & _ & _ & _ & Hroll & _).
  exists r, w'. split; [exact Hrun |]. split; [exact Hscore | exact Hroll].
Defined.

(** *** Rating *)

Lemma get_analysis_eq (analysis_id user_id : string) (w : World) :
  AnalysisService.get_analysis analysis_id user_id w
  = (Return
       (first
          (List.filter
             (fun a =>
                same_analysis analysis_id a
                && bool_decide (QuestionAnalysis.user_id a = user_id))
             (question_analyses (working (session w))))),
     w).
Proof. reflexivity. Qed.

Lemma get_analysis_owned (analysis_id user_id : string) (w w' : World)
    (a : QuestionAnalysis.t) :
  AnalysisService.get_analysis analysis_id user_id w = (Return (Some a), w') ->
  In a (question_analyses (working (session w)))
  /\ QuestionAnalysis.id a = analysis_id
  /\ QuestionAnalysis.user_id a = user_id.
Proof.
  rewrite get_analysis_eq. intros H. inversion H as [[Hfirst Hw]].
  apply first_filter_Some in Hfirst. destruct Hfirst as [Hin Hf].
  apply andb_true_iff in Hf. destruct Hf as [Hid Hu].
  unfold same_analysis in Hid.
  apply bool_decide_eq_true_1 in Hid. apply bool_decide_eq_true_1 in Hu.
  subst w'. split; [exact Hin |]. split; [exact Hid | exact Hu].
Qed.

Lemma get_analysis_of_another (analysis_id user_id : string) (w : World) :
  (forall a,
     In a (question_analyses (working (session w))) ->
     QuestionAnalysis.id a = analysis_id ->
     QuestionAnalysis.user_id a <> user_id) ->
  AnalysisService.get_analysis analysis_id user_id w = (Return None, w).
Proof.
  intros Hother. rewrite get_analysis_eq. f_equal. f_equal.
  apply first_filter_None. intros a Hin.
  apply andb_false_iff.
  destruct (decide (QuestionAnalysis.id a = analysis_id)) as [Hid | Hid].
  - right. apply bool_decide_eq_false_2. apply Hother; assumption.
  - left. apply bool_decide_eq_false_2. exact Hid.
Qed.

Lemma rate_analysis_true (analysis_id user_id : string) (rating : Q)
    (feedback : option string) (w w' : World) :
  AnalysisService.rate_analysis analysis_id user_id rating feedback w
    = (Return true, w') ->
  exists a,
    In a (question_analyses (working (session w)))
    /\ QuestionAnalysis.id a = analysis_id
    /\ QuestionAnalysis.user_id a = user_id.
Proof.
  intros H. unfold AnalysisService.rate_analysis in H.
  apply try_inv in H. destruct H as [H | (e & w1 & _ & H)].
  - apply bind_inv in H. destruct H as (found & w0 & Hget & H).
    destruct found as [a |]; [| discriminate].
    exists a. eapply get_analysis_owned, Hget.
  - apply bind_inv in H. destruct H as ([] & w2 & _ & H). discriminate.
Qed.

(** C8. The rate operation of the API accepts a rating only when it lies
    in [1,5] and only for an analysis of the calling user: a request it
    answers has its rating in that range and names a row owned by the
    caller; a rating outside the range (6.0, say) is refused with 422 and
    the world is left as it was; and when no row of that identifier is
    owned by the caller (no such analysis, or someone else's), the service
    returns [False], the API answers with an error, and the world, hence
    every analysis record, is left as it was. *)
Theorem C8_rating_is_validated_and_scoped
    (service : AnalysisService.t) (analysis_id current_user_id : string)
    (request : AnalysisApi.AnalysisRatingRequest) (w : World) :
  (forall resp w',
     AnalysisApi.rate_analysis service analysis_id request current_user_id w
       = (Return resp, w') ->
     (1.0 <= AnalysisApi.rating request)%Q
     /\ (AnalysisApi.rating request <= 5.0)%Q
     /\ exists a,
          In a (question_analyses (working (session w)))
          /\ QuestionAnalysis.id a = analysis_id
          /\ QuestionAnalysis.user_id a = current_user_id)
  /\ (~ ((1.0 <= AnalysisApi.rating request)%Q
         /\ (AnalysisApi.rating request <= 5.0)%Q) ->
      AnalysisApi.rate_analysis service analysis_id request current_user_id w
      = (Raise (HTTPException 422 "Unprocessable Entity"), w))
  /\ ((forall a,
         In a (question_analyses (working (session w))) ->
         QuestionAnalysis.id a = analysis_id ->
         QuestionAnalysis.user_id a <> current_user_id) ->
      AnalysisService.rate_analysis analysis_id current_user_id
        (AnalysisApi.rating request) (AnalysisApi.feedback request) w
        = (Return false, w)
      /\ exists status detail,
           AnalysisApi.rate_analysis service analysis_id request
             current_user_id w
           = (Raise (HTTPException status detail), w)).
Proof.
  split; [| split].
  - intros resp w' H. unfold AnalysisApi.rate_analysis in H.
    destruct (AnalysisApi.valid request) eqn:Hvalid; cbn [negb] in H;
      [| discriminate].
    unfold AnalysisApi.valid in Hvalid.
    apply andb_true_iff in Hvalid. destruct Hvalid as [Hrange _].
    apply andb_true_iff in Hrange. destruct Hrange as [Hge Hle].
    apply Qle_bool_iff in Hge. apply Qle_bool_iff in Hle.
    split; [exact Hge |]. split; [exact Hle |].
    apply bind_inv in H. destruct H as (success & w1 & Hrate & H).
    destruct success; cbn [negb] in H; [| discriminate].
    eapply rate_analysis_true, Hrate.
  - intros Hout. unfold AnalysisApi.rate_analysis.
    destruct (AnalysisApi.valid request) eqn:Hvalid; cbn [negb];
      [| reflexivity].
    exfalso. apply Hout.
    unfold AnalysisApi.valid in Hvalid.
    apply andb_true_iff in Hvalid. destruct Hvalid as [Hrange _].
    apply andb_true_iff in Hrange. destruct Hrange as [Hge Hle].
    apply Qle_bool_iff in Hge. apply Qle_bool_iff in Hle. split; assumption.
  - intros Hother.
    assert (Hrate :
      AnalysisService.rate_analysis analysis_id current_user_id
        (AnalysisApi.rating request) (AnalysisApi.feedback request) w
      = (Return false, w)).
    { unfold AnalysisService.rate_analysis.
      apply try_Return.
      erewrite bind_Return
        by (apply get_analysis_of_another; exact Hother).
      reflexivity. }
    split; [exact Hrate |].
    unfold AnalysisApi.rate_analysis.
    destruct (AnalysisApi.valid request); cbn [negb].
    + erewrite bind_Return by exact Hrate. eexists _, _. reflexivity.
    + eexists _, _. reflexivity.
Qed.

Lemma C8_witness :
  ~ ((1.0 <= AnalysisApi.rating six_stars)%Q
     /\ (AnalysisApi.rating six_stars <= 5.0)%Q)
  /\ AnalysisApi.rate_analysis (analyst offline) "uuid-0" six_stars "alice"
       after_fallback
     = (Raise (HTTPException 422 "Unprocessable Entity"), after_fallback)
  /\ (forall a,
        In a (question_analyses (working (session after_fallback))) ->
        QuestionAnalysis.id a = "uuid-0" ->
        QuestionAnalysis.user_id a <> "bob")
  /\ AnalysisService.rate_analysis "uuid-0" "bob"
       (AnalysisApi.rating four_stars) (AnalysisApi.feedback four_stars)
       after_fallback
     = (Return false, after_fallback).
Proof.
  assert (Hsix : ~ ((1.0 <= AnalysisApi.rating six_stars)%Q
                    /\ (AnalysisApi.rating six_stars <= 5.0)%Q)).
  { intros [_ H]. vm_compute in H. apply H. reflexivity. }
  assert (Hbob : forall a,
            In a (question_analyses (working (session after_fallback))) ->
            QuestionAnalysis.id a = "uuid-0" ->
            QuestionAnalysis.user_id a <> "bob").
  { intros a Hin _. vm_compute in Hin. destruct Hin as [<- | []].
    discriminate. }
  split; [exact Hsix |]. split.
  - exact (proj1 (proj2 (C8_rating_is_validated_and_scoped (analyst offline)
                           "uuid-0" "alice" six_stars after_fallback)) Hsix).
  - split; [exact Hbob |].
    exact (proj1 (proj2 (proj2 (C8_rating_is_validated_and_scoped
                                  (analyst offline) "uuid-0" "bob" four_stars
                                  after_fallback)) Hbob)).
Defined.


(** ** Ownership of what the read operations return *)

Lemma get_user_analyses_eq (user_id : string) (limit offset : nat)
    (question_type_filter : option string) (w : World) :
  exists rows,
    AnalysisService.get_user_analyses user_id limit offset
      question_type_filter w = (Return rows, w)
    /\ Forall (fun a => QuestionAnalysis.user_id a = user_id) rows.
Proof.
  unfold AnalysisService.get_user_analyses, try_except, bind, query_analyses,
    gets, ret.
  eexists. split; [reflexivity |].
  apply Forall_offset_limit, Forall_order_by_desc.
  assert (Howned :
    Forall (fun a => QuestionAnalysis.user_id a = user_id)
      (List.filter
         (fun a => bool_decide (QuestionAnalysis.user_id a = user_id))
         (question_analyses (working (session w))))).
  { eapply Forall_impl; [apply Forall_filter_self |].
    intros a Ha. cbn in Ha. apply bool_decide_eq_true_1 in Ha. exact Ha. }
  destruct question_type_filter as [q |]; [| exact Howned].
  destruct (Py.truthy q); [| exact Howned].
  apply Forall_filter_keeps, Howned.
Qed.

Lemma get_user_documents_eq (user_id : string) (limit offset : nat)
    (status_filter : option string) (w : World) :
  exists rows,
    DocumentService.get_user_documents user_id limit offset status_filter w
      = (Return rows, w)
    /\ Forall (fun d => Document.user_id d = user_id) rows.
Proof.
  unfold DocumentService.get_user_documents, try_except, bind,
    query_documents, gets, ret.
  eexists. split; [reflexivity |].
  apply Forall_offset_limit, Forall_order_by_desc.
  assert (Howned :
    Forall (fun d => Document.user_id d = user_id)
      (List.filter (fun d => bool_decide (Document.user_id d = user_id))
         (documents (working (session w))))).
  { eapply Forall_impl; [apply Forall_filter_self |].
    intros d Hd. cbn in Hd. apply bool_decide_eq_true_1 in Hd. exact Hd. }
  destruct status_filter as [s |]; [| exact Howned].
  destruct (Py.truthy s); [| exact Howned].
  apply Forall_filter_keeps, Howned.
Qed.

Lemma get_document_owned (document_id u : string) (w w' : World)
    (d : Document.t) :
  u <> "" ->
  DocumentService.get_document document_id (Some u) w
    = (Return (Some d), w') ->
  Document.user_id d = u.
Proof.
  intros Hu H.
  unfold DocumentService.get_document, try_except, bind, query_documents,
    gets, ret in H.
  assert (Ht : Py.truthy u = true).
  { unfold Py.truthy. rewrite bool_decide_eq_false_2 by exact Hu.
    reflexivity. }
  rewrite Ht in H. inversion H as [[Hfirst Hw]].
  apply first_filter_Some in Hfirst. destruct Hfirst as [_ Hf].
  apply bool_decide_eq_true_1 in Hf. exact Hf.
Qed.

(** C10. [get_analysis] and [get_user_analyses] return only analyses
    whose owner is the given user, [get_user_documents] only documents
    whose owner is the given user, and so does [get_document] for a user
    identifier; a user identifier is the text of a UUID, which is never
    empty. *)
Theorem C10_reads_are_scoped_to_the_owner :
  (forall analysis_id u w a w',
     AnalysisService.get_analysis analysis_id u w = (Return (Some a), w') ->
     QuestionAnalysis.user_id a = u)
  /\ (forall u limit offset question_type_filter w rows w',
        AnalysisService.get_user_analyses u limit offset question_type_filter
          w = (Return rows, w') ->
        Forall (fun a => QuestionAnalysis.user_id a = u) rows)
  /\ (forall u limit offset status_filter w rows w',
        DocumentService.get_user_documents u limit offset status_filter w
          = (Return rows, w') ->
        Forall (fun d => Document.user_id d = u) rows)
  /\ (forall document_id u w d w',
        u <> "" ->
        DocumentService.get_document document_id (Some u) w
          = (Return (Some d), w') ->
        Document.user_id d = u).
Proof.
  split; [| split; [| split]].
  - intros analysis_id u w a w' H.
    apply get_analysis_owned in H. apply H.
  - intros u limit offset f w rows w' H.
    destruct (get_user_analyses_eq u limit offset f w) as (rows0 & Heq & Hall).
    rewrite Heq in H. inversion H; subst. exact Hall.
  - intros u limit offset f w rows w' H.
    destruct (get_user_documents_eq u limit offset f w)
      as (rows0 & Heq & Hall).
    rewrite Heq in H. inversion H; subst. exact Hall.
  - intros document_id u w d w' Hu H. eapply get_document_owned; eassumption.
Qed.

Lemma C10_witness :
  "alice" <> ""
  /\ DocumentService.get_document "uuid-1" (Some "alice") after_scan
     = (Return (Some completed_scan), after_scan)
  /\ Document.user_id completed_scan = "alice".
Proof.
  assert (Hne : "alice" <> "") by discriminate.
  assert (Hget : DocumentService.get_document "uuid-1" (Some "alice")
                   after_scan
                 = (Return (Some completed_scan), after_scan))
    by (vm_compute; reflexivity).
  split; [exact Hne |]. split; [exact Hget |].
  exact (proj2 (proj2 (proj2 C10_reads_are_scoped_to_the_owner))
           "uuid-1" "alice" after_scan completed_scan after_scan Hne Hget).
Defined.

(** The filter on the owner is behind [if user_id:].  No handler passes
    an empty string, which is no identifier of a user; the service called
    with one adds no filter. *)
Example get_document_without_owner :
  DocumentService.get_document "uuid-1" (Some "") after_scan
  = DocumentService.get_document "uuid-1" None after_scan.
Proof. reflexivity. Qed.

(** * Further properties *)

(** ** The file store *)

(** X1. The deletion of a stored file never raises: it answers whether the file
    was there, the file is gone afterwards and every other file is as it
    was; a second deletion answers [False] and changes nothing. *)
Theorem delete_file_is_idempotent (self : FileStorage.t) (name : string)
    (w : World) :
  let path := Py.joinpath (FileStorage.upload_dir self) name in
  exists w',
    FileStorage.delete_file self name w
      = (Return (bool_decide (is_Some (fs w !! path))), w')
    /\ fs w' !! path = None
    /\ (forall q, q <> path -> fs w' !! q = fs w !! q)
    /\ session w' = session w
    /\ FileStorage.delete_file self name w' = (Return false, w').
Proof.
  intros path.
  exists (with_fs (delete path (fs w)) w).
  split; [apply delete_file_eq |].
  split; [apply lookup_delete_eq |].
  split; [intros q Hq; cbn; apply lookup_delete_ne; congruence |].
  split; [reflexivity |].
  rewrite delete_file_eq. cbn.
  rewrite lookup_delete_eq.
  rewrite bool_decide_eq_false_2 by (intros [? ?]; discriminate).
  f_equal. unfold with_fs. cbn. f_equal. apply delete_delete_eq.
Qed.

Lemma delete_file_is_idempotent_witness :
  exists w',
    FileStorage.delete_file small_store "exam.pdf" torn_world
      = (Return true, w')
    /\ fs w' !! "data/uploads/exam.pdf" = None
    /\ FileStorage.delete_file small_store "exam.pdf" w' = (Return false, w').
Proof.
  destruct (delete_file_is_idempotent small_store "exam.pdf" torn_world)
    as (w' & Hrun & Hgone & _ & _ & Hagain).
  exists w'. split; [| exact (conj Hgone Hagain)].
  rewrite Hrun. apply (f_equal (fun b : bool => (Return b, w'))).
  vm_compute. reflexivity.
Defined.

(** X2. A payload of an allowed type within the size limit is stored under a
    generated name that keeps the original extension, and what
    [get_file_info] then reports for that name is the size of the payload
    and the path [save_file] returned; no other file is touched. *)
Theorem save_file_then_get_file_info (self : FileStorage.t) (file : File)
    (filename : string) (w : World) :
  FileStorage.is_allowed_file self filename = true ->
  (st_size file <= FileStorage.max_file_size self)%nat ->
  exists unique_filename path w',
    FileStorage.save_file self file filename w
      = (Return (unique_filename, path), w')
    /\ unique_filename = entropy w (draws w) +:+ Py.suffix filename
    /\ path = Py.joinpath (FileStorage.upload_dir self) unique_filename
    /\ fs w' !! path = Some file
    /\ (forall q, q <> path -> fs w' !! q = fs w !! q)
    /\ FileStorage.get_file_path self unique_filename w'
       = (Return (Some path), w')
    /\ exists info,
         FileStorage.get_file_info self unique_filename w'
           = (Return (Some info), w')
         /\ FileStorage.size info = st_size file
         /\ FileStorage.path info = path
         /\ FileStorage.filename info = unique_filename.
Proof.
  intros Hext Hsize.
  pose proof (save_file_within_limit self file filename w Hext Hsize) as Hsave.
  cbn zeta in Hsave.
  eexists _, _, _. split; [exact Hsave |].
  split; [reflexivity |]. split; [reflexivity |].
  assert (Hstored :
    fs (with_fs
          (<[Py.joinpath (FileStorage.upload_dir self)
               (entropy w (draws w) +:+ Py.suffix filename) := file]> (fs w))
          (drawn w))
    !! Py.joinpath (FileStorage.upload_dir self)
         (entropy w (draws w) +:+ Py.suffix filename) = Some file)
    by (cbn; apply lookup_insert_eq).
  split; [exact Hstored |].
  split; [intros q Hq; cbn; apply lookup_insert_ne; congruence |].
  split.
  - unfold FileStorage.get_file_path, bind, exists_, gets, ret.
    rewrite bool_decide_eq_true_2 by (rewrite Hstored; eauto). reflexivity.
  - eexists. split; [apply get_file_info_stored; exact Hstored |].
    repeat split; reflexivity.
Qed.

Lemma save_file_then_get_file_info_witness :
  FileStorage.is_allowed_file small_store "exam.pdf" = true
  /\ (st_size one_page_pdf <= FileStorage.max_file_size small_store)%nat
  /\ exists unique_filename path w',
       FileStorage.save_file small_store one_page_pdf "exam.pdf" fresh_world
         = (Return (unique_filename, path), w')
       /\ unique_filename = "uuid-0.pdf"
       /\ fs w' !! path = Some one_page_pdf.
Proof.
  split; [reflexivity |]. split; [vm_compute; lia |].
  destruct (save_file_then_get_file_info small_store one_page_pdf "exam.pdf"
              fresh_world eq_refl)
    as (u & p & w' & Hsave & Hu & Hp & Hfile & _); [vm_compute; lia |].
  exists u, p, w'. split; [exact Hsave |]. split; [| exact Hfile].
  rewrite Hu. reflexivity.
Defined.

(** X3. Storing a payload under a name that was free and deleting it again
    gives the store back as it was. *)
Theorem save_file_then_delete_file (self : FileStorage.t) (file : File)
    (filename : string) (w : World) :
  FileStorage.is_allowed_file self filename = true ->
  (st_size file <= FileStorage.max_file_size self)%nat ->
  fs w !! Py.joinpath (FileStorage.upload_dir self)
            (entropy w (draws w) +:+ Py.suffix filename) = None ->
  exists unique_filename path w1 w2,
    FileStorage.save_file self file filename w
      = (Return (unique_filename, path), w1)
    /\ FileStorage.delete_file self unique_filename w1 = (Return true, w2)
    /\ fs w2 = fs w.
Proof.
  intros Hext Hsize Hfree.
  pose proof (save_file_within_limit self file filename w Hext Hsize) as Hsave.
  cbn zeta in Hsave.
  eexists _, _, _, _. split; [exact Hsave |].
  rewrite delete_file_eq. cbn.
  rewrite lookup_insert_eq.
  rewrite bool_decide_eq_true_2 by eauto.
  split; [reflexivity |].
  cbn. rewrite delete_insert_eq. apply delete_id, Hfree.
Qed.

Lemma save_file_then_delete_file_witness :
  FileStorage.is_allowed_file small_store "exam.pdf" = true
  /\ (st_size one_page_pdf <= FileStorage.max_file_size small_store)%nat
  /\ fs fresh_world
       !! Py.joinpath (FileStorage.upload_dir small_store)
            (entropy fresh_world (draws fresh_world) +:+ Py.suffix "exam.pdf")
     = None
  /\ exists unique_filename path w1 w2,
       FileStorage.save_file small_store one_page_pdf "exam.pdf" fresh_world
         = (Return (unique_filename, path), w1)
       /\ FileStorage.delete_file small_store unique_filename w1
          = (Return true, w2)
       /\ fs w2 = fs fresh_world.
Proof.
  split; [reflexivity |]. split; [vm_compute; lia |].
  split; [reflexivity |].
  apply (save_file_then_delete_file small_store one_page_pdf "exam.pdf"
           fresh_world); [reflexivity | vm_compute; lia | reflexivity].
Defined.

(** ** The text extractor *)

Lemma with_fs_with_fs (f g : gmap string File) (w : World) :
  with_fs f (with_fs g w) = with_fs f w.
Proof. reflexivity. Qed.

Lemma unlink_quietly (p : string) (w : World) :
  try_except (unlink p) (fun _ => ret tt) w
  = (Return tt, with_fs (delete p (fs w)) w).
Proof.
  unfold try_except, unlink, ret.
  destruct (fs w !! p) as [f |] eqn:Hf; [reflexivity |].
  rewrite delete_id by exact Hf. rewrite with_fs_same. reflexivity.
Qed.

Lemma extract_text_from_image_returns (self : OCRProcessor.t) (p : string)
    (w : World) :
  exists t, OCRProcessor.extract_text_from_image self p w = (Return t, w).
Proof.
  unfold OCRProcessor.extract_text_from_image.
  destruct (OCRProcessor._ocr_available self); cbn [negb];
    [| eexists; reflexivity].
  unfold try_except.
  destruct (bool_decide (OCRProcessor.engine self = "paddleocr")).
  - unfold OCRProcessor._extract_text_paddleocr, try_except, bind, stat, ret,
      raise.
    destruct (fs w !! p) as [f |]; [| eexists; reflexivity].
    destruct (paddle_read f) as [[[| l ls] |] | e]; eexists; reflexivity.
  - destruct (bool_decide (OCRProcessor.engine self = "tesseract")).
    + unfold OCRProcessor._extract_text_tesseract, try_except, bind, stat,
        ret, raise.
      destruct (fs w !! p) as [f |]; [| eexists; reflexivity].
      destruct (tesseract_read f) as [t | e]; eexists; reflexivity.
    + eexists; reflexivity.
Qed.

Lemma fallback_text_is_truthy (p : string) :
  Py.truthy (OCRProcessor._fallback_text_extraction p) = true.
Proof.
  unfold OCRProcessor._fallback_text_extraction.
  destruct (Py.contains "pdf" (Py.lower p)); reflexivity.
Qed.

(** X4. The recognition of one image never raises and changes nothing,
    whatever the engine does with the file; an engine that raises, or a
    file that is not there, gives the empty text; and without an engine the
    text is the placeholder that names the file, which is not empty, so
    that the extraction of an image file then reports success. *)
Theorem extract_text_from_image_never_raises (self : OCRProcessor.t)
    (p : string) (w : World) :
  (exists t, OCRProcessor.extract_text_from_image self p w = (Return t, w))
  /\ (OCRProcessor._ocr_available self = true ->
      OCRProcessor.engine self = "paddleocr"
      \/ OCRProcessor.engine self = "tesseract" ->
      fs w !! p = None ->
      OCRProcessor.extract_text_from_image self p w = (Return "", w))
  /\ (OCRProcessor._ocr_available self = false ->
      OCRProcessor.extract_text_from_image self p w
        = (Return (OCRProcessor._fallback_text_extraction p), w)
      /\ (Py.lower (Py.suffix p) <> ".pdf" ->
          exists r w',
            OCRProcessor.extract_text_async self p w = (Return r, w')
            /\ text r = OCRProcessor._fallback_text_extraction p
            /\ success (metadata r) = true)).
Proof.
  split; [apply extract_text_from_image_returns |]. split.
  - intros Hav Heng Hmissing.
    unfold OCRProcessor.extract_text_from_image. rewrite Hav. cbn [negb].
    unfold try_except.
    destruct Heng as [Heng | Heng]; rewrite Heng.
    + rewrite bool_decide_eq_true_2 by reflexivity.
      unfold OCRProcessor._extract_text_paddleocr, try_except, bind, stat,
        ret, raise.
      rewrite Hmissing. reflexivity.
    + rewrite bool_decide_eq_false_2 by discriminate.
      rewrite bool_decide_eq_true_2 by reflexivity.
      unfold OCRProcessor._extract_text_tesseract, try_except, bind, stat,
        ret, raise.
      rewrite Hmissing. reflexivity.
  - intros Hoff.
    assert (Himg : OCRProcessor.extract_text_from_image self p w
                   = (Return (OCRProcessor._fallback_text_extraction p), w)).
    { unfold OCRProcessor.extract_text_from_image. rewrite Hoff.
      reflexivity. }
    split; [exact Himg |].
    intros Hsuffix.
    unfold OCRProcessor.extract_text_async.
    unfold bind at 1. unfold modify.
    rewrite bool_decide_eq_false_2 by exact Hsuffix.
    unfold bind.
    unfold OCRProcessor.extract_text_from_image. rewrite Hoff. cbn [negb].
    unfold ret. eexists _, _. split; [reflexivity |].
    split; [reflexivity |]. cbn. apply fallback_text_is_truthy.
Qed.

Lemma extract_text_from_image_never_raises_witness :
  OCRProcessor._ocr_available paddle = true
  /\ (OCRProcessor.engine paddle = "paddleocr"
      \/ OCRProcessor.engine paddle = "tesseract")
  /\ fs fresh_world !! "data/uploads/missing.png" = None
  /\ OCRProcessor.extract_text_from_image paddle "data/uploads/missing.png"
       fresh_world = (Return "", fresh_world).
Proof.
  split; [reflexivity |]. split; [left; reflexivity |].
  split; [reflexivity |].
  apply (proj1 (proj2 (extract_text_from_image_never_raises paddle
                         "data/uploads/missing.png" fresh_world)));
    [reflexivity | left; reflexivity | reflexivity].
Defined.

Lemma lookup_delete_all (paths : list string) (m : gmap string File)
    (q : string) :
  delete_all paths m !! q = if bool_decide (q ∈ paths) then None else m !! q.
Proof.
  unfold delete_all. revert m.
  induction paths as [| p paths IH]; intros m; cbn.
  - rewrite bool_decide_eq_false_2 by (apply not_elem_of_nil). reflexivity.
  - rewrite IH.
    destruct (decide (q ∈ paths)) as [Hin | Hout].
    + rewrite (bool_decide_eq_true_2 (q ∈ paths)) by exact Hin.
      rewrite bool_decide_eq_true_2 by (apply elem_of_cons; right; exact Hin).
      reflexivity.
    + rewrite (bool_decide_eq_false_2 (q ∈ paths)) by exact Hout.
      destruct (decide (q = p)) as [-> | Hne].
      * rewrite bool_decide_eq_true_2
          by (apply elem_of_cons; left; reflexivity).
        apply lookup_delete_eq.
      * rewrite bool_decide_eq_false_2
          by (intros Hc; apply elem_of_cons in Hc; destruct Hc; contradiction).
        apply lookup_delete_ne. congruence.
Qed.

Lemma lookup_write_all_other (files : list (string * File))
    (m : gmap string File) (q : string) :
  q ∉ List.map fst files -> write_all files m !! q = m !! q.
Proof.
  unfold write_all. revert m.
  induction files as [| [p f] files IH]; intros m Hq; cbn; [reflexivity |].
  cbn in Hq.
  rewrite IH by (intros Hc; apply Hq, elem_of_cons; right; exact Hc).
  apply lookup_insert_ne. intros ->. apply Hq, elem_of_cons. left.
  reflexivity.
Qed.

Lemma delete_all_write_all (files : list (string * File))
    (m : gmap string File) :
  (forall p, p ∈ List.map fst files -> m !! p = None) ->
  delete_all (List.map fst files) (write_all files m) = m.
Proof.
  intros Hfree. apply map_eq. intros q.
  rewrite lookup_delete_all.
  destruct (decide (q ∈ List.map fst files)) as [Hin | Hout].
  - rewrite bool_decide_eq_true_2 by exact Hin. symmetry. apply Hfree, Hin.
  - rewrite bool_decide_eq_false_2 by exact Hout.
    apply lookup_write_all_other, Hout.
Qed.

Lemma render_pages_all (pdf_path : string) (images : list File) (n : nat)
    (w : World) :
  OCRProcessor.render_pages pdf_path (List.map Got images) n w
  = (Return (List.map fst (named_pages pdf_path images n)),
     with_fs (write_all (named_pages pdf_path images n) (fs w)) w).
Proof.
  revert n w. induction images as [| image images IH]; intros n w; cbn.
  - unfold ret. rewrite with_fs_same. reflexivity.
  - unfold bind at 1. unfold write_file, modify.
    unfold bind. rewrite IH. unfold ret. cbn. reflexivity.
Qed.

Lemma extract_pages_eq (self : OCRProcessor.t) (paths : list string)
    (i : nat) (w : World) :
  exists r,
    OCRProcessor.extract_pages self paths i w
      = (Return r, with_fs (delete_all paths (fs w)) w)
    /\ List.map fst r.2 = List.seq (i + 1) (length paths).
Proof.
  revert i w. induction paths as [| p paths IH]; intros i w; cbn.
  - eexists. unfold ret. rewrite with_fs_same. split; reflexivity.
  - destruct (extract_text_from_image_returns self p w) as (t & Ht).
    unfold bind at 1. rewrite Ht.
    unfold bind at 1. rewrite unlink_quietly.
    destruct (IH (S i) (with_fs (delete p (fs w)) w)) as (r & Hr & Hseq).
    unfold bind. rewrite Hr. unfold ret. cbn.
    eexists. split; [reflexivity |]. cbn. rewrite Hseq.
    replace (S i + 1) with (S (i + 1)) by lia. reflexivity.
Qed.

Lemma named_pages_names (pdf_path : string) (images : list File) (n : nat) :
  List.map fst (named_pages pdf_path images n)
  = List.map (page_image_path pdf_path) (List.seq n (length images)).
Proof.
  revert n. induction images as [| image images IH]; intros n; cbn;
    [reflexivity |].
  rewrite IH. reflexivity.
Qed.

(** X5. When PyMuPDF is installed and every page of the PDF renders, under
    names that were free, the extraction returns with one entry per page,
    numbered from 1, reports success when there is a page at all, and
    leaves the world exactly as it found it: every page image it wrote has
    been deleted again. *)
Theorem extract_text_from_pdf_cleans_up (self : OCRProcessor.t)
    (pdf_path : string) (f : File) (images : list File) (w : World) :
  fs w !! pdf_path = Some f ->
  "fitz" ∈ modules w ->
  fitz_read f = Got (List.map Got images) ->
  (forall n, fs w !! page_image_path pdf_path n = None) ->
  exists r,
    OCRProcessor.extract_text_from_pdf self pdf_path w = (Return r, w)
    /\ total_pages (metadata r) = length images
    /\ List.map fst (pages r) = List.seq 1 (length images)
    /\ success (metadata r)
       = match images with [] => false | _ => true end
    /\ error (metadata r) = None.
Proof.
  intros Hpdf Hfitz Hdoc Hfree.
  unfold OCRProcessor.extract_text_from_pdf.
  unfold bind at 1. unfold exists_, gets.
  rewrite bool_decide_eq_true_2 by (rewrite Hpdf; eauto). cbn [negb].
  assert (Hconv :
    OCRProcessor._convert_pdf_to_images pdf_path w
    = (Return (List.map fst (named_pages pdf_path images 0)),
       with_fs (write_all (named_pages pdf_path images 0) (fs w)) w)).
  { unfold OCRProcessor._convert_pdf_to_images.
    apply try_Return.
    unfold bind at 1. unfold import.
    rewrite bool_decide_eq_true_2 by exact Hfitz.
    unfold bind, stat. rewrite Hpdf, Hdoc.
    apply render_pages_all. }
  destruct images as [| image images].
  - cbn in Hconv. rewrite with_fs_same in Hconv.
    eexists. split.
    { apply try_Return. erewrite bind_Return by exact Hconv. reflexivity. }
    repeat split; reflexivity.
  - set (files := named_pages pdf_path (image :: images) 0) in *.
    destruct (extract_pages_eq self (List.map fst files) 0
                (with_fs (write_all files (fs w)) w)) as (r & Hr & Hseq).
    cbn [fs with_fs] in Hr. rewrite with_fs_with_fs in Hr.
    rewrite delete_all_write_all in Hr.
    2:{ intros p Hp. subst files. rewrite named_pages_names in Hp.
        apply list_elem_of_In, in_map_iff in Hp.
        destruct Hp as (n & <- & _). apply Hfree. }
    rewrite with_fs_same in Hr.
    eexists. split.
    { apply try_Return. erewrite bind_Return by exact Hconv.
      subst files. cbn [named_pages List.map fst].
      apply try_Return. erewrite bind_Return by exact Hr. reflexivity. }
    cbn. rewrite length_map. subst files. cbn.
    rewrite length_map in Hseq. cbn in Hseq.
    assert (Hlen : forall l n, length (named_pages pdf_path l n) = length l).
    { induction l as [| x l IH]; intros n; cbn; [reflexivity |].
      rewrite IH. reflexivity. }
    rewrite Hlen in *. repeat split; try reflexivity. exact Hseq.
Qed.

Lemma extract_text_from_pdf_cleans_up_witness :
  let w := with_fs {[ "data/uploads/exam.pdf" := one_page_pdf ]} fresh_world in
  fs w !! "data/uploads/exam.pdf" = Some one_page_pdf
  /\ "fitz" ∈ modules w
  /\ fitz_read one_page_pdf = Got (List.map Got [page_image "契約之成立"])
  /\ (forall n, fs w !! page_image_path "data/uploads/exam.pdf" n = None)
  /\ exists r,
       OCRProcessor.extract_text_from_pdf paddle "data/uploads/exam.pdf" w
         = (Return r, w)
       /\ total_pages (metadata r) = 1
       /\ success (metadata r) = true.
Proof.
  intros w.
  assert (Hpdf : fs w !! "data/uploads/exam.pdf" = Some one_page_pdf)
    by reflexivity.
  assert (Hfitz : "fitz" ∈ modules w) by (apply elem_of_cons; left; reflexivity).
  assert (Hfree : forall n,
            fs w !! page_image_path "data/uploads/exam.pdf" n = None).
  { intros n. subst w. cbn [fs with_fs fresh_world].
    apply lookup_singleton_ne.
    unfold page_image_path. vm_compute Py.parent. vm_compute Py.stem.
    unfold Py.joinpath. cbn. intros Heq. inversion Heq. }
  split; [exact Hpdf |]. split; [exact Hfitz |]. split; [reflexivity |].
  split; [exact Hfree |].
  destruct (extract_text_from_pdf_cleans_up paddle "data/uploads/exam.pdf"
              one_page_pdf [page_image "契約之成立"] w Hpdf Hfitz eq_refl Hfree)
    as (r & Hrun & Htotal & _ & Hsuccess & _).
  exists r. split; [exact Hrun |]. split; assumption.
Defined.

(** X6. A PDF that is there but gives no page image (PyMuPDF is not installed,
    the document does not open, or it has no page) is answered with the
    empty result: no text, no page, zero pages, no success, and no error
    text either; nothing in the world changes. *)
Theorem extract_text_from_pdf_without_images (self : OCRProcessor.t)
    (pdf_path : string) (f : File) (w : World) :
  fs w !! pdf_path = Some f ->
  "fitz" ∉ modules w \/ (exists e, fitz_read f = Threw e)
  \/ fitz_read f = Got [] ->
  OCRProcessor.extract_text_from_pdf self pdf_path w
  = (Return {| text := ""; pages := [];
               metadata := OCRProcessor.initial_metadata self |}, w).
Proof.
  intros Hpdf Hwhy.
  assert (Hconv : OCRProcessor._convert_pdf_to_images pdf_path w
                  = (Return [], w)).
  { unfold OCRProcessor._convert_pdf_to_images, try_except.
    unfold bind at 1. unfold import.
    destruct (decide ("fitz" ∈ modules w)) as [Hin | Hout].
    - rewrite bool_decide_eq_true_2 by exact Hin.
      unfold bind, stat. rewrite Hpdf.
      destruct Hwhy as [Hno | [[e He] | Hempty]].
      + contradiction.
      + rewrite He. reflexivity.
      + rewrite Hempty. reflexivity.
    - rewrite bool_decide_eq_false_2 by exact Hout. reflexivity. }
  unfold OCRProcessor.extract_text_from_pdf.
  unfold bind at 1. unfold exists_, gets.
  rewrite bool_decide_eq_true_2 by (rewrite Hpdf; eauto). cbn [negb].
  apply try_Return. erewrite bind_Return by exact Hconv. reflexivity.
Qed.

Lemma extract_text_from_pdf_without_images_witness :
  let w := with_fs {[ "data/uploads/exam.pdf" := empty_pdf ]} fresh_world in
  fs w !! "data/uploads/exam.pdf" = Some empty_pdf
  /\ ("fitz" ∉ modules w \/ (exists e, fitz_read empty_pdf = Threw e)
      \/ fitz_read empty_pdf = Got [])
  /\ OCRProcessor.extract_text_from_pdf paddle "data/uploads/exam.pdf" w
     = (Return {| text := ""; pages := [];
                  metadata := OCRProcessor.initial_metadata paddle |}, w).
Proof.
  intros w.
  split; [reflexivity |].
  split; [right; right; reflexivity |].
  apply (extract_text_from_pdf_without_images paddle "data/uploads/exam.pdf"
           empty_pdf w); [reflexivity | right; right; reflexivity].
Defined.

(** X7. The extraction of a PDF raises exactly when the file is not there, and
    then [FileNotFoundError], before anything is done; for a file that is
    there it returns a result, whatever PyMuPDF and the engine do. *)
Theorem extract_text_from_pdf_raises_only_when_missing
    (self : OCRProcessor.t) (pdf_path : string) (w : World) :
  (fs w !! pdf_path = None ->
   OCRProcessor.extract_text_from_pdf self pdf_path w
   = (Raise (FileNotFoundError ("PDF file not found: " +:+ pdf_path)), w))
  /\ (is_Some (fs w !! pdf_path) ->
      exists r w',
        OCRProcessor.extract_text_from_pdf self pdf_path w = (Return r, w')).
Proof.
  split.
  - intros Hmissing. unfold OCRProcessor.extract_text_from_pdf.
    unfold bind, exists_, gets.
    rewrite bool_decide_eq_false_2
      by (rewrite Hmissing; intros [? ?]; discriminate).
    reflexivity.
  - intros Hthere. unfold OCRProcessor.extract_text_from_pdf.
    unfold bind at 1. unfold exists_, gets.
    rewrite bool_decide_eq_true_2 by exact Hthere. cbn [negb].
    unfold try_except at 1.
    match goal with
    | |- context [let (_, _) := ?body w in _] =>
        destruct (body w) as [[r | e] w1]
    end; eexists _, _; reflexivity.
Qed.

Lemma extract_text_from_pdf_raises_only_when_missing_witness :
  fs fresh_world !! "data/uploads/none.pdf" = None
  /\ OCRProcessor.extract_text_from_pdf paddle "data/uploads/none.pdf"
       fresh_world
     = (Raise (FileNotFoundError
                 ("PDF file not found: " +:+ "data/uploads/none.pdf")),
        fresh_world).
Proof.
  split; [reflexivity |].
  apply (proj1 (extract_text_from_pdf_raises_only_when_missing paddle
                  "data/uploads/none.pdf" fresh_world)).
  reflexivity.
Defined.

(** ** The document service *)

(** X8. Processing an identifier that no document has raises [RuntimeError]
    with the text of the lookup failure and leaves the world as it was: no
    row is marked, nothing is extracted. *)
Theorem process_document_of_unknown_id (self : DocumentService.t)
    (document_id : string) (w : World) :
  (forall d,
     In d (documents (working (session w))) ->
     Document.id d <> document_id) ->
  DocumentService.process_document self document_id w
  = (Raise (RuntimeError ("Failed to process document: "
                          +:+ ("Document not found: " +:+ document_id))),
     w).
Proof.
  intros Hnone.
  assert (Hfind : DocumentService.find_document document_id w
                  = (Return None, w)).
  { rewrite find_document_eq. f_equal. f_equal.
    apply first_filter_None. intros d Hd.
    apply bool_decide_eq_false_2. apply Hnone, Hd. }
  unfold DocumentService.process_document.
  erewrite try_Raise by (erewrite bind_Return by exact Hfind; reflexivity).
  erewrite bind_Return.
  2:{ apply try_Return. erewrite bind_Return by exact Hfind. reflexivity. }
  reflexivity.
Qed.

Lemma process_document_of_unknown_id_witness :
  (forall d,
     In d (documents (working (session fresh_world))) ->
     Document.id d <> "uuid-9")
  /\ DocumentService.process_document pipeline "uuid-9" fresh_world
     = (Raise (RuntimeError ("Failed to process document: "
                             +:+ ("Document not found: " +:+ "uuid-9"))),
        fresh_world).
Proof.
  assert (Hnone : forall d,
            In d (documents (working (session fresh_world))) ->
            Document.id d <> "uuid-9") by (intros d []).
  split; [exact Hnone |].
  apply (process_document_of_unknown_id pipeline "uuid-9" fresh_world Hnone).
Defined.

(** X9. The processing of a document that is there never gets to the
    extraction: the read of [file_path], which is no attribute of a
    [Document], raises.  With a database that takes the commits, the row
    ends with status ['failed'], the text of the [AttributeError] as its
    error message and both timestamps set, its text is what it was, no
    file changes, and the caller gets [RuntimeError]. *)
Theorem process_document_marks_the_document_failed
    (self : DocumentService.t) (document_id : string) (d : Document.t)
    (w : World) :
  first (List.filter (same_document document_id)
           (documents (working (session w)))) = Some d ->
  faults (session w) = [] ->
  exists w' d',
    DocumentService.process_document self document_id w
    = (Raise (RuntimeError
                ("Failed to process document: "
                 +:+ "'Document' object has no attribute 'file_path'")),
       w')
    /\ In d' (documents (persisted (session w')))
    /\ Document.id d' = document_id
    /\ Document.processing_status d' = "failed"
    /\ Document.error_message d'
       = Some "'Document' object has no attribute 'file_path'"
    /\ Document.processing_started_at d' = Some (clock w)
    /\ (exists t, Document.processing_completed_at d' = Some t
                  /\ (clock w < t)%nat)
    /\ Document.ocr_text d' = Document.ocr_text d
    /\ extractions w' = extractions w
    /\ fs w' = fs w.
Proof.
  intros Hfirst Hfaults.
  destruct (process_document_fails self document_id d w Hfirst Hfaults)
    as (w' & Hrun & Hrows & _ & _ & Hfs & Hex).
  pose proof (first_filter_Some _ _ _ Hfirst) as [Hin Hsame].
  assert (Hid : Document.id d = document_id)
    by (apply bool_decide_eq_true_1 in Hsame; exact Hsame).
  exists w', (marked_failed (clock w) d).
  split; [exact Hrun |]. split.
  { rewrite Hrows. apply In_replace_first.
    eapply first_filter_existsb, Hfirst. }
  split; [exact Hid |]. split; [reflexivity |]. split; [reflexivity |].
  split; [reflexivity |]. split; [exists (S (clock w)); cbn; split; [reflexivity | lia] |].
  split; [reflexivity |]. split; [exact Hex | exact Hfs].
Qed.

Lemma process_document_marks_the_document_failed_witness :
  first (List.filter (same_document "uuid-1")
           (documents (working (session before_scan)))) = Some waiting_scan
  /\ faults (session before_scan) = []
  /\ exists w' d',
       DocumentService.process_document pipeline "uuid-1" before_scan
       = (Raise (RuntimeError
                   ("Failed to process document: "
                    +:+ "'Document' object has no attribute 'file_path'")),
          w')
       /\ In d' (documents (persisted (session w')))
       /\ Document.processing_status d' = "failed"
       /\ extractions w' = extractions before_scan.
Proof.
  assert (H1 : first (List.filter (same_document "uuid-1")
                        (documents (working (session before_scan))))
               = Some waiting_scan) by reflexivity.
  assert (H2 : faults (session before_scan) = []) by reflexivity.
  split; [exact H1 |]. split; [exact H2 |].
  destruct (process_document_marks_the_document_failed pipeline "uuid-1"
              waiting_scan before_scan H1 H2)
    as (w' & d' & Hrun & Hin & _ & Hstatus & _ & _ & _ & _ & Hex & _).
  exists w', d'.
  exact (conj Hrun (conj Hin (conj Hstatus Hex))).
Defined.

(** *** Deletion *)

(** X11. The removal of a document removes nothing.  Whatever document
    and caller are named, [delete_document] answers [False], and every
    file and every row the database holds is as before: for a document
    the caller may see, the read of [stored_filename], which is no
    attribute of a [Document], raises before the file is touched, and the
    service rolls back.  The handler answers 404. *)
Theorem delete_document_deletes_nothing (self : DocumentService.t)
    (document_id : string) (user_id : option string) (w : World) :
  exists w',
    DocumentService.delete_document self document_id user_id w
      = (Return false, w')
    /\ fs w' = fs w
    /\ persisted (session w') = persisted (session w)
    /\ (forall d,
          DocumentService.get_document document_id user_id w
            = (Return (Some d), w) ->
          working (session w') = persisted (session w)
          /\ rollbacks w' = S (rollbacks w))
    /\ (forall current_user_id,
          user_id = Some current_user_id ->
          DocumentsApi.delete_document self document_id current_user_id w
          = (Raise (HTTPException 404
                      "Document not found or could not be deleted"), w')).
Proof.
  destruct (delete_document_eq self document_id user_id w)
    as (found & Hget & Hrun).
  eexists. split; [exact Hrun |].
  split; [destruct found; reflexivity |].
  split; [destruct found; reflexivity |].
  split.
  - intros d Hd. rewrite Hget in Hd. inversion Hd; subst found.
    split; [reflexivity |]. rewrite rollbacks_log. cbn.
    unfold rollbacks. cbn. lia.
  - intros current_user_id ->.
    unfold DocumentsApi.delete_document.
    erewrite bind_Return by exact Hrun. reflexivity.
Qed.

Lemma delete_document_deletes_nothing_witness :
  DocumentService.get_document "uuid-1" (Some "alice") after_scan
    = (Return (Some completed_scan), after_scan)
  /\ exists w',
       DocumentService.delete_document pipeline "uuid-1" (Some "alice")
         after_scan = (Return false, w')
       /\ fs w' = fs after_scan
       /\ persisted (session w') = persisted (session after_scan)
       /\ rollbacks w' = S (rollbacks after_scan)
       /\ DocumentsApi.delete_document pipeline "uuid-1" "alice" after_scan
          = (Raise (HTTPException 404
                      "Document not found or could not be deleted"), w').
Proof.
  assert (Hget : DocumentService.get_document "uuid-1" (Some "alice")
                   after_scan = (Return (Some completed_scan), after_scan))
    by reflexivity.
  split; [exact Hget |].
  destruct (delete_document_deletes_nothing pipeline "uuid-1" (Some "alice")
              after_scan) as (w' & Hrun & Hfs & Hrows & Hseen & Hapi).
  exists w'.
  exact (conj Hrun (conj Hfs (conj Hrows
           (conj (proj2 (Hseen completed_scan Hget))
                 (Hapi "alice" eq_refl))))).
Defined.

(** X12. The deletion of a document the caller may not see (no such row, or
    the row of someone else) answers [False] and changes nothing: neither
    a file nor a row. *)
Theorem delete_document_of_another_user (self : DocumentService.t)
    (document_id : string) (user_id : option string) (w : World) :
  DocumentService.get_document document_id user_id w = (Return None, w) ->
  DocumentService.delete_document self document_id user_id w
    = (Return false, w)
  /\ forall u,
       user_id = Some u ->
       DocumentsApi.delete_document self document_id u w
       = (Raise (HTTPException 404
                   "Document not found or could not be deleted"), w).
Proof.
  intros Hget.
  assert (Hdel : DocumentService.delete_document self document_id user_id w
                 = (Return false, w)).
  { unfold DocumentService.delete_document.
    apply try_Return. erewrite bind_Return by exact Hget. reflexivity. }
  split; [exact Hdel |].
  intros u ->. unfold DocumentsApi.delete_document.
  erewrite bind_Return by exact Hdel. reflexivity.
Qed.

Lemma delete_document_of_another_user_witness :
  DocumentService.get_document "uuid-1" (Some "bob") after_scan
    = (Return None, after_scan)
  /\ DocumentService.delete_document pipeline "uuid-1" (Some "bob")
       after_scan = (Return false, after_scan).
Proof.
  assert (Hget : DocumentService.get_document "uuid-1" (Some "bob")
                   after_scan = (Return None, after_scan))
    by (vm_compute; reflexivity).
  split; [exact Hget |].
  apply (proj1 (delete_document_of_another_user pipeline "uuid-1"
                  (Some "bob") after_scan Hget)).
Defined.

(** *** Listing and statistics *)

Lemma Sorted_insert_desc {R : Type} (key : R -> nat) (r : R) (l : list R) :
  Sorted (fun a b => (key b <= key a)%nat) l ->
  Sorted (fun a b => (key b <= key a)%nat) (insert_desc key r l).
Proof.
  induction l as [| x l IH]; cbn [insert_desc]; intros Hs.
  - repeat constructor.
  - destruct (key x <? key r)%nat eqn:Hlt.
    + apply Nat.ltb_lt in Hlt. constructor; [exact Hs |].
      constructor. lia.
    + apply Nat.ltb_ge in Hlt. inversion Hs as [| ? ? Hs' Hhd]; subst.
      constructor; [apply IH; exact Hs' |].
      destruct l as [| y l]; cbn [insert_desc].
      * constructor. exact Hlt.
      * destruct (key y <? key r)%nat; constructor;
          [exact Hlt | inversion Hhd; assumption].
Qed.

Lemma Sorted_order_by_desc {R : Type} (key : R -> nat) (l : list R) :
  Sorted (fun a b => (key b <= key a)%nat) (order_by_desc key l).
Proof.
  unfold order_by_desc. induction l as [| x l IH]; cbn.
  - constructor.
  - apply Sorted_insert_desc, IH.
Qed.

Lemma Sorted_skipn {R : Type} (rel : R -> R -> Prop) (n : nat) (l : list R) :
  Sorted rel l -> Sorted rel (List.skipn n l).
Proof.
  revert l. induction n as [| n IH]; intros l Hs; [exact Hs |].
  destruct l as [| x l]; [constructor |].
  cbn. apply IH. inversion Hs; assumption.
Qed.

Lemma Sorted_firstn {R : Type} (rel : R -> R -> Prop) (n : nat) (l : list R) :
  Sorted rel l -> Sorted rel (List.firstn n l).
Proof.
  revert l. induction n as [| n IH]; intros l Hs; [constructor |].
  destruct l as [| x l]; [constructor |].
  cbn. inversion Hs as [| ? ? Hs' Hhd]; subst.
  constructor; [apply IH; exact Hs' |].
  destruct n; [constructor |].
  destruct l; [constructor |]. cbn. constructor.
  inversion Hhd; assumption.
Qed.

Lemma insert_desc_Permutation {R : Type} (key : R -> nat) (r : R)
    (l : list R) :
  Permutation (r :: l) (insert_desc key r l).
Proof.
  induction l as [| x l IH]; cbn [insert_desc]; [reflexivity |].
  destruct (key x <? key r)%nat; [reflexivity |].
  rewrite Permutation_swap. constructor. exact IH.
Qed.

Lemma order_by_desc_Permutation {R : Type} (key : R -> nat) (l : list R) :
  Permutation l (order_by_desc key l).
Proof.
  unfold order_by_desc. induction l as [| x l IH]; cbn; [reflexivity |].
  rewrite <- insert_desc_Permutation. constructor. exact IH.
Qed.

(** X14. A listing never fails and leaves the world as it is.  The page it
    returns holds at most [limit] documents, newest first; and a page that
    starts at the beginning and is long enough for all of the caller's
    documents holds each of them exactly once. *)
Theorem get_user_documents_is_a_sorted_page (user_id : string)
    (limit offset : nat) (status_filter : option string) (w : World) :
  exists page,
    DocumentService.get_user_documents user_id limit offset status_filter w
      = (Return page, w)
    /\ (length page <= limit)%nat
    /\ Sorted (fun a b =>
                 (Document.created_at b <= Document.created_at a)%nat) page
    /\ (status_filter = None -> offset = 0%nat ->
        let owned :=
          List.filter (fun d => bool_decide (Document.user_id d = user_id))
            (documents (working (session w))) in
        (length owned <= limit)%nat -> Permutation owned page).
Proof.
  unfold DocumentService.get_user_documents, try_except, bind,
    query_documents, gets, ret.
  eexists. split; [reflexivity |]. split; [| split].
  - unfold offset_limit. rewrite length_firstn. lia.
  - unfold offset_limit. apply Sorted_firstn, Sorted_skipn,
      Sorted_order_by_desc.
  - intros Hsf Hoff. subst status_filter offset. cbv zeta. intros Hlen.
    unfold offset_limit. cbn [List.skipn].
    rewrite firstn_all2.
    + apply order_by_desc_Permutation.
    + erewrite <- Permutation_length by apply order_by_desc_Permutation.
      exact Hlen.
Qed.

Lemma get_user_documents_is_a_sorted_page_witness :
  exists page,
    DocumentService.get_user_documents "alice" 10 0 None after_scan
      = (Return page, after_scan)
    /\ (length page <= 10)%nat
    /\ Permutation
         (List.filter (fun d => bool_decide (Document.user_id d = "alice"))
            (documents (working (session after_scan))))
         page.
Proof.
  destruct (get_user_documents_is_a_sorted_page "alice" 10 0 None after_scan)
    as (page & Hrun & Hlen & _ & Hall).
  exists page. split; [exact Hrun |]. split; [exact Hlen |].
  apply Hall; [reflexivity | reflexivity |].
  vm_compute. lia.
Defined.

Lemma dict_get_count_into (s k : string) (g : list (string * nat)) :
  dict_get s (DocumentService.count_into k g)
  = if bool_decide (k = s) then Some (S (default 0%nat (dict_get s g)))
    else dict_get s g.
Proof.
  induction g as [| [k' n] g IH]; cbn.
  - destruct (decide (k = s)) as [-> | Hne].
    + rewrite !bool_decide_eq_true_2 by reflexivity. reflexivity.
    + rewrite !bool_decide_eq_false_2 by exact Hne. reflexivity.
  - destruct (decide (k' = k)) as [-> | Hk].
    + rewrite (bool_decide_eq_true_2 (k = k)) by reflexivity. cbn.
      destruct (decide (k = s)) as [-> | Hne].
      * rewrite !bool_decide_eq_true_2 by reflexivity. reflexivity.
      * rewrite !bool_decide_eq_false_2 by exact Hne. reflexivity.
    + rewrite (bool_decide_eq_false_2 (k' = k)) by exact Hk. cbn.
      rewrite IH.
      destruct (decide (k' = s)) as [-> | Hs].
      * rewrite (bool_decide_eq_true_2 (s = s)) by reflexivity.
        rewrite (bool_decide_eq_false_2 (k = s)) by congruence.
        reflexivity.
      * rewrite (bool_decide_eq_false_2 (k' = s)) by exact Hs. reflexivity.
Qed.

Lemma dict_get_fold_count (s : string) (keys : list string)
    (g : list (string * nat)) :
  default 0%nat
    (dict_get s (List.fold_left (fun groups k => DocumentService.count_into k groups) keys g))
  = (length (List.filter (fun k => bool_decide (k = s)) keys)
     + default 0%nat (dict_get s g))%nat.
Proof.
  revert g. induction keys as [| k keys IH]; intros g; [reflexivity |].
  cbn [List.fold_left]. rewrite IH, dict_get_count_into.
  cbn [List.filter].
  destruct (bool_decide (k = s)); cbn; lia.
Qed.

Lemma count_into_positive (k : string) (g : list (string * nat)) :
  List.Forall (fun kv => (0 < kv.2)%nat) g ->
  List.Forall (fun kv => (0 < kv.2)%nat) (DocumentService.count_into k g).
Proof.
  induction g as [| [k' n] g IH]; cbn; intros Hg.
  - repeat constructor.
  - inversion Hg; subst.
    destruct (bool_decide (k' = k)); constructor; cbn; auto; lia.
Qed.

Lemma count_into_keys_in (k x : string) (g : list (string * nat)) :
  x ∈ List.map fst (DocumentService.count_into k g) ->
  x = k \/ x ∈ List.map fst g.
Proof.
  induction g as [| [k' n] g IH]; cbn; intros Hx.
  - apply elem_of_cons in Hx. destruct Hx as [-> | Hx]; [left; reflexivity |].
    apply not_elem_of_nil in Hx. contradiction.
  - destruct (bool_decide (k' = k)); cbn in Hx; [right; exact Hx |].
    apply elem_of_cons in Hx. destruct Hx as [-> | Hx].
    + right. apply elem_of_cons. left. reflexivity.
    + destruct (IH Hx) as [-> | Hin]; [left; reflexivity |].
      right. apply elem_of_cons. right. exact Hin.
Qed.

Lemma count_into_keys (k : string) (g : list (string * nat)) :
  NoDup (List.map fst g) ->
  NoDup (List.map fst (DocumentService.count_into k g)).
Proof.
  induction g as [| [k' n] g IH]; cbn; intros Hnd.
  - apply NoDup_cons. split; [apply not_elem_of_nil | constructor].
  - apply NoDup_cons in Hnd. destruct Hnd as [Hk' Hnd].
    destruct (decide (k' = k)) as [-> | Hne].
    + rewrite bool_decide_eq_true_2 by reflexivity. cbn.
      apply NoDup_cons. split; assumption.
    + rewrite bool_decide_eq_false_2 by exact Hne. cbn.
      apply NoDup_cons. split; [| apply IH; exact Hnd].
      intros Hin. apply count_into_keys_in in Hin.
      destruct Hin as [Heq | Hin]; [exact (Hne Heq) | exact (Hk' Hin)].
Qed.

Lemma list_sum_count_into (k : string) (g : list (string * nat)) :
  list_sum (List.map snd (DocumentService.count_into k g))
  = S (list_sum (List.map snd g)).
Proof.
  induction g as [| [k' n] g IH]; cbn; [reflexivity |].
  destruct (bool_decide (k' = k)); cbn; [reflexivity |].
  unfold list_sum in IH. rewrite IH. lia.
Qed.

Lemma group_count_facts (keys : list string) (g : list (string * nat)) :
  NoDup (List.map fst g) ->
  List.Forall (fun kv => (0 < kv.2)%nat) g ->
  let g' := List.fold_left (fun groups k => DocumentService.count_into k groups) keys g in
  NoDup (List.map fst g')
  /\ List.Forall (fun kv => (0 < kv.2)%nat) g'
  /\ list_sum (List.map snd g')
     = (length keys + list_sum (List.map snd g))%nat.
Proof.
  revert g.
  induction keys as [| k keys IH]; intros g Hnd Hpos;
    cbn [List.fold_left length].
  - auto.
  - destruct (IH (DocumentService.count_into k g) (count_into_keys k g Hnd)
                (count_into_positive k g Hpos)) as (H1 & H2 & H3).
    split; [exact H1 |]. split; [exact H2 |].
    rewrite H3, list_sum_count_into. lia.
Qed.

Lemma dict_set_fresh {V : Type} (k : string) (v : V)
    (d : list (string * V)) :
  ~ In k (List.map fst d) -> DocumentService.dict_set k v d = List.app d [(k, v)].
Proof.
  induction d as [| [k' v'] d IH]; cbn; intros Hk; [reflexivity |].
  rewrite bool_decide_eq_false_2 by (intros ->; apply Hk; left; reflexivity).
  rewrite IH by (intros Hin; apply Hk; right; exact Hin). reflexivity.
Qed.

Lemma dict_of_distinct_rows {V : Type} (rows acc : list (string * V)) :
  NoDup (List.map fst (List.app acc rows)) ->
  List.fold_left (fun stats row => DocumentService.dict_set row.1 row.2 stats)
    rows acc
  = List.app acc rows.
Proof.
  revert acc. induction rows as [| [k v] rows IH]; intros acc Hnd; cbn.
  - rewrite List.app_nil_r. reflexivity.
  - assert (Hfresh : ~ In k (List.map fst acc)).
    { rewrite List.map_app in Hnd. cbn in Hnd.
      apply NoDup_app in Hnd. destruct Hnd as (_ & Hdisj & _).
      intros Hin. apply (Hdisj k); [apply list_elem_of_In; exact Hin |].
      left. }
    rewrite dict_set_fresh by exact Hfresh.
    rewrite IH.
    + rewrite <- List.app_assoc. reflexivity.
    + rewrite <- List.app_assoc. exact Hnd.
Qed.

(** X15. The statistics of a user never fail and leave the world as it is.
    They count that user's documents and add up their sizes; the
    breakdown gives, for every status, the number of the user's documents
    in that status, lists no status without a document, and its counts add
    up to the total. *)
Theorem get_document_stats_counts_by_status (user_id : string) (w : World) :
  let owned :=
    List.filter (fun d => bool_decide (Document.user_id d = user_id))
      (documents (working (session w))) in
  exists stats,
    DocumentService.get_document_stats user_id w = (Return stats, w)
    /\ DocumentService.total_documents stats = length owned
    /\ DocumentService.total_file_size stats
       = list_sum (List.map Document.file_size owned)
    /\ (forall s,
          default 0%nat (dict_get s (DocumentService.status_breakdown stats))
          = length (List.filter
                      (fun d => bool_decide (Document.processing_status d = s))
                      owned))
    /\ List.Forall (fun kv => (0 < kv.2)%nat)
         (DocumentService.status_breakdown stats)
    /\ list_sum (List.map snd (DocumentService.status_breakdown stats))
       = DocumentService.total_documents stats.
Proof.
  intros owned.
  unfold DocumentService.get_document_stats, try_except, bind,
    query_documents, gets, ret.
  fold owned.
  eexists. split; [reflexivity |].
  cbn [DocumentService.total_documents DocumentService.total_file_size
       DocumentService.status_breakdown].
  destruct (group_count_facts (List.map Document.processing_status owned) []
              NoDup_nil_2 (List.Forall_nil _)) as (Hnd & Hpos & Hsum).
  unfold DocumentService.group_count.
  rewrite dict_of_distinct_rows by exact Hnd.
  cbn [List.app].
  split; [reflexivity |]. split.
  { destruct owned; reflexivity. }
  split.
  { intros s. rewrite dict_get_fold_count. cbn. rewrite Nat.add_0_r.
    clear.
    induction owned as [| d l IH]; cbn; [reflexivity |].
    destruct (bool_decide (Document.processing_status d = s)); cbn;
      rewrite IH; reflexivity. }
  split; [exact Hpos |].
  rewrite Hsum. cbn. rewrite length_map. lia.
Qed.

(** ** The handlers of the documents *)

(** X16. The upload handler raises its own rejections inside its [try] block:
    for a payload over the size limit the handler builds the response 413,
    catches it itself as an [Exception] and answers 500; the world is
    untouched, and the service is never called. *)
Theorem api_upload_of_oversized_file_answers_500
    (service : DocumentService.t) (upload : DocumentsApi.UploadFile)
    (name : string) (process_immediately : bool) (current_user_id : string)
    (w : World) :
  DocumentsApi.filename upload = Some name ->
  name <> "" ->
  (FileStorage.max_file_size (DocumentService.file_storage service)
   < st_size (DocumentsApi.file upload))%nat ->
  DocumentsApi.upload_document service upload process_immediately
    current_user_id w
  = (Raise (HTTPException 500 "Failed to upload document"), w).
Proof.
  intros Hname Hne Hsize.
  unfold DocumentsApi.upload_document. rewrite Hname.
  assert (Ht : Py.truthy name = true).
  { unfold Py.truthy. rewrite bool_decide_eq_false_2 by exact Hne.
    reflexivity. }
  rewrite Ht. cbn [negb].
  unfold FileStorage.check_file_size.
  assert (Hle : (st_size (DocumentsApi.file upload)
                 <=? FileStorage.max_file_size
                       (DocumentService.file_storage service))%nat = false)
    by (apply Nat.leb_gt; exact Hsize).
  rewrite Hle. reflexivity.
Qed.

Lemma api_upload_of_oversized_file_answers_500_witness :
  let upload := {| DocumentsApi.filename := Some "exam.pdf";
                   DocumentsApi.file := nine_byte_pdf |} in
  DocumentsApi.upload_document pipeline upload true "alice" fresh_world
  = (Raise (HTTPException 500 "Failed to upload document"), fresh_world).
Proof.
  intros upload.
  apply (api_upload_of_oversized_file_answers_500 pipeline upload "exam.pdf"
           true "alice" fresh_world);
    [reflexivity | discriminate | vm_compute; lia].
Defined.

(** X17. Whatever is uploaded, the handler answers with the success message or
    with a response 400 or 500; the responses 413 that its source builds
    never leave it. *)
Theorem api_upload_never_answers_413
    (service : DocumentService.t) (upload : DocumentsApi.UploadFile)
    (process_immediately : bool) (current_user_id : string) (w : World) :
  match (DocumentsApi.upload_document service upload process_immediately
           current_user_id w).1 with
  | Return (message, _) => message = "Document uploaded successfully"
  | Raise e =>
      (exists detail, e = HTTPException 400 detail)
      \/ e = HTTPException 500 "Failed to upload document"
  end.
Proof.
  unfold DocumentsApi.upload_document, try_except.
  match goal with
  | |- context [match ?m w with _ => _ end] => destruct (m w) as [[r | e] w1] eqn:Hm
  end.
  - cbn [fst].
    destruct (DocumentsApi.filename upload) as [name |]; [| discriminate].
    destruct (negb (Py.truthy name)); [discriminate |].
    destruct (negb (FileStorage.check_file_size _ _)); [discriminate |].
    apply bind_inv in Hm. destruct Hm as (a & w2 & _ & Hret).
    inversion Hret. reflexivity.
  - unfold DocumentsApi.upload_rejected.
    destruct (is_ValueError e); cbn; [left; eexists; reflexivity |].
    right. reflexivity.
Qed.

(** X18. For a file of a type that is not allowed, the handler answers 400 with
    the message of the service; nothing is stored and no row is made. *)
Theorem api_upload_of_disallowed_type_answers_400
    (service : DocumentService.t) (upload : DocumentsApi.UploadFile)
    (name : string) (process_immediately : bool) (current_user_id : string)
    (w : World) :
  DocumentsApi.filename upload = Some name ->
  name <> "" ->
  (st_size (DocumentsApi.file upload)
   <= FileStorage.max_file_size (DocumentService.file_storage service))%nat ->
  FileStorage.is_allowed_file (DocumentService.file_storage service) name
    = false ->
  DocumentsApi.upload_document service upload process_immediately
    current_user_id w
  = (Raise (HTTPException 400 ("File type not allowed: " +:+ Py.suffix name)),
     w).
Proof.
  intros Hname Hne Hsize Hext.
  unfold DocumentsApi.upload_document. rewrite Hname.
  assert (Ht : Py.truthy name = true).
  { unfold Py.truthy. rewrite bool_decide_eq_false_2 by exact Hne.
    reflexivity. }
  rewrite Ht. cbn [negb].
  unfold FileStorage.check_file_size.
  assert (Hle : (st_size (DocumentsApi.file upload)
                 <=? FileStorage.max_file_size
                       (DocumentService.file_storage service))%nat = true)
    by (apply Nat.leb_le; exact Hsize).
  rewrite Hle. cbn [negb].
  erewrite try_Raise.
  2:{ apply bind_Raise.
      unfold DocumentService.upload_document, bind, try_except.
      rewrite Hext. reflexivity. }
  reflexivity.
Qed.

Lemma api_upload_of_disallowed_type_answers_400_witness :
  let upload := {| DocumentsApi.filename := Some "notes.exe";
                   DocumentsApi.file := one_page_pdf |} in
  DocumentsApi.upload_document pipeline upload true "alice" fresh_world
  = (Raise (HTTPException 400 "File type not allowed: .exe"), fresh_world).
Proof.
  intros upload.
  apply (api_upload_of_disallowed_type_answers_400 pipeline upload
           "notes.exe" true "alice" fresh_world);
    [reflexivity | discriminate | vm_compute; lia | reflexivity].
Defined.

(** X10. An upload of an allowed type within the size limit, which the
    handler passes to the service, is answered 500: the service stores
    the file, fails at the constructor of the row and deletes the file
    again; no row is made. *)
Theorem api_upload_of_valid_file_answers_500
    (service : DocumentService.t) (upload : DocumentsApi.UploadFile)
    (name : string) (process_immediately : bool) (current_user_id : string)
    (w : World) :
  DocumentsApi.filename upload = Some name ->
  name <> "" ->
  (st_size (DocumentsApi.file upload)
   <= FileStorage.max_file_size (DocumentService.file_storage service))%nat ->
  FileStorage.is_allowed_file (DocumentService.file_storage service) name
    = true ->
  exists w',
    DocumentsApi.upload_document service upload process_immediately
      current_user_id w
    = (Raise (HTTPException 500 "Failed to upload document"), w')
    /\ session w' = session w
    /\ fs w' = delete
                 (Py.joinpath
                    (FileStorage.upload_dir
                       (DocumentService.file_storage service))
                    (entropy w (draws w) +:+ Py.suffix name))
                 (fs w).
Proof.
  intros Hname Hne Hsize Hext.
  unfold DocumentsApi.upload_document. rewrite Hname.
  assert (Ht : Py.truthy name = true).
  { unfold Py.truthy. rewrite bool_decide_eq_false_2 by exact Hne.
    reflexivity. }
  rewrite Ht. cbn [negb].
  unfold FileStorage.check_file_size.
  assert (Hle : (st_size (DocumentsApi.file upload)
                 <=? FileStorage.max_file_size
                       (DocumentService.file_storage service))%nat = true)
    by (apply Nat.leb_le; exact Hsize).
  rewrite Hle. cbn [negb].
  eexists. split.
  { erewrite try_Raise.
    2:{ apply bind_Raise.
        apply upload_document_of_valid_file; assumption. }
    reflexivity. }
  split; reflexivity.
Qed.

Lemma api_upload_of_valid_file_answers_500_witness :
  let upload := {| DocumentsApi.filename := Some "exam.pdf";
                   DocumentsApi.file := one_page_pdf |} in
  exists w',
    DocumentsApi.upload_document pipeline upload false "alice" fresh_world
    = (Raise (HTTPException 500 "Failed to upload document"), w')
    /\ session w' = session fresh_world
    /\ fs w' = delete "data/uploads/uuid-0.pdf" (fs fresh_world).
Proof.
  intros upload.
  apply (api_upload_of_valid_file_answers_500 pipeline upload "exam.pdf"
           false "alice" fresh_world);
    [reflexivity | discriminate | vm_compute; lia | reflexivity].
Defined.



(** X20. The content handler tells a caller nothing about the document of
    someone else, and refuses a document whose processing has not
    completed: the first gets 404, the second 400 with the status. *)
Theorem get_document_content_refuses (document_id current_user_id : string)
    (w : World) :
  current_user_id <> "" ->
  (forall d, In d (documents (working (session w))) ->
     Document.id d = document_id ->
     Document.user_id d <> current_user_id
     \/ Document.processing_status d <> "completed") ->
  exists code detail,
    DocumentsApi.get_document_content document_id current_user_id w
      = (Raise (HTTPException code detail), w)
    /\ (code = 404%nat \/ code = 400%nat).
Proof.
  intros Hu Hnone.
  unfold DocumentsApi.get_document_content.
  destruct (get_document_eq document_id (Some current_user_id) w)
    as (found & Hget & Hsome & _).
  erewrite bind_Return by exact Hget.
  destruct found as [d |].
  - destruct (Hsome d eq_refl) as [Hin Hid].
    pose proof (get_document_owned _ _ _ _ _ Hu Hget) as Howner.
    destruct (Hnone d Hin Hid) as [Hother | Hnot]; [contradiction |].
    rewrite bool_decide_eq_false_2 by exact Hnot.
    do 2 eexists. split; [reflexivity | right; reflexivity].
  - do 2 eexists. split; [reflexivity | left; reflexivity].
Qed.

Lemma get_document_content_refuses_witness :
  exists code detail,
    DocumentsApi.get_document_content "uuid-1" "bob" after_scan
      = (Raise (HTTPException code detail), after_scan)
    /\ (code = 404%nat \/ code = 400%nat).
Proof.
  assert (Hrows : documents (working (session after_scan)) = [completed_scan])
    by (vm_compute; reflexivity).
  apply (get_document_content_refuses "uuid-1" "bob" after_scan);
    [discriminate |].
  intros d Hin Hid. left.
  rewrite Hrows in Hin. destruct Hin as [<- | []]. discriminate.
Defined.

(** ** The reasoning service *)

Lemma find_from_absent (c : ascii) (s : string) (i : Z) :
  (forall n, String.get n s <> Some c) -> Py.find_from c s i = (-1)%Z.
Proof.
  revert i. induction s as [| a s IH]; intros i Habsent; [reflexivity |].
  cbn [Py.find_from].
  destruct (Ascii.eqb a c) eqn:Heq.
  - apply Ascii.eqb_eq in Heq. subst a.
    exfalso. apply (Habsent 0%nat). reflexivity.
  - apply IH. intros n. apply (Habsent (S n)).
Qed.

(** X21. With a client configured, the analysis of a question never raises,
    whatever the client, the parser and the JSON decoder do: it returns a
    result with metadata whose [success] entry is a boolean, [False] only
    beside the fallback result; it touches neither the database nor the
    files.  Without a client it raises [RuntimeError] before anything
    else happens. *)
Theorem analyze_legal_question_raises_only_when_unavailable
    (self : LLMService.t) (question_text : string)
    (context question_type_hint : option string) (w : World) :
  (LLMService.is_available self = false
   /\ LLMService.analyze_legal_question self question_text context
        question_type_hint w
      = (Raise (RuntimeError "LLM service not available"), w))
  \/ (LLMService.is_available self = true
      /\ exists r metadata w',
           LLMService.analyze_legal_question self question_text context
             question_type_hint w
           = (Return (r, metadata), w')
           /\ session w' = session w
           /\ fs w' = fs w
           /\ (dict_get "success" metadata = Some (JBool true)
               \/ (dict_get "success" metadata = Some (JBool false)
                   /\ r = LLMService._get_fallback_result question_text))).
Proof.
  unfold LLMService.is_available, LLMService.analyze_legal_question.
  destruct (LLMService._llm self) as [client |].
  - right. split; [reflexivity |].
    unfold bind, now, try_except, modify, raise, ret. cbn.
    match goal with
    | |- context [client ?ms] => destruct (client ms) as [text | e]
    end.
    + do 3 eexists. split; [reflexivity |].
      split; [reflexivity |]. split; [reflexivity |]. left. reflexivity.
    + do 3 eexists. split; [reflexivity |].
      split; [reflexivity |]. split; [reflexivity |]. right.
      split; reflexivity.
  - left. split; reflexivity.
Qed.

(** X22. An answer of the client that the parser rejects and that holds no
    opening brace gives the placeholder result of confidence 0.1, and the
    metadata report the analysis as a success. *)
Theorem unparseable_answer_is_reported_as_success
    (self : LLMService.t) (client : list LLMService.Message -> Reply string)
    (text : string) (question_text : string)
    (context question_type_hint : option string) (w : World) :
  LLMService._llm self = Some client ->
  (forall messages, client messages = Got text) ->
  (exists e, LLMService.parse self text = Threw e) ->
  (forall n, String.get n text <> Some "{"%char) ->
  exists metadata w',
    LLMService.analyze_legal_question self question_text context
      question_type_hint w
    = (Return (LLMService.placeholder_result, metadata), w')
    /\ dict_get "success" metadata = Some (JBool true)
    /\ (LegalAnalysisResult.confidence_score LLMService.placeholder_result
        == 0.1)%Q.
Proof.
  intros Hllm Hclient [e Hparse] Habsent.
  unfold LLMService.analyze_legal_question. rewrite Hllm.
  unfold bind, now, try_except, modify, raise, ret. cbn.
  rewrite Hclient, Hparse.
  unfold LLMService._fallback_parse, Py.find.
  rewrite (find_from_absent _ _ _ Habsent). cbn.
  do 2 eexists. split; [reflexivity |]. split; reflexivity.
Qed.

Lemma unparseable_answer_is_reported_as_success_witness :
  let client := fun _ : list LLMService.Message => Got "I cannot answer." in
  let self :=
    {| LLMService.model_name := "gpt-4";
       LLMService.max_tokens := 4000;
       LLMService._llm := Some client;
       LLMService.format_instructions := "";
       LLMService.parse := no_parse;
       LLMService.json_loads := no_parse |} in
  exists metadata w',
    LLMService.analyze_legal_question self contract_question None None
      fresh_world
    = (Return (LLMService.placeholder_result, metadata), w')
    /\ dict_get "success" metadata = Some (JBool true)
    /\ (LegalAnalysisResult.confidence_score LLMService.placeholder_result
        == 0.1)%Q.
Proof.
  intros client self.
  apply (unparseable_answer_is_reported_as_success self client
           "I cannot answer." contract_question None None fresh_world).
  - reflexivity.
  - intros messages. reflexivity.
  - eexists. reflexivity.
  - intros n.
    do 17 (destruct n as [| n]; [discriminate |]). discriminate.
Defined.

(** ** The analysis service *)

(** *** Rating *)

(** X23. The rating of an analysis of the caller, with a database that takes
    the commit, answers [True]: the row of that identifier now holds the
    rating, the feedback and the time of the update, it is committed, and
    the documents are as they were. *)
Theorem rate_analysis_stores_the_rating (analysis_id user_id : string)
    (rating : Q) (feedback : option string) (a : QuestionAnalysis.t)
    (w : World) :
  AnalysisService.get_analysis analysis_id user_id w = (Return (Some a), w) ->
  List.hd false (faults (session w)) = false ->
  let rated := QuestionAnalysis.set_rating rating feedback (clock w) a in
  exists w',
    AnalysisService.rate_analysis analysis_id user_id rating feedback w
      = (Return true, w')
    /\ question_analyses (persisted (session w'))
       = replace_first (same_analysis analysis_id) rated
           (question_analyses (working (session w)))
    /\ In rated (question_analyses (persisted (session w')))
    /\ working (session w') = persisted (session w')
    /\ documents (persisted (session w')) = documents (working (session w)).
Proof.
  intros Hget Hfaults rated.
  destruct (get_analysis_owned _ _ _ _ _ Hget) as (Hin & Hid & Hu).
  unfold AnalysisService.rate_analysis.
  eexists. split.
  { apply try_Return. erewrite bind_Return by exact Hget. cbn beta iota.
    erewrite bind_Return by reflexivity.
    erewrite bind_Return by reflexivity.
    erewrite bind_Return by (apply commit_healthy; cbn; exact Hfaults).
    reflexivity. }
  cbn. fold rated. rewrite Hid.
  split; [reflexivity |]. split; [| split; reflexivity].
  apply In_replace_first. apply existsb_exists. exists a.
  split; [exact Hin |]. unfold same_analysis.
  apply bool_decide_eq_true_2. exact Hid.
Qed.

Lemma rate_analysis_stores_the_rating_witness :
  exists a w',
    AnalysisService.get_analysis "uuid-0" "alice" after_fallback
      = (Return (Some a), after_fallback)
    /\ AnalysisService.rate_analysis "uuid-0" "alice" 4.0%Q (Some "清楚")
         after_fallback = (Return true, w')
    /\ In (QuestionAnalysis.set_rating 4.0%Q (Some "清楚")
             (clock after_fallback) a)
         (question_analyses (persisted (session w'))).
Proof.
  assert (Hget : exists a,
            AnalysisService.get_analysis "uuid-0" "alice" after_fallback
            = (Return (Some a), after_fallback))
    by (eexists; vm_compute; reflexivity).
  destruct Hget as [a Hget].
  assert (Hfaults : List.hd false (faults (session after_fallback)) = false)
    by (vm_compute; reflexivity).
  destruct (rate_analysis_stores_the_rating "uuid-0" "alice" 4.0%Q
              (Some "清楚") a after_fallback Hget Hfaults)
    as (w' & Hrun & _ & Hin & _).
  exists a, w'. exact (conj Hget (conj Hrun Hin)).
Defined.

(** X24. When the database refuses the commit of a rating, the service rolls
    back and answers [False]: the rows are those the database held, the
    rating is lost. *)
Theorem rate_analysis_rolls_back_when_commit_fails
    (analysis_id user_id : string) (rating : Q) (feedback : option string)
    (a : QuestionAnalysis.t) (fl : list bool) (w : World) :
  AnalysisService.get_analysis analysis_id user_id w = (Return (Some a), w) ->
  faults (session w) = true :: fl ->
  exists w',
    AnalysisService.rate_analysis analysis_id user_id rating feedback w
      = (Return false, w')
    /\ working (session w') = persisted (session w)
    /\ persisted (session w') = persisted (session w)
    /\ rollbacks w' = S (rollbacks w).
Proof.
  intros Hget Hfaults.
  unfold AnalysisService.rate_analysis.
  eexists. split.
  { erewrite try_Raise.
    2:{ erewrite bind_Return by exact Hget. cbn beta iota.
        erewrite bind_Return by reflexivity.
        erewrite bind_Return by reflexivity.
        apply bind_Raise. apply commit_refused. cbn. exact Hfaults. }
    erewrite bind_Return by reflexivity. reflexivity. }
  cbn. split; [reflexivity |]. split; [reflexivity |].
  unfold rollbacks. cbn. rewrite List.filter_app, length_app. cbn. lia.
Qed.

Lemma rate_analysis_rolls_back_when_commit_fails_witness :
  let w := with_session {| persisted := persisted (session after_fallback);
                           working := working (session after_fallback);
                           faults := [true] |} after_fallback in
  exists a w',
    AnalysisService.get_analysis "uuid-0" "alice" w = (Return (Some a), w)
    /\ AnalysisService.rate_analysis "uuid-0" "alice" 4.0%Q None w
       = (Return false, w')
    /\ persisted (session w') = persisted (session w).
Proof.
  intros w.
  assert (Hget : exists a,
            AnalysisService.get_analysis "uuid-0" "alice" w
            = (Return (Some a), w))
    by (eexists; vm_compute; reflexivity).
  destruct Hget as [a Hget].
  destruct (rate_analysis_rolls_back_when_commit_fails "uuid-0" "alice"
              4.0%Q None a [] w Hget eq_refl)
    as (w' & Hrun & _ & Hrows & _).
  exists a, w'. exact (conj Hget (conj Hrun Hrows)).
Defined.

(** *** The queries behind an analysis *)

(** X25. The search for similar analyses never fails and changes nothing; it
    gives at most [limit] stored analyses, none of them the target itself,
    all of the type of the target and of a confidence above 0.5. *)
Theorem find_similar_analyses_are_confident_rows_of_the_type
    (target_analysis : QuestionAnalysis.t) (limit : nat) (w : World) :
  exists similar,
    AnalysisService._find_similar_analyses target_analysis limit w
      = (Return similar, w)
    /\ (length similar <= limit)%nat
    /\ List.Forall
         (fun a =>
            In a (question_analyses (working (session w)))
            /\ QuestionAnalysis.id a <> QuestionAnalysis.id target_analysis
            /\ QuestionAnalysis.question_type a
               = QuestionAnalysis.question_type target_analysis
            /\ (0.5 < QuestionAnalysis.confidence_score a)%Q)
         similar.
Proof.
  unfold AnalysisService._find_similar_analyses, try_except, bind,
    query_analyses, gets, ret.
  eexists. split; [reflexivity |]. split.
  - rewrite length_firstn. lia.
  - apply Forall_take. apply List.Forall_forall. intros a Ha.
    apply filter_In in Ha. destruct Ha as [Hin Hf].
    apply andb_true_iff in Hf. destruct Hf as [Hf Hconf].
    apply andb_true_iff in Hf. destruct Hf as [Hother Htype].
    split; [exact Hin |]. split; [| split].
    + unfold same_analysis in Hother.
      apply negb_true_iff, bool_decide_eq_false_1 in Hother. exact Hother.
    + apply bool_decide_eq_true_1 in Htype. exact Htype.
    + apply negb_true_iff in Hconf.
      destruct (Qlt_le_dec 0.5 (QuestionAnalysis.confidence_score a))
        as [Hlt | Hle]; [exact Hlt |].
      apply Qle_bool_iff in Hle. rewrite Hle in Hconf. discriminate.
Qed.

(** X26. The search for relevant articles finds nothing: for every
    question, every limit and every database it returns the empty list and
    changes nothing.  A question without a legal keyword is answered at
    once; for any other, the read of [LegalArticle.content], which is no
    attribute of the class (the column is [article_content]), raises in
    the first turn of the loop, and the handler answers with the empty
    list. *)
Theorem find_relevant_articles_finds_nothing
    (question_text : string) (limit : nat) (w : World) :
  AnalysisService._find_relevant_articles question_text limit w
  = (Return [], w).
Proof.
  unfold AnalysisService._find_relevant_articles.
  destruct (AnalysisService._extract_keywords question_text)
    as [| keyword keywords]; [reflexivity |].
  erewrite try_Raise; [reflexivity |].
  apply bind_Raise. cbn [List.firstn for_each].
  apply bind_Raise. apply bind_Raise. reflexivity.
Qed.

(** *** The history of a user *)

(** X27. The history of a user never fails and changes nothing; each page
    holds at most [limit] analyses, all of that user, newest first. *)
Theorem get_user_analyses_is_a_sorted_page (user_id : string)
    (limit offset : nat) (question_type_filter : option string) (w : World) :
  exists page,
    AnalysisService.get_user_analyses user_id limit offset
      question_type_filter w = (Return page, w)
    /\ (length page <= limit)%nat
    /\ Sorted (fun a b =>
                 (QuestionAnalysis.created_at b
                  <= QuestionAnalysis.created_at a)%nat) page
    /\ List.Forall (fun a => QuestionAnalysis.user_id a = user_id) page.
Proof.
  unfold AnalysisService.get_user_analyses, try_except, bind,
    query_analyses, gets, ret.
  eexists. split; [reflexivity |]. split; [| split].
  - unfold offset_limit. rewrite length_firstn. lia.
  - unfold offset_limit. apply Sorted_firstn, Sorted_skipn,
      Sorted_order_by_desc.
  - apply Forall_offset_limit, Forall_order_by_desc.
    assert (Howned : List.Forall
              (fun a => QuestionAnalysis.user_id a = user_id)
              (List.filter
                 (fun a => bool_decide (QuestionAnalysis.user_id a = user_id))
                 (question_analyses (working (session w))))).
    { apply List.Forall_forall. intros a Ha. apply filter_In in Ha.
      destruct Ha as [_ Ha]. apply bool_decide_eq_true_1 in Ha. exact Ha. }
    destruct question_type_filter as [q |]; [| exact Howned].
    destruct (Py.truthy q); [| exact Howned].
    apply Forall_filter_keeps, Howned.
Qed.

(** *** Every result has its row *)

Lemma fallback_analysis_row (q u : string) (doc : option string)
    (w w' : World) (r : AnalysisSummary.t) :
  AnalysisService._fallback_analysis q u doc w = (Return r, w') ->
  Exists (row_of r u q) (question_analyses (persisted (session w'))).
Proof.
  unfold AnalysisService._fallback_analysis.
  unfold bind, uuid4, now, add_analysis, query_analyses, gets, put_analyses,
    modify, commit, ret. cbn.
  destruct (faults (session w)) as [| [|] fl]; cbn; intros H;
    inversion H; subst; clear H; cbn.
  all: apply Exists_app; right; left; repeat split; reflexivity.
Qed.

Section Rows.

Variables (r : AnalysisSummary.t) (u q : string).

Lemma holds_row_commit : preserves (holds_row r u q) commit.
Proof.
  intros w [Hp Hw]. unfold commit.
  destruct (faults (session w)) as [| [|] fl]; cbn; split; assumption.
Qed.

Lemma holds_row_store (a : QuestionAnalysis.t) :
  row_of r u q a -> preserves (holds_row r u q) (store_analysis a).
Proof.
  intros Ha w [Hp Hw]. cbn. split; [assumption |].
  apply Exists_replace_first; assumption.
Qed.

Lemma holds_row_enhance (a : QuestionAnalysis.t) :
  row_of r u q a ->
  preserves (holds_row r u q) (AnalysisService._enhance_analysis a).
Proof.
  intros Ha.
  unfold AnalysisService._enhance_analysis,
    AnalysisService._find_similar_analyses, query_analyses.
  apply preserves_try; [| intros e; preserve].
  apply preserves_bind; [preserve |]. intros similar.
  apply preserves_bind.
  { apply holds_row_store. destruct similar; exact Ha. }
  intros _. apply preserves_bind.
  { intros w Hw. rewrite find_relevant_articles_eq. exact Hw. }
  intros articles.
  destruct articles as [| article articles].
  - apply preserves_bind_ret.
    apply preserves_bind; [| intros _; apply holds_row_commit].
    apply holds_row_store. destruct similar; exact Ha.
  - intros w Hw. exact Hw.
Qed.

End Rows.

(** X28. Whichever way an analysis goes (no reasoning service, a service that
    answers, a service that fails, a commit that is refused and made up
    for by the fallback), a result that [analyze_question] returns has its
    row in the database: a committed analysis of the returned identifier,
    of the caller and of the question, with the type and the confidence
    of the result. *)
Theorem analyze_question_result_has_its_row
    (self : AnalysisService.t) (question_text user_id : string)
    (document_id context question_type_hint : option string)
    (w w' : World) (r : AnalysisSummary.t) :
  AnalysisService.analyze_question self question_text user_id document_id
    context question_type_hint w = (Return r, w') ->
  exists a,
    In a (question_analyses (persisted (session w')))
    /\ row_of r user_id question_text a.
Proof.
  intros H.
  apply List.Exists_exists.
  unfold AnalysisService.analyze_question in H.
  apply try_inv in H. destruct H as [H | (e & w1 & _ & H)].
  2:{ apply bind_inv in H. destruct H as ([] & w2 & _ & H).
      eapply fallback_analysis_row, H. }
  destruct (LLMService.is_available (AnalysisService.llm_service self));
    cbn [negb] in H; [| eapply fallback_analysis_row, H].
  apply bind_inv in H. destruct H as (answer & w1 & _ & H).
  apply bind_inv in H. destruct H as (new_id & w2 & _ & H).
  apply bind_inv in H. destruct H as (created & w3 & _ & H).
  apply bind_inv in H. destruct H as ([] & w4 & Hadd & H).
  apply bind_inv in H. destruct H as ([] & w5 & Hcommit & H).
  apply bind_inv in H. destruct H as ([] & w6 & Henhance & H).
  unfold ret in H. injection H as Hr Hw'. subst w'.
  apply commit_inv in Hcommit. destruct Hcommit as (Hp5 & Hw5 & _).
  assert (Hadded : Exists (row_of r user_id question_text)
                     (question_analyses (working (session w4)))).
  { unfold add_analysis, bind, query_analyses, gets, put_analyses, modify
      in Hadd.
    inversion Hadd; subst w4. cbn.
    apply Exists_app. right. left. rewrite <- Hr.
    repeat split; reflexivity. }
  match type of Henhance with
  | AnalysisService._enhance_analysis ?a _ = _ =>
      assert (Hrow : row_of r user_id question_text a)
        by (rewrite <- Hr; repeat split; reflexivity);
      pose proof (holds_row_enhance r user_id question_text a Hrow w5) as Hh
  end.
  rewrite Henhance in Hh. cbn [snd] in Hh.
  apply Hh. split; [rewrite Hp5 | rewrite Hw5]; exact Hadded.
Qed.

Lemma analyze_question_result_has_its_row_witness :
  exists r w' a,
    AnalysisService.analyze_question (analyst timing_out) contract_question
      "alice" None None None fresh_world = (Return r, w')
    /\ In a (question_analyses (persisted (session w')))
    /\ row_of r "alice" contract_question a.
Proof.
  assert (Hrun : exists r w',
            AnalysisService.analyze_question (analyst timing_out)
              contract_question "alice" None None None fresh_world
            = (Return r, w'))
    by (do 2 eexists; vm_compute; reflexivity).
  destruct Hrun as (r & w' & Hrun).
  destruct (analyze_question_result_has_its_row (analyst timing_out)
              contract_question "alice" None None None fresh_world w' r Hrun)
    as (a & Hin & Hrow).
  exists r, w', a. exact (conj Hrun (conj Hin Hrow)).
Defined.

(** *** An answer of the reasoning service *)

Lemma analyze_legal_question_answered (self : LLMService.t)
    (q : string) (ctx hint : option string)
    (client : list LLMService.Message -> Reply string) (text : string)
    (res : LegalAnalysisResult.t) (w : World) :
  LLMService._llm self = Some client ->
  (forall messages, client messages = Got text) ->
  LLMService.parse self text = Got res ->
  exists metadata w',
    LLMService.analyze_legal_question self q ctx hint w
    = (Return (res, metadata), w')
    /\ dict_get "success" metadata = Some (JBool true)
    /\ dict_get "error" metadata = None
    /\ AnalysisService.get_str "model_used" metadata
       = Some (LLMService.model_name self)
    /\ session w' = session w
    /\ rollbacks w' = rollbacks w.
Proof.
  intros Hllm Hanswer Hparse.
  unfold LLMService.analyze_legal_question. rewrite Hllm.
  unfold bind, now, try_except, modify, raise, ret. cbn.
  rewrite Hanswer, Hparse.
  do 2 eexists. split; [reflexivity |].
  split; [reflexivity |]. split; [reflexivity |]. split; [reflexivity |].
  split; [reflexivity |].
  unfold rollbacks. cbn. rewrite List.filter_app, length_app. cbn. lia.
Qed.

(** X29. When the reasoning service answers, the parser accepts the answer and
    the database takes the commit, [analyze_question] returns what the
    parser made of the answer (type, difficulty, confidence, key points,
    approach, suggestions) under metadata that report a success; it
    commits a row of the returned identifier with that confidence and the
    name of the model, and it does not roll back. *)
Theorem analyze_question_records_the_answer
    (self : AnalysisService.t) (question_text user_id : string)
    (document_id context question_type_hint : option string)
    (client : list LLMService.Message -> Reply string) (text : string)
    (res : LegalAnalysisResult.t) (w : World) :
  LLMService._llm (AnalysisService.llm_service self) = Some client ->
  (forall messages, client messages = Got text) ->
  LLMService.parse (AnalysisService.llm_service self) text = Got res ->
  List.hd false (faults (session w)) = false ->
  exists r w',
    AnalysisService.analyze_question self question_text user_id document_id
      context question_type_hint w = (Return r, w')
    /\ AnalysisSummary.question_type r
       = LegalAnalysisResult.question_type res
    /\ AnalysisSummary.difficulty_level r
       = LegalAnalysisResult.difficulty_level res
    /\ AnalysisSummary.confidence_score r
       = LegalAnalysisResult.confidence_score res
    /\ AnalysisSummary.key_points r = LegalAnalysisResult.key_points res
    /\ AnalysisSummary.answer_approach r
       = LegalAnalysisResult.answer_approach res
    /\ AnalysisSummary.study_suggestions r
       = LegalAnalysisResult.study_suggestions res
    /\ dict_get "success" (AnalysisSummary.processing_metadata r)
       = Some (JBool true)
    /\ rollbacks w' = rollbacks w
    /\ holds_record (AnalysisSummary.analysis_id r)
         (LegalAnalysisResult.confidence_score res)
         (LLMService.model_name (AnalysisService.llm_service self))
         (session w').
Proof.
  intros Hllm Hanswer Hparse Hf.
  assert (Havail : LLMService.is_available (AnalysisService.llm_service self)
                   = true)
    by (unfold LLMService.is_available; rewrite Hllm; reflexivity).
  destruct (analyze_legal_question_answered
              (AnalysisService.llm_service self) question_text context
              question_type_hint client text res w Hllm Hanswer Hparse)
    as (metadata & w1 & Hcall & Hsuccess & _ & Hmodel & Hs1 & Hr1).
  unfold AnalysisService.analyze_question.
  rewrite Havail. cbn [negb].
  apply try_Return_ex.
  eapply bind_Return_ex; [exact Hcall |]. cbn [fst snd].
  eapply bind_Return_ex; [reflexivity |].
  eapply bind_Return_ex; [reflexivity |].
  eapply bind_Return_ex; [reflexivity |].
  eapply bind_Return_ex.
  { apply commit_healthy. cbn. rewrite Hs1. exact Hf. }
  match goal with
  | |- exists _ _, bind (AnalysisService._enhance_analysis ?a) _ ?wx = _ /\ _ =>
      destruct (enhance_analysis_returns a wx) as (w2 & He & Hr2);
      assert (Hrec : recorded (QuestionAnalysis.id a)
                       (LegalAnalysisResult.confidence_score res)
                       (LLMService.model_name
                          (AnalysisService.llm_service self)) a)
        by (split; [reflexivity |]; split; [reflexivity | exact Hmodel]);
      pose proof (holds_record_enhance _ _ _ a Hrec wx) as Hh;
      rewrite He in Hh; cbn [snd] in Hh
  end.
  eapply bind_Return_ex; [exact He |].
  eexists _, _. split; [reflexivity |].
  cbn [AnalysisSummary.confidence_score AnalysisSummary.question_type
       AnalysisSummary.difficulty_level AnalysisSummary.key_points
       AnalysisSummary.answer_approach AnalysisSummary.study_suggestions
       AnalysisSummary.processing_metadata AnalysisSummary.analysis_id].
  do 6 (split; [reflexivity |]). split; [exact Hsuccess |]. split.
  - rewrite Hr2, rollbacks_log. cbn. unfold rollbacks in *. cbn.
    rewrite <- Hr1. unfold rollbacks. lia.
  - apply Hh. cbn.
    split; apply Exists_app; right; left;
      (split; [reflexivity |]; split; [reflexivity | exact Hmodel]).
Qed.

Lemma analyze_question_records_the_answer_witness :
  let client := fun _ : list LLMService.Message => Got "{}" in
  let llm :=
    {| LLMService.model_name := "gpt-4";
       LLMService.max_tokens := 4000;
       LLMService._llm := Some client;
       LLMService.format_instructions := "";
       LLMService.parse := fun _ => Got LLMService.placeholder_result;
       LLMService.json_loads := no_parse |} in
  exists r w',
    AnalysisService.analyze_question (analyst llm) contract_question "alice"
      None None None fresh_world = (Return r, w')
    /\ AnalysisSummary.question_type r = "未分類"
    /\ dict_get "success" (AnalysisSummary.processing_metadata r)
       = Some (JBool true)
    /\ rollbacks w' = rollbacks fresh_world.
Proof.
  intros client llm.
  destruct (analyze_question_records_the_answer (analyst llm)
              contract_question "alice" None None None client "{}"
              LLMService.placeholder_result fresh_world eq_refl
              (fun _ => eq_refl) eq_refl eq_refl)
    as (r & w' & Hrun & Htype & _ & _ & _ & _ & _ & Hsuccess & Hroll & _).
  exists r, w'. exact (conj Hrun (conj Htype (conj Hsuccess Hroll))).
Defined.
